(** * ReActLM: the agent loop, its tool registry and its trace recorder

    A shallow embedding of [reactlm/core] (types.py, base.py, agent.py), of
    [RedisMemory] (memory/redis_memory.py), of the search tools
    (tools/search.py) and of the prompt templates (prompts/templates.py).
    Python values are modelled
    by [PyVal], dictionaries by insertion-ordered association lists, the
    mutable [Agent] object together with the outside world by a heap that is
    threaded through a state-and-exception monad, and every call the agent
    makes to a collaborator (model, tool, memory) is recorded as an [Event]. *)

From Stdlib Require Import ZArith String Ascii List Bool Lia.
From Stdlib Require Import Floats.PrimFloat.
From stdpp Require Import base tactics option list strings pretty.

Open Scope Z_scope.
Open Scope string_scope.
Open Scope list_scope.

(* ================================================================= *)
(** ** Python values *)

(** The payloads that cross the agent's boundary are typed [Any] in the
    source; the model covers the values [json.loads] produces. *)
#[warnings="-register-all"]
Inductive PyVal : Type :=
| VNone
| VBool (b : bool)
| VInt (z : Z)
| VFloat (f : float)
| VStr (s : string)
| VList (items : list PyVal)
| VDict (entries : list (string * PyVal)).

(** [dict] with [str] keys.  Python dictionaries keep insertion order, which
    the prompt's tool catalog exposes, so entries are kept as a list. *)
Module Dict.

Definition t (V : Type) : Type := list (string * V).

Definition empty {V : Type} : t V := [].

(** [d.get(k)] / [d[k]] *)
Fixpoint get {V : Type} (k : string) (d : t V) : option V :=
  match d with
  | [] => None
  | (k', v) :: d' => if String.eqb k k' then Some v else get k d'
  end.

(** [k in d] *)
Definition contains {V : Type} (k : string) (d : t V) : bool :=
  match get k d with Some _ => true | None => false end.

(** [d[k] = v]: an existing key keeps its position, a new key goes last. *)
Fixpoint set {V : Type} (k : string) (v : V) (d : t V) : t V :=
  match d with
  | [] => [(k, v)]
  | (k', v') :: d' =>
      if String.eqb k k' then (k, v) :: d' else (k', v') :: set k v d'
  end.

(** [del d[k]] *)
Definition del {V : Type} (k : string) (d : t V) : t V :=
  List.filter (fun kv => negb (String.eqb k (fst kv))) d.

(** [d.items()] *)
Definition items {V : Type} (d : t V) : list (string * V) := d.

End Dict.

(* ================================================================= *)
(** ** Exceptions *)

(** The class of an exception.  [OtherError cls] is any other class that
    derives from [Exception] ([KeyError], [ConnectionError], ...);
    [BaseOnly cls] is a class that derives from [BaseException] but not
    from [Exception]: [asyncio.CancelledError], [KeyboardInterrupt],
    [SystemExit], [GeneratorExit]. *)
Inductive ExcClass : Type :=
| ValueError
| RuntimeError
| TypeError
| AttributeError
| UnboundLocalError
| OtherError (cls : string)
| BaseOnly (cls : string).

(** An exception object: its class and [str(e)]. *)
Record PyExc : Type := Exc { exc_class : ExcClass; exc_str : string }.

(** [isinstance(e, Exception)]: what a clause [except Exception] catches. *)
Definition is_Exception (e : PyExc) : bool :=
  match exc_class e with
  | BaseOnly _ => false
  | _ => true
  end.

(** What a call hands back: a value, or an exception in flight. *)
Inductive Result (A : Type) : Type :=
| Ok (a : A)
| Raise (e : PyExc).
Arguments Ok {A} a.
Arguments Raise {A} e.

Definition is_ok {A : Type} (r : Result A) : bool :=
  match r with Ok _ => true | Raise _ => false end.

(* ================================================================= *)
(** ** core/types.py *)

Module InputType.
Inductive t : Type := TEXT | IMAGE | AUDIO | VIDEO | BINARY.
End InputType.

Module OutputType.
Inductive t : Type := TEXT | IMAGE | AUDIO | VIDEO | BINARY | JSON.
End OutputType.

Inductive ExecutionMode : Type := STANDARD | YOLO.

Inductive AgentState : Type :=
| IDLE | THINKING | EXECUTING | WAITING | ERROR | COMPLETED.

Definition AgentState_value (s : AgentState) : string :=
  match s with
  | IDLE => "idle"
  | THINKING => "thinking"
  | EXECUTING => "executing"
  | WAITING => "waiting"
  | ERROR => "error"
  | COMPLETED => "completed"
  end.

(** [a == b] on output types. *)
Definition OutputType_eqb (a b : OutputType.t) : bool :=
  match a, b with
  | OutputType.TEXT, OutputType.TEXT
  | OutputType.IMAGE, OutputType.IMAGE
  | OutputType.AUDIO, OutputType.AUDIO
  | OutputType.VIDEO, OutputType.VIDEO
  | OutputType.BINARY, OutputType.BINARY
  | OutputType.JSON, OutputType.JSON => true
  | _, _ => false
  end.

(* ================================================================= *)
(** ** core/base.py: the envelopes and the trace record *)

Module BaseInput.
Record t : Type := mk {
  type : InputType.t;
  content : PyVal;
  metadata : Dict.t PyVal
}.
End BaseInput.

Module BaseOutput.
Record t : Type := mk {
  type : OutputType.t;
  content : PyVal;
  metadata : Dict.t PyVal
}.
End BaseOutput.

(** [datetime], as microseconds since the epoch. *)
Definition datetime : Type := Z.

Module BaseTrace.
Record t : Type := mk {
  session_id : string;
  timestamp : datetime;
  action : string;
  input : BaseInput.t;
  output : BaseOutput.t;
  metadata : Dict.t PyVal
}.
End BaseTrace.

(** The keyword arguments [_generate_next_action] forwards to the model. *)
Record GenKwargs : Type := mkGenKwargs {
  kw_temperature : float;
  kw_max_tokens : option Z;
  kw_stop_sequences : list string
}.

(** [AgentConfig] (agent.py) *)
Record AgentConfig : Type := mkAgentConfig {
  max_iterations : Z;
  temperature : float;
  mode : ExecutionMode;
  allowed_tools : list string;
  memory_type : string;
  trace_enabled : bool;
  timeout : float;
  max_tokens : option Z;
  stop_sequences : list string;
  cfg_metadata : Dict.t PyVal
}.

Definition AgentConfig_default : AgentConfig :=
  {| max_iterations := 10;
     temperature := 0x1.6666666666666p-1%float;
     mode := STANDARD;
     allowed_tools := ["*"];
     memory_type := "default";
     trace_enabled := true;
     timeout := 30%float;
     max_tokens := None;
     stop_sequences := [];
     cfg_metadata := Dict.empty |}.

(* ================================================================= *)
(** ** Interpreter operations on [Any] payloads *)

Definition py_type_name (v : PyVal) : string :=
  match v with
  | VNone => "NoneType"
  | VBool _ => "bool"
  | VInt _ => "int"
  | VFloat _ => "float"
  | VStr _ => "str"
  | VList _ => "list"
  | VDict _ => "dict"
  end.

(** [k == v] for a string [k]: only a string can be equal to it. *)
Definition str_eq_val (k : string) (v : PyVal) : bool :=
  match v with VStr s => String.eqb k s | _ => false end.

(** [k in container], for a string [k].  A dictionary tests its keys, a string
    tests for a substring, a list compares its elements, anything else is
    not iterable. *)
Definition py_in (k : string) (container : PyVal) : Result bool :=
  match container with
  | VDict d => Ok (Dict.contains k d)
  | VStr s => Ok (match index 0 k s with Some _ => true | None => false end)
  | VList l => Ok (existsb (str_eq_val k) l)
  | v => Raise (Exc TypeError
                  ("argument of type '" +:+ py_type_name v +:+ "' is not iterable"))
  end.

(** [container[k]], for a string [k]. *)
Definition py_getitem (container : PyVal) (k : string) : Result PyVal :=
  match container with
  | VDict d =>
      match Dict.get k d with
      | Some v => Ok v
      | None => Raise (Exc (OtherError "KeyError") ("'" +:+ k +:+ "'"))
      end
  | VStr _ => Raise (Exc TypeError "string indices must be integers, not 'str'")
  | VList _ => Raise (Exc TypeError "list indices must be integers or slices, not str")
  | v => Raise (Exc TypeError ("'" +:+ py_type_name v +:+ "' object is not subscriptable"))
  end.

(** [container.get(k, default)] *)
Definition py_get (container : PyVal) (k : string) (default : PyVal) : Result PyVal :=
  match container with
  | VDict d => Ok (match Dict.get k d with Some v => v | None => default end)
  | v => Raise (Exc AttributeError
                  ("'" +:+ py_type_name v +:+ "' object has no attribute 'get'"))
  end.

(** [key in d] for a dictionary [d] with string keys and an arbitrary [key]:
    the key is hashed first, lists and dictionaries are unhashable. *)
Definition py_in_dict {V : Type} (key : PyVal) (d : Dict.t V) : Result bool :=
  match key with
  | VStr s => Ok (Dict.contains s d)
  | VList _ | VDict _ =>
      Raise (Exc TypeError ("unhashable type: '" +:+ py_type_name key +:+ "'"))
  | _ => Ok false
  end.

(* ================================================================= *)
(** ** The runtime the code runs on *)

(** Builtins the source calls that are not code of the repository: [repr]
    (which [str] and f-strings use for everything but strings), the clock
    behind [datetime.utcnow()], and [uuid.uuid4()]. *)
Class PyRuntime (World : Type) : Type := {
  py_repr : PyVal -> string;
  utcnow : World -> datetime * World;
  uuid4 : World -> string * World
}.

(** [str(v)], as an f-string field formats it. *)
Definition py_format {World : Type} `{!PyRuntime World} (v : PyVal) : string :=
  match v with
  | VStr s => s
  | _ => py_repr v
  end.

(** [d[key]] for a dictionary [d] with string keys and an arbitrary [key]. *)
Definition py_dict_getitem {World : Type} `{!PyRuntime World} {V : Type}
    (d : Dict.t V) (key : PyVal) : Result V :=
  match key with
  | VStr s =>
      match Dict.get s d with
      | Some v => Ok v
      | None => Raise (Exc (OtherError "KeyError") (py_repr key))
      end
  | VList _ | VDict _ =>
      Raise (Exc TypeError ("unhashable type: '" +:+ py_type_name key +:+ "'"))
  | _ => Raise (Exc (OtherError "KeyError") (py_repr key))
  end.

(** [str(n)] for an [int]. *)
Definition py_str_int (n : Z) : string := pretty n.

Definition nl : string := String "010"%char EmptyString.
Definition dq : string := String "034"%char EmptyString.

(* ================================================================= *)
(** ** Collaborators (the abstract classes of base.py) *)

(** [BaseLLM]: the agent only awaits [generate]. *)
Module BaseLLM.
Record t (World : Type) : Type := mk {
  generate : string -> GenKwargs -> World -> Result BaseOutput.t * World
}.
Arguments mk {World} _.
Arguments generate {World} _ _ _ _.
End BaseLLM.

(** [BaseTool]: its class attributes and its two abstract methods. *)
Module BaseTool.
Record t (World : Type) : Type := mk {
  name : string;
  description : string;
  input_types : list InputType.t;
  output_type : OutputType.t;
  version : string;
  metadata : Dict.t PyVal;
  execute : BaseInput.t -> World -> Result BaseOutput.t * World;
  validate_input : BaseInput.t -> World -> Result bool * World
}.
Arguments mk {World} _ _ _ _ _ _ _ _.
Arguments name {World} _.
Arguments description {World} _.
Arguments input_types {World} _.
Arguments output_type {World} _.
Arguments version {World} _.
Arguments metadata {World} _.
Arguments execute {World} _ _ _.
Arguments validate_input {World} _ _ _.
End BaseTool.

(** [BaseMemory\[T\]]: the agent only awaits [store]. *)
Module BaseMemory.
Record t (World T : Type) : Type := mk {
  store : string -> T -> option (Dict.t PyVal) -> World -> Result unit * World
}.
Arguments mk {World T} _.
Arguments store {World T} _ _ _ _ _.
End BaseMemory.

(** One entry per call that reaches a collaborator, with what came back. *)
Inductive Event : Type :=
| EvGenerate (prompt : string) (kw : GenKwargs) (r : Result BaseOutput.t)
| EvToolExecute (tool_name : string) (input : BaseInput.t) (r : Result BaseOutput.t)
| EvToolValidate (tool_name : string) (input : BaseInput.t) (r : Result bool)
| EvMemoryStore (key : string) (trace : BaseTrace.t) (r : Result unit).

(* ================================================================= *)
(** ** memory/redis_memory.py: [RedisMemory.store] *)

Module RedisMemory.
Section RedisMemory.
Context {World : Type} {T : Type}.

(** What [store] serialises. *)
Record StorageData : Type := mkStorageData {
  sd_data : T;
  sd_metadata : Dict.t PyVal;
  sd_timestamp : string
}.

(** The connection and the library calls behind [store]:
    [redis.asyncio.Redis.set], [json.dumps(_, default=str)] and
    [datetime.now(UTC).isoformat()]. *)
Record t : Type := mk {
  client_set : string -> string -> option Z -> World -> Result unit * World;
  json_dumps : StorageData -> Result string;
  now_isoformat : World -> string * World;
  prefix : string;
  ttl : option Z
}.

(** [metadata or {}] *)
Definition metadata_or_empty (metadata : option (Dict.t PyVal)) : Dict.t PyVal :=
  match metadata with
  | Some ((_ :: _) as m) => m
  | _ => Dict.empty
  end.

(** The body of the [try] block. *)
Definition store_body (self : t) (key : string) (data : T)
    (metadata : option (Dict.t PyVal)) (w : World) : Result unit * World :=
  let '(ts, w1) := now_isoformat self w in
  let storage_data :=
    {| sd_data := data;
       sd_metadata := metadata_or_empty metadata;
       sd_timestamp := ts |} in
  let full_key := prefix self +:+ key in
  match json_dumps self storage_data with
  | Ok payload => client_set self full_key payload (ttl self) w1
  | Raise e => (Raise e, w1)
  end.

(** [store]: an exception of the body that [except Exception] catches is
    re-raised as a [RuntimeError]; any other one passes through. *)
Definition store (self : t) (key : string) (data : T)
    (metadata : option (Dict.t PyVal)) (w : World) : Result unit * World :=
  match store_body self key data metadata w with
  | (Ok u, w') => (Ok u, w')
  | (Raise e, w') =>
      if is_Exception e
      then (Raise (Exc RuntimeError ("Redis storage error: " +:+ exc_str e)), w')
      else (Raise e, w')
  end.

(** A [RedisMemory] used through the [BaseMemory] interface. *)
Definition as_memory (self : t) : BaseMemory.t World T :=
  BaseMemory.mk (store self).

End RedisMemory.
Arguments t World T : clear implicits.
End RedisMemory.

(* ================================================================= *)
(** ** The agent object, the heap and the monad *)

Section Agent.
Context {World : Type} `{!PyRuntime World}.

(** The attributes of an [Agent] instance. *)
Record Agent : Type := mkAgent {
  llm : BaseLLM.t World;
  config : AgentConfig;
  tools : Dict.t (BaseTool.t World);
  memory : option (BaseMemory.t World BaseTrace.t);
  state : AgentState;
  _session_id : string;
  _iteration : Z;
  _traces : list BaseTrace.t
}.

Definition set_state (s : AgentState) (a : Agent) : Agent :=
  mkAgent (llm a) (config a) (tools a) (memory a) s
          (_session_id a) (_iteration a) (_traces a).

Definition set_iteration (i : Z) (a : Agent) : Agent :=
  mkAgent (llm a) (config a) (tools a) (memory a) (state a)
          (_session_id a) i (_traces a).

Definition set_traces (ts : list BaseTrace.t) (a : Agent) : Agent :=
  mkAgent (llm a) (config a) (tools a) (memory a) (state a)
          (_session_id a) (_iteration a) ts.

Definition set_tools (d : Dict.t (BaseTool.t World)) (a : Agent) : Agent :=
  mkAgent (llm a) (config a) d (memory a) (state a)
          (_session_id a) (_iteration a) (_traces a).

(** What a method runs against: the object [self] and the outside world. *)
Record Heap : Type := mkHeap { self : Agent; world : World }.

(** A method body: from a heap to an outcome, the heap it leaves and the
    collaborator calls it made.  The outcome [None] is a loop that was not
    given enough fuel; [Some (Raise e)] is an exception in flight, which
    keeps the heap as the code left it. *)
Definition M (A : Type) : Type := Heap -> option (Result A) * Heap * list Event.

Definition ret {A : Type} (a : A) : M A :=
  fun h => (Some (Ok a), h, []).

Definition raise {A : Type} (e : PyExc) : M A :=
  fun h => (Some (Raise e), h, []).

Definition out_of_fuel {A : Type} : M A :=
  fun h => (None, h, []).

Definition bind {A B : Type} (m : M A) (f : A -> M B) : M B :=
  fun h =>
    match m h with
    | (Some (Ok a), h1, ev1) =>
        let '(r, h2, ev2) := f a h1 in (r, h2, ev1 ++ ev2)
    | (Some (Raise e), h1, ev1) => (Some (Raise e), h1, ev1)
    | (None, h1, ev1) => (None, h1, ev1)
    end.

(** [try: m  except Exception as e: handler e].  An exception that does
    not derive from [Exception] is not caught: it leaves the statement as
    it came, the handler does not run. *)
Definition try_except {A : Type} (m : M A) (handler : PyExc -> M A) : M A :=
  fun h =>
    match m h with
    | (Some (Raise e), h1, ev1) =>
        if is_Exception e
        then let '(r, h2, ev2) := handler e h1 in (r, h2, ev1 ++ ev2)
        else (Some (Raise e), h1, ev1)
    | other => other
    end.

Definition get_self : M Agent :=
  fun h => (Some (Ok (self h)), h, []).

Definition modify_self (f : Agent -> Agent) : M unit :=
  fun h => (Some (Ok tt), mkHeap (f (self h)) (world h), []).

(** An interpreter operation that may raise. *)
Definition lift {A : Type} (r : Result A) : M A :=
  fun h => (Some r, h, []).

(** A read of the runtime (clock, random source). *)
Definition runtime {A : Type} (f : World -> A * World) : M A :=
  fun h => let '(a, w) := f (world h) in (Some (Ok a), mkHeap (self h) w, []).

(** An awaited call to a collaborator, logged with its result. *)
Definition await {A : Type} (f : World -> Result A * World)
    (ev : Result A -> Event) : M A :=
  fun h => let '(r, w) := f (world h) in (Some r, mkHeap (self h) w, [ev r]).

End Agent.
Arguments Agent World : clear implicits.
Arguments Heap World : clear implicits.
Arguments M World A : clear implicits.

Declare Scope py_scope.
Delimit Scope py_scope with py.
Notation "x <- m ;; k" := (bind m (fun x => k))
  (at level 100, m at next level, right associativity) : py_scope.
Notation "m ;;; k" := (bind m (fun _ => k))
  (at level 100, right associativity) : py_scope.
Open Scope py_scope.

(* ================================================================= *)
(** ** core/agent.py: [Agent] *)

(** What the interpreter raises on a read of a local variable that was
    never assigned. *)
Definition unbound_local (var : string) : PyExc :=
  Exc UnboundLocalError
      ("cannot access local variable '" +:+ var +:+
       "' where it is not associated with a value").

(** Lines 64-68: a plain string is wrapped as a text input. *)
Definition as_input (input_data : string + BaseInput.t) : BaseInput.t :=
  match input_data with
  | inl s => BaseInput.mk InputType.TEXT (VStr s) Dict.empty
  | inr i => i
  end.

Section AgentMethods.
Context {World : Type} `{!PyRuntime World}.

(** [Agent.__init__] *)
Definition Agent__init__ (llm : BaseLLM.t World) (config : AgentConfig)
    (tools : option (Dict.t (BaseTool.t World)))
    (memory : option (BaseMemory.t World BaseTrace.t))
    (w : World) : Agent World * World :=
  let '(sid, w') := uuid4 w in
  (mkAgent llm config
           (match tools with Some d => d | None => Dict.empty end)
           memory IDLE sid 0 [],
   w').

(** [Agent.add_tool] *)
Definition add_tool (tool : BaseTool.t World) : M World unit :=
  self <- get_self ;;
  if Dict.contains (BaseTool.name tool) (tools self)
  then raise (Exc ValueError
                ("Tool " +:+ BaseTool.name tool +:+ " already exists"))
  else modify_self
         (fun a => set_tools (Dict.set (BaseTool.name tool) tool (tools a)) a).

(** [Agent.remove_tool] *)
Definition remove_tool (tool_name : string) : M World unit :=
  self <- get_self ;;
  if Dict.contains tool_name (tools self)
  then modify_self (fun a => set_tools (Dict.del tool_name (tools a)) a)
  else ret tt.

(** [Agent.traces] *)
Definition traces (a : Agent World) : list BaseTrace.t := _traces a.

(** [Agent._construct_prompt] *)
Definition _construct_prompt (a : Agent World) (input_data : BaseInput.t)
    (context : Dict.t PyVal) : string :=
  let tools_str :=
    String.concat nl
      (map (fun '(name, tool) =>
              "- " +:+ name +:+ ": " +:+ BaseTool.description tool)
           (Dict.items (tools a))) in
  "You are a helpful AI assistant that can use tools to find information and answer questions." +:+ nl +:+
  nl +:+
  "Available Tools:" +:+ nl +:+
  tools_str +:+ nl +:+
  nl +:+
  "To use a tool, respond with a JSON object in this format:" +:+ nl +:+
  "{" +:+ dq +:+ "tool" +:+ dq +:+ ": " +:+ dq +:+ "tool_name" +:+ dq +:+ ", "
      +:+ dq +:+ "input" +:+ dq +:+ ": " +:+ dq +:+ "what to search for" +:+ dq +:+ "}" +:+ nl +:+
  nl +:+
  "To provide a final answer, respond with a JSON object in this format:" +:+ nl +:+
  "{" +:+ dq +:+ "final_answer" +:+ dq +:+ ": {" +:+ dq +:+ "response" +:+ dq +:+ ": "
      +:+ dq +:+ "your detailed response" +:+ dq +:+ ", "
      +:+ dq +:+ "confidence" +:+ dq +:+ ": 0.9}}" +:+ nl +:+
  nl +:+
  "Current Context:" +:+ nl +:+
  py_format (VDict context) +:+ nl +:+
  nl +:+
  "User Query: " +:+ py_format (BaseInput.content input_data) +:+ nl +:+
  nl +:+
  "Think step by step:" +:+ nl +:+
  "1. Do you need to use any tools to answer this question?" +:+ nl +:+
  "2. If yes, which tool would be most helpful?" +:+ nl +:+
  "3. If no, can you provide a final answer based on the current context?" +:+ nl +:+
  nl +:+
  "Respond with either a tool call or a final answer in the JSON format specified above:".

(** The keyword arguments of the [generate] call. *)
Definition generate_kwargs (c : AgentConfig) : GenKwargs :=
  {| kw_temperature := temperature c;
     kw_max_tokens := max_tokens c;
     kw_stop_sequences := stop_sequences c |}.

(** [Agent._generate_next_action] *)
Definition _generate_next_action (input_data : BaseInput.t)
    (context : Dict.t PyVal) : M World BaseOutput.t :=
  self <- get_self ;;
  let prompt := _construct_prompt self input_data context in
  let kw := generate_kwargs (config self) in
  await (BaseLLM.generate (llm self) prompt kw) (EvGenerate prompt kw).

(** The key a trace is mirrored under. *)
Definition trace_key (a : Agent World) : string :=
  "trace:" +:+ _session_id a +:+ ":" +:+ py_str_int (_iteration a).

(** The record [_store_trace] builds. *)
Definition make_trace (a : Agent World) (now : datetime) (action : string)
    (input : BaseInput.t) (output : BaseOutput.t) : BaseTrace.t :=
  {| BaseTrace.session_id := _session_id a;
     BaseTrace.timestamp := now;
     BaseTrace.action := action;
     BaseTrace.input := input;
     BaseTrace.output := output;
     BaseTrace.metadata :=
       [("iteration", VInt (_iteration a));
        ("state", VStr (AgentState_value (state a)))] |}.

(** [Agent._store_trace] *)
Definition _store_trace (action : string) (input : BaseInput.t)
    (output : BaseOutput.t) : M World unit :=
  self <- get_self ;;
  now <- runtime utcnow ;;
  let trace := make_trace self now action input output in
  modify_self (fun a => set_traces (_traces a ++ [trace]) a) ;;;
  match memory self with
  | Some m =>
      let key := trace_key self in
      await (BaseMemory.store m key trace None) (EvMemoryStore key trace)
  | None => ret tt
  end.

(** The local variables of [execute].  [final_answer] starts as [None];
    [action] has no binding until the loop body assigns it. *)
Record Locals : Type := mkLocals {
  input_data : BaseInput.t;
  context : Dict.t PyVal;
  final_answer : option BaseOutput.t;
  action : option BaseOutput.t
}.

Definition set_context (c : Dict.t PyVal) (l : Locals) : Locals :=
  mkLocals (input_data l) c (final_answer l) (action l).

Definition set_final_answer (f : option BaseOutput.t) (l : Locals) : Locals :=
  mkLocals (input_data l) (context l) f (action l).

Definition set_action (a : BaseOutput.t) (l : Locals) : Locals :=
  mkLocals (input_data l) (context l) (final_answer l) (Some a).

(** Reading a local variable that has no binding yet. *)
Definition read_local {A : Type} (var : string) (v : option A) : M World A :=
  match v with
  | Some a => ret a
  | None => raise (unbound_local var)
  end.

(** How one pass of the loop body ends. *)
Inductive LoopCtl : Type :=
| Next (l : Locals)
| Break (l : Locals)
| Return (v : BaseOutput.t).

(** Lines 107-131: the model asked for a tool. *)
Definition dispatch_tool (l : Locals) (response_data : PyVal) : M World LoopCtl :=
  modify_self (set_state EXECUTING) ;;;
  tool_name <- lift (py_getitem response_data "tool") ;;
  tool_input <- lift (py_get response_data "input" (VStr EmptyString)) ;;
  self <- get_self ;;
  found <- lift (py_in_dict tool_name (tools self)) ;;
  if found then
    tool <- lift (py_dict_getitem (tools self) tool_name) ;;
    let arg := BaseInput.mk InputType.TEXT tool_input Dict.empty in
    tool_result <- await (BaseTool.execute tool arg)
                         (EvToolExecute (py_format tool_name) arg) ;;
    (if trace_enabled (config self)
     then _store_trace ("tool_execution:" +:+ py_format tool_name)
                       (input_data l) tool_result
     else ret tt) ;;;
    ret (Next (set_context
                 (Dict.set "last_tool_result"
                           (BaseOutput.content tool_result) (context l))
                 l))
  else raise (Exc ValueError ("Tool " +:+ py_format tool_name +:+ " not found")).

(** Lines 93-131: parse the model's response. *)
Definition parse_response (l : Locals) (action : BaseOutput.t) : M World LoopCtl :=
  if OutputType_eqb (BaseOutput.type action) OutputType.JSON then
    let response_data := BaseOutput.content action in
    is_final <- lift (py_in "final_answer" response_data) ;;
    if is_final then
      v <- lift (py_getitem response_data "final_answer") ;;
      ret (Break (set_final_answer
                    (Some (BaseOutput.mk OutputType.JSON v (BaseOutput.metadata action))) l))
    else
      is_tool <- lift (py_in "tool" response_data) ;;
      if is_tool then dispatch_tool l response_data else ret (Next l)
  else ret (Next l).

(** Lines 78-136: one pass of the loop body. *)
Definition loop_body (l : Locals) : M World LoopCtl :=
  modify_self (fun a => set_iteration (_iteration a + 1) a) ;;;
  modify_self (set_state THINKING) ;;;
  act <- _generate_next_action (input_data l) (context l) ;;
  let l := set_action act l in
  self <- get_self ;;
  (if trace_enabled (config self)
   then _store_trace "llm_generation" (input_data l) act
   else ret tt) ;;;
  ctl <- parse_response l act ;;
  match ctl with
  | Next l' =>
      match final_answer l' with
      | Some fa => modify_self (set_state COMPLETED) ;;; ret (Return fa)
      | None => ret (Next l')
      end
  | other => ret other
  end.

(** How the [while] statement ends: by falling out of it (its condition
    became false, or [break]), or by the [return] inside it. *)
Inductive LoopExit : Type :=
| Fell (l : Locals)
| Returned (v : BaseOutput.t).

(** Line 77: [while self._iteration < self.config.max_iterations]. *)
Fixpoint while_loop (fuel : nat) (l : Locals) : M World LoopExit :=
  self <- get_self ;;
  if (_iteration self <? max_iterations (config self))%Z then
    match fuel with
    | O => out_of_fuel
    | S fuel' =>
        ctl <- loop_body l ;;
        match ctl with
        | Next l' => while_loop fuel' l'
        | Break l' => ret (Fell l')
        | Return v => ret (Returned v)
        end
    end
  else ret (Fell l).

(** Lines 138-148: after the loop. *)
Definition after_loop (l : Locals) : M World BaseOutput.t :=
  l <- match final_answer l with
       | None =>
           act <- read_local "action" (action l) ;;
           ret (set_final_answer (Some act) l)
       | Some _ => ret l
       end ;;
  match final_answer l with
  | None =>
      modify_self (set_state ERROR) ;;;
      raise (Exc RuntimeError "Max iterations reached without completion")
  | Some fa =>
      modify_self (set_state COMPLETED) ;;;
      ret fa
  end.

(** [context or {}] *)
Definition context_or_empty (context : option (Dict.t PyVal)) : Dict.t PyVal :=
  match context with
  | Some ((_ :: _) as c) => c
  | _ => Dict.empty
  end.

(** [Agent.execute].  The loop gets one unit of fuel per iteration the
    bound allows. *)
Definition execute (input_data : string + BaseInput.t)
    (context : option (Dict.t PyVal)) : M World BaseOutput.t :=
  try_except
    (let input_data := as_input input_data in
     modify_self (set_state THINKING) ;;;
     modify_self (set_iteration 0) ;;;
     let context := context_or_empty context in
     let l := mkLocals input_data context None None in
     self <- get_self ;;
     exit <- while_loop (Z.to_nat (max_iterations (config self))) l ;;
     match exit with
     | Returned v => ret v
     | Fell l' => after_loop l'
     end)
    (fun e => modify_self (set_state ERROR) ;;; raise e).

End AgentMethods.

(* ================================================================= *)
(** ** Observations on a run *)

(** What running a method body against a heap yields. *)
Definition Run (World A : Type) : Type :=
  (option (Result A) * Heap World * list Event)%type.

Definition outcome {World A : Type} (r : Run World A) : option (Result A) :=
  fst (fst r).

Definition heap_after {World A : Type} (r : Run World A) : Heap World :=
  snd (fst r).

Definition events {World A : Type} (r : Run World A) : list Event := snd r.

(** The attributes of [self] once the method is over. *)
Definition agent_after {World A : Type} (r : Run World A) : Agent World :=
  self (heap_after r).

(** How a run ended, whatever it computed: [Some None] for a normal
    return, [Some (Some e)] for the exception [e], [None] for lack of
    fuel. *)
Definition ending {A : Type} (o : option (Result A)) : option (option PyExc) :=
  match o with
  | Some (Ok _) => Some None
  | Some (Raise e) => Some (Some e)
  | None => None
  end.

Definition is_model_call (ev : Event) : bool :=
  match ev with EvGenerate _ _ _ => true | _ => false end.

Definition is_tool_call (ev : Event) : bool :=
  match ev with EvToolExecute _ _ _ => true | _ => false end.

Definition is_validate_call (ev : Event) : bool :=
  match ev with EvToolValidate _ _ _ => true | _ => false end.

Definition is_store_call (ev : Event) : bool :=
  match ev with EvMemoryStore _ _ _ => true | _ => false end.

(** A model or tool call that came back with a value. *)
Definition returned_model_call (ev : Event) : bool :=
  match ev with EvGenerate _ _ (Ok _) => true | _ => false end.

Definition returned_tool_call (ev : Event) : bool :=
  match ev with EvToolExecute _ _ (Ok _) => true | _ => false end.

Definition count (p : Event -> bool) (evs : list Event) : nat :=
  length (List.filter p evs).

Definition model_calls : list Event -> nat := count is_model_call.
Definition tool_calls : list Event -> nat := count is_tool_call.
Definition validate_calls : list Event -> nat := count is_validate_call.

(** The exception a collaborator call ended with, if it did. *)
Definition failure_of (ev : Event) : option PyExc :=
  match ev with
  | EvGenerate _ _ (Raise e) => Some e
  | EvToolExecute _ _ (Raise e) => Some e
  | EvToolValidate _ _ (Raise e) => Some e
  | EvMemoryStore _ _ (Raise e) => Some e
  | _ => None
  end.

(** The action the loop is holding after the calls [evs]: what the latest
    model call returned.  [held] is the action held before them. *)
Fixpoint last_action (held : option BaseOutput.t) (evs : list Event)
  : option BaseOutput.t :=
  match evs with
  | [] => held
  | EvGenerate _ _ (Ok act) :: evs' => last_action (Some act) evs'
  | EvGenerate _ _ (Raise _) :: evs' => last_action None evs'
  | _ :: evs' => last_action held evs'
  end.

(** The envelope that wraps the [input] entry of the map [d], the empty
    string when there is none. *)
Definition text_input_of (d : Dict.t PyVal) : BaseInput.t :=
  BaseInput.mk InputType.TEXT
    (match Dict.get "input" d with
     | Some v => v
     | None => VStr EmptyString
     end)
    Dict.empty.

(** The tool a model's action names and the argument it asks to pass. *)
Definition dispatch_of (act : BaseOutput.t) : option (string * BaseInput.t) :=
  match BaseOutput.content act with
  | VDict d =>
      match Dict.get "tool" d with
      | Some (VStr tool_name) => Some (tool_name, text_input_of d)
      | _ => None
      end
  | _ => None
  end.

(** The model's response carries neither a [final_answer] key nor a [tool]
    key: when it is of kind JSON, both membership tests of the loop answer
    no. *)
Definition undecided (act : BaseOutput.t) : Prop :=
  BaseOutput.type act = OutputType.JSON ->
  py_in "final_answer" (BaseOutput.content act) = Ok false /\
  py_in "tool" (BaseOutput.content act) = Ok false.

(** The response is a JSON map without [final_answer] whose [tool] entry
    is the name [tool_name]. *)
Definition requests_tool (act : BaseOutput.t) (tool_name : string) : Prop :=
  BaseOutput.type act = OutputType.JSON /\
  exists d, BaseOutput.content act = VDict d /\
            Dict.get "final_answer" d = None /\
            Dict.get "tool" d = Some (VStr tool_name).

(** The response is a JSON map with a [final_answer] entry [v]. *)
Definition gives_final_answer (act : BaseOutput.t) (v : PyVal) : Prop :=
  BaseOutput.type act = OutputType.JSON /\
  exists d, BaseOutput.content act = VDict d /\
            Dict.get "final_answer" d = Some v.

Section Assumptions.
Context {World : Type}.

(** Mirroring a trace cannot fail: tracing is off, no memory is attached,
    or the memory accepts every write. *)
Definition mirror_ok (a : Agent World) : Prop :=
  forall m, memory a = Some m -> trace_enabled (config a) = true ->
  forall key t md w, fst (BaseMemory.store m key t md w) = Ok tt.

(** The model answers every query, with [P] of what it answers. *)
Definition model_always (P : BaseOutput.t -> Prop) (a : Agent World) : Prop :=
  forall prompt kw w,
  exists act, fst (BaseLLM.generate (llm a) prompt kw w) = Ok act /\ P act.

(** Two agent objects with the same collaborators, configuration and
    session. *)
Definition same_setup (a b : Agent World) : Prop :=
  llm b = llm a /\ config b = config a /\ tools b = tools a /\
  memory b = memory a /\ _session_id b = _session_id a.

End Assumptions.

(* ================================================================= *)
(** ** Properties of runs that compose *)

Section Relations.
Context {World : Type} `{!PyRuntime World}.

(** A relation between the heap a method starts from, how it ends, the heap
    it leaves and the calls it made. *)
Definition RunRel : Type :=
  Heap World -> option (option PyExc) -> Heap World -> list Event -> Prop.

(** Every run of [m] is in [R]. *)
Definition holds {A : Type} (R : RunRel) (m : M World A) : Prop :=
  forall h, R h (ending (outcome (m h))) (heap_after (m h)) (events (m h)).

(** [R] is kept by the control structure around the loop body: doing
    nothing, raising, running one piece after another, and the writes to
    [self.state] and [self._iteration]. *)
Record Compositional (R : RunRel) : Prop := {
  comp_skip : forall h, R h (Some None) h [];
  comp_fuel : forall h, R h None h [];
  comp_raise : forall h e, R h (Some (Some e)) h [];
  comp_seq : forall h1 h2 h3 e1 e2 s,
    R h1 (Some None) h2 e1 -> R h2 s h3 e2 -> R h1 s h3 (e1 ++ e2);
  comp_state : forall h1 h2 s e st,
    R h1 s h2 e -> R h1 s (mkHeap (set_state st (self h2)) (world h2)) e;
  comp_iteration : forall h1 h2 s e i,
    R h1 s h2 e -> R h1 s (mkHeap (set_iteration i (self h2)) (world h2)) e
}.

(** The run keeps the collaborators, the configuration and the session
    id, and only appends to the trace log, under that session id. *)
Definition frame : RunRel := fun h s h' e =>
  same_setup (self h) (self h') /\
  exists ts, _traces (self h') = _traces (self h) ++ ts /\
             Forall (fun t => BaseTrace.session_id t = _session_id (self h)) ts.

(** An exception that came out of a collaborator is the exception the run
    ends with. *)
Definition propagates : RunRel := fun h s h' e =>
  forall ev x, In ev e -> failure_of ev = Some x -> s = Some (Some x).

(** One trace per model call and per tool call that returned, when tracing
    is enabled; none when it is not. *)
Definition traced : RunRel := fun h s h' e =>
  config (self h') = config (self h) /\
  if trace_enabled (config (self h))
  then length (_traces (self h')) =
       (length (_traces (self h)) + count returned_model_call e
                                  + count returned_tool_call e)%nat
  else _traces (self h') = _traces (self h).

(** A tool call is made for the tool, and with the argument, that the
    action the loop holds asks for; [validate_input] is never called. *)
Fixpoint well_dispatched (held : option BaseOutput.t) (evs : list Event) : Prop :=
  match evs with
  | [] => True
  | EvGenerate _ _ (Ok act) :: evs' => well_dispatched (Some act) evs'
  | EvGenerate _ _ (Raise _) :: evs' => well_dispatched None evs'
  | EvToolExecute tool_name arg _ :: evs' =>
      (exists act, held = Some act /\ dispatch_of act = Some (tool_name, arg)) /\
      well_dispatched held evs'
  | EvToolValidate _ _ _ :: _ => False
  | EvMemoryStore _ _ _ :: evs' => well_dispatched held evs'
  end.

Definition dispatched : RunRel := fun h s h' e =>
  forall held, well_dispatched held e.

(** The exception [execute] raises for a tool that is not registered. *)
Definition tool_not_found (tool_name : string) : PyExc :=
  Exc ValueError ("Tool " +:+ tool_name +:+ " not found").

(** A request for a tool that is not registered ends the run with
    [tool_not_found], and no model or tool call follows it. *)
Definition refuses : RunRel := fun h s h' e =>
  same_setup (self h) (self h') /\
  (mirror_ok (self h) ->
   forall before prompt kw act after tool_name,
     e = before ++ EvGenerate prompt kw (Ok act) :: after ->
     requests_tool act tool_name ->
     Dict.contains tool_name (tools (self h)) = false ->
     s = Some (Some (tool_not_found tool_name)) /\
     model_calls after = 0%nat /\ tool_calls after = 0%nat).

(** Every [tool_execution] trace the run appends names a registered
    tool. *)
Definition traces_registered_tools : RunRel := fun h s h' e =>
  same_setup (self h) (self h') /\
  exists ts, _traces (self h') = _traces (self h) ++ ts /\
    Forall (fun t => forall tool_name,
              BaseTrace.action t = "tool_execution:" +:+ tool_name ->
              Dict.contains tool_name (tools (self h)) = true) ts.

End Relations.
Arguments RunRel World : clear implicits.

(* ================================================================= *)
(** ** More interpreter operations *)

(** [str.isspace] of a character; a character of the model is a code point
    below 256. *)
Definition py_isspace (c : ascii) : bool :=
  let n := nat_of_ascii c in
  (Nat.leb 9 n && Nat.leb n 13) || (Nat.leb 28 n && Nat.leb n 32) ||
  Nat.eqb n 133 || Nat.eqb n 160.

Fixpoint py_lstrip (s : string) : string :=
  match s with
  | EmptyString => EmptyString
  | String c s' => if py_isspace c then py_lstrip s' else s
  end.

Fixpoint py_rstrip (s : string) : string :=
  match s with
  | EmptyString => EmptyString
  | String c s' =>
      match py_rstrip s' with
      | EmptyString => if py_isspace c then EmptyString else String c EmptyString
      | kept => String c kept
      end
  end.

(** [s.strip()] *)
Definition py_strip (s : string) : string := py_rstrip (py_lstrip s).

(** [len(s)] *)
Definition py_len (s : string) : Z := Z.of_nat (String.length s).

(** [l[:n]] on the items of a sequence: a negative [n] counts from the
    end. *)
Definition py_slice_to {A : Type} (l : list A) (n : Z) : list A :=
  if (0 <=? n)%Z then firstn (Z.to_nat n) l
  else firstn (Z.to_nat (Z.of_nat (length l) + n)) l.

(** One step after another in code that may raise. *)
Definition and_then {A B : Type} (r : Result A) (f : A -> Result B) : Result B :=
  match r with
  | Ok a => f a
  | Raise e => Raise e
  end.

Definition InputType_eqb (a b : InputType.t) : bool :=
  match a, b with
  | InputType.TEXT, InputType.TEXT
  | InputType.IMAGE, InputType.IMAGE
  | InputType.AUDIO, InputType.AUDIO
  | InputType.VIDEO, InputType.VIDEO
  | InputType.BINARY, InputType.BINARY => true
  | _, _ => false
  end.

(* ================================================================= *)
(** ** tools/search.py *)

(** What [aiohttp] hands back for a request: the status, and the body as
    [await response.text()] and [await response.json()] read it. *)
Module Http.
Record Response : Type := mkResponse {
  status : Z;
  text : Result string;
  json : Result PyVal
}.
End Http.

(** What the search tools run on besides the interpreter: the [GET] of an
    [aiohttp] session (endpoint, headers, query parameters), the clock
    behind [datetime.now(UTC).isoformat()], and the exception that
    [d[:n]] raises for a dictionary [d] (a [TypeError] before Python 3.12, a
    [KeyError] since). *)
Class SearchEnv (World : Type) : Type := {
  session_get : string -> Dict.t string -> Dict.t PyVal -> World ->
                Result Http.Response * World;
  now_isoformat : World -> string * World;
  dict_slice_error : Z -> PyExc
}.

Module SearchTool.

Definition name : string := "search".
Definition description : string :=
  "Search for information about a topic using a web search API".
Definition input_types : list InputType.t := [InputType.TEXT].
Definition output_type : OutputType.t := OutputType.JSON.
Definition version : string := "1.0.0".

Record t : Type := mk {
  api_key : string;
  endpoint : string;
  max_results : Z;
  headers : Dict.t string
}.

(** [SearchTool.__init__] *)
Definition __init__ (api_key : string) (endpoint : option string)
    (max_results : option Z) : t :=
  {| api_key := api_key;
     endpoint := match endpoint with
                 | Some e => e
                 | None => "https://api.bing.microsoft.com/v7.0/search"
                 end;
     max_results := match max_results with Some n => n | None => 5 end;
     headers := [("Ocp-Apim-Subscription-Key", api_key);
                 ("Accept", "application/json")] |}.

(** The dictionary built for one item of the response. *)
Definition result_of_item (item : PyVal) : Result PyVal :=
  and_then (py_get item "name" (VStr EmptyString)) (fun title =>
  and_then (py_get item "snippet" (VStr EmptyString)) (fun snippet =>
  and_then (py_get item "url" (VStr EmptyString)) (fun url =>
  and_then (py_get item "datePublished" (VStr EmptyString)) (fun date_published =>
  Ok (VDict [("title", title); ("snippet", snippet); ("url", url);
             ("date_published", date_published)]))))).

(** The [for] loop: the first item that fails ends it. *)
Fixpoint collect (items : list PyVal) : Result (list PyVal) :=
  match items with
  | [] => Ok []
  | item :: rest =>
      and_then (result_of_item item) (fun r =>
      and_then (collect rest) (fun rs => Ok (r :: rs)))
  end.

Section Execute.
Context {World : Type} `{!SearchEnv World}.

(** The items the loop runs over: [value[:n]], iterated.  A string is
    sliced and gives its characters. *)
Definition sliced_items (value : PyVal) (n : Z) : Result (list PyVal) :=
  match value with
  | VList l => Ok (py_slice_to l n)
  | VStr s =>
      Ok (map (fun c => VStr (String c EmptyString))
              (py_slice_to (list_ascii_of_string s) n))
  | VDict _ => Raise (dict_slice_error n)
  | v => Raise (Exc TypeError
                  ("'" +:+ py_type_name v +:+ "' object is not subscriptable"))
  end.

(** Lines 52-58: from the decoded body to the list of results. *)
Definition results_of (self : t) (data : PyVal) : Result (list PyVal) :=
  and_then (py_get data "webPages" (VDict [])) (fun web_pages =>
  and_then (py_get web_pages "value" (VList [])) (fun value =>
  and_then (sliced_items value (max_results self)) collect)).

(** The envelope both tools return. *)
Definition search_output (query : PyVal) (results : list PyVal)
    (timestamp source : string) : BaseOutput.t :=
  BaseOutput.mk OutputType.JSON
    (VDict [("query", query);
            ("results", VList results);
            ("metadata",
             VDict [("total_results", VInt (Z.of_nat (length results)));
                    ("timestamp", VStr timestamp);
                    ("source", VStr source)])])
    Dict.empty.

(** The body of the [try] block of [execute]. *)
Definition execute_body (self : t) (input_data : BaseInput.t) (w : World)
  : Result BaseOutput.t * World :=
  match session_get (endpoint self) (headers self)
                    [("q", BaseInput.content input_data)] w with
  | (Raise e, w1) => (Raise e, w1)
  | (Ok response, w1) =>
      if negb (Http.status response =? 200)%Z then
        match Http.text response with
        | Raise e => (Raise e, w1)
        | Ok body =>
            (Raise (Exc RuntimeError
                      ("Search API error: " +:+ py_str_int (Http.status response)
                       +:+ " - " +:+ body)),
             w1)
        end
      else
        match and_then (Http.json response) (results_of self) with
        | Raise e => (Raise e, w1)
        | Ok results =>
            let '(ts, w2) := now_isoformat w1 in
            (Ok (search_output (BaseInput.content input_data) results ts "bing"),
             w2)
        end
  end.

(** [SearchTool.execute]: what the body raises and [except Exception]
    catches is raised again as a [RuntimeError]; any other exception passes
    through. *)
Definition execute (self : t) (input_data : BaseInput.t) (w : World)
  : Result BaseOutput.t * World :=
  match execute_body self input_data w with
  | (Ok out, w') => (Ok out, w')
  | (Raise e, w') =>
      if is_Exception e
      then (Raise (Exc RuntimeError ("Search execution error: " +:+ exc_str e)),
            w')
      else (Raise e, w')
  end.

(** [SearchTool.validate_input] *)
Definition validate_input (self : t) (input_data : BaseInput.t) : bool :=
  existsb (InputType_eqb (BaseInput.type input_data)) input_types &&
  match BaseInput.content input_data with
  | VStr s => (0 <? py_len (py_strip s))%Z
  | _ => false
  end.

(** A [SearchTool] used through the [BaseTool] interface. *)
Definition as_tool (self : t) : BaseTool.t World :=
  BaseTool.mk name description input_types output_type version Dict.empty
    (execute self)
    (fun input_data w => (Ok (validate_input self input_data), w)).

End Execute.
End SearchTool.

Module MockSearchTool.

Definition name : string := "search".
Definition description : string := "Search for information (simulated results)".
Definition input_types : list InputType.t := [InputType.TEXT].
Definition output_type : OutputType.t := OutputType.JSON.
Definition version : string := "1.0.0".

Section Execute.
Context {World : Type} `{!PyRuntime World} `{!SearchEnv World}.

(** [MockSearchTool.execute] *)
Definition execute (input_data : BaseInput.t) (w : World)
  : Result BaseOutput.t * World :=
  let content := BaseInput.content input_data in
  let '(published1, w1) := now_isoformat w in
  let '(published2, w2) := now_isoformat w1 in
  let results :=
    [VDict [("title", VStr ("Result 1 for " +:+ py_format content));
            ("snippet",
             VStr "This is a simulated search result with relevant information.");
            ("url", VStr "https://example.com/1");
            ("date_published", VStr published1)];
     VDict [("title", VStr ("Result 2 for " +:+ py_format content));
            ("snippet",
             VStr "Another simulated result with different information.");
            ("url", VStr "https://example.com/2");
            ("date_published", VStr published2)]] in
  let '(ts, w3) := now_isoformat w2 in
  (Ok (SearchTool.search_output content results ts "mock"), w3).

(** [MockSearchTool.validate_input] *)
Definition validate_input (input_data : BaseInput.t) : bool :=
  existsb (InputType_eqb (BaseInput.type input_data)) input_types &&
  match BaseInput.content input_data with
  | VStr s => (0 <? py_len (py_strip s))%Z
  | _ => false
  end.

(** A [MockSearchTool] used through the [BaseTool] interface. *)
Definition as_tool : BaseTool.t World :=
  BaseTool.mk name description input_types output_type version Dict.empty
    execute
    (fun input_data w => (Ok (validate_input input_data), w)).

End Execute.
End MockSearchTool.

(* ================================================================= *)
(** ** memory/redis_memory.py: [retrieve], [delete], [clear], [close] *)

Module RedisMemoryMethods.

(** The calls [clear] makes to the connection, with what came back. *)
Inductive Call : Type :=
| Scan (cursor : Z) (pattern : string) (count : Z) (r : Result (Z * list string))
| Delete (keys : list string) (r : Result Z).

Section Methods.
Context {World T : Type}.

(** The rest of the connection ([get], [delete], [scan], [close] of
    [redis.asyncio.Redis]) and [json.loads]. *)
Record Client : Type := mkClient {
  client_get : string -> World -> Result (option string) * World;
  client_delete : list string -> World -> Result Z * World;
  client_scan : Z -> string -> Z -> World -> Result (Z * list string) * World;
  client_close : World -> Result unit * World;
  json_loads : string -> Result PyVal
}.

(** The body of the [try] block of [retrieve]; [None] is [VNone]. *)
Definition retrieve_body (self : RedisMemory.t World T) (client : Client)
    (key : string) (w : World) : Result PyVal * World :=
  let full_key := RedisMemory.prefix self +:+ key in
  match client_get client full_key w with
  | (Raise e, w1) => (Raise e, w1)
  | (Ok None, w1) => (Ok VNone, w1)
  | (Ok (Some data), w1) =>
      (and_then (json_loads client data) (fun storage_data =>
       py_getitem storage_data "data"),
       w1)
  end.

(** [RedisMemory.retrieve] *)
Definition retrieve (self : RedisMemory.t World T) (client : Client)
    (key : string) (w : World) : Result PyVal * World :=
  match retrieve_body self client key w with
  | (Ok v, w') => (Ok v, w')
  | (Raise e, w') =>
      if is_Exception e
      then (Raise (Exc RuntimeError ("Redis retrieval error: " +:+ exc_str e)),
            w')
      else (Raise e, w')
  end.

(** [RedisMemory.delete] *)
Definition delete (self : RedisMemory.t World T) (client : Client)
    (key : string) (w : World) : Result bool * World :=
  let full_key := RedisMemory.prefix self +:+ key in
  match client_delete client [full_key] w with
  | (Ok result, w') => (Ok (0 <? result)%Z, w')
  | (Raise e, w') =>
      if is_Exception e
      then (Raise (Exc RuntimeError ("Redis deletion error: " +:+ exc_str e)),
            w')
      else (Raise e, w')
  end.

(** The [while True] loop of [clear], from the cursor it holds; every call
    to the connection is logged.  The outcome [None] is a loop that was not
    given enough fuel. *)
Fixpoint clear_loop (fuel : nat) (client : Client) (pattern : string)
    (cursor : Z) (w : World) : option (Result unit) * World * list Call :=
  match fuel with
  | O => (None, w, [])
  | S fuel' =>
      match client_scan client cursor pattern 100 w with
      | (Raise e, w1) =>
          (Some (Raise e), w1, [Scan cursor pattern 100 (Raise e)])
      | (Ok (cursor', keys), w1) =>
          let scanned := Scan cursor pattern 100 (Ok (cursor', keys)) in
          let '(deleted, w2, calls) :=
            match keys with
            | [] => (Ok 0, w1, [])
            | _ :: _ =>
                let '(r, w2) := client_delete client keys w1 in
                (r, w2, [Delete keys r])
            end in
          match deleted with
          | Raise e => (Some (Raise e), w2, scanned :: calls)
          | Ok _ =>
              if (cursor' =? 0)%Z then (Some (Ok tt), w2, scanned :: calls)
              else
                let '(r, w3, calls') :=
                  clear_loop fuel' client pattern cursor' w2 in
                (r, w3, scanned :: calls ++ calls')
          end
      end
  end.

(** [RedisMemory.clear] *)
Definition clear (fuel : nat) (self : RedisMemory.t World T) (client : Client)
    (w : World) : option (Result unit) * World * list Call :=
  let pattern := RedisMemory.prefix self +:+ "*" in
  match clear_loop fuel client pattern 0 w with
  | (Some (Raise e), w', calls) =>
      if is_Exception e
      then (Some (Raise (Exc RuntimeError ("Redis clear error: " +:+ exc_str e))),
            w', calls)
      else (Some (Raise e), w', calls)
  | other => other
  end.

(** [RedisMemory.close] *)
Definition close (client : Client) (w : World) : Result unit * World :=
  client_close client w.

End Methods.
Arguments Client World : clear implicits.
End RedisMemoryMethods.

(* ================================================================= *)
(** ** prompts/templates.py *)

(** Where [str.format] is in its scan of the template: in literal text,
    just after a brace that may be the first of a doubled one, or in the
    name of a replacement field. *)
Inductive FormatState : Type :=
| InText
| AfterOpen
| AfterClose
| InField (name : string).

Definition is_char (a b : ascii) : bool := Ascii.eqb a b.

Section StrFormat.
Context {World : Type} `{!PyRuntime World}.

(** The end of a replacement field named [name]: the keyword argument of
    that name, formatted.  A name made of digits only, or empty, asks for a
    positional argument, which the model does not cover ([None]). *)
Definition format_field (name : string) (kwargs : Dict.t PyVal)
  : option (Result string) :=
  if forallb (fun c => Nat.leb 48 (nat_of_ascii c) && Nat.leb (nat_of_ascii c) 57)
             (list_ascii_of_string name)
  then None
  else match Dict.get name kwargs with
       | Some v => Some (Ok (py_format v))
       | None => Some (Raise (Exc (OtherError "KeyError") (py_repr (VStr name))))
       end.

(** [template.format] applied to keyword arguments, scanned once from left to right as the
    interpreter does, so that the first thing wrong is what is raised.
    Fields that are more than a name (an attribute, an index, a
    conversion, a format specification) are not covered: [None]. *)
Fixpoint format_scan (template : string) (st : FormatState) (out : string)
    (kwargs : Dict.t PyVal) : option (Result string) :=
  match template with
  | EmptyString =>
      match st with
      | InText => Some (Ok out)
      | AfterOpen =>
          Some (Raise (Exc ValueError "Single '{' encountered in format string"))
      | AfterClose =>
          Some (Raise (Exc ValueError "Single '}' encountered in format string"))
      | InField _ =>
          Some (Raise (Exc ValueError "expected '}' before end of string"))
      end
  | String c rest =>
      let in_field (name : string) :=
        if is_char c "}" then
          match format_field name kwargs with
          | Some (Ok s) => format_scan rest InText (out +:+ s) kwargs
          | other => other
          end
        else if is_char c "{" then
          Some (Raise (Exc ValueError "unexpected '{' in field name"))
        else if is_char c "." || is_char c "[" || is_char c "!" || is_char c ":"
        then None
        else format_scan rest (InField (name +:+ String c EmptyString)) out kwargs in
      match st with
      | InText =>
          if is_char c "{" then format_scan rest AfterOpen out kwargs
          else if is_char c "}" then format_scan rest AfterClose out kwargs
          else format_scan rest InText (out +:+ String c EmptyString) kwargs
      | AfterOpen =>
          if is_char c "{" then format_scan rest InText (out +:+ "{") kwargs
          else in_field EmptyString
      | AfterClose =>
          if is_char c "}" then format_scan rest InText (out +:+ "}") kwargs
          else Some (Raise (Exc ValueError
                              "Single '}' encountered in format string"))
      | InField name => in_field name
      end
  end.

Definition py_str_format (template : string) (kwargs : Dict.t PyVal)
  : option (Result string) :=
  format_scan template InText EmptyString kwargs.

End StrFormat.

Module PromptTemplate.

Record t : Type := mk {
  template : string;
  variables : list string
}.

Section Methods.
Context {World : Type} `{!PyRuntime World}.

(** [PromptTemplate.format] *)
Definition format (self : t) (kwargs : Dict.t PyVal) : option (Result string) :=
  py_str_format (template self) kwargs.

End Methods.

(** [PromptTemplate.validate_variables] *)
Definition validate_variables (self : t) (kwargs : Dict.t PyVal) : bool :=
  forallb (fun var => Dict.contains var kwargs) (variables self).

End PromptTemplate.

Definition AGENT_PROMPT : PromptTemplate.t :=
  PromptTemplate.mk
    ("You are a helpful AI assistant that can use tools to find information and answer questions." +:+ nl +:+
    nl +:+
    "Available Tools:" +:+ nl +:+
    "{tools_description}" +:+ nl +:+
    nl +:+
    "To use a tool, respond with a JSON object in this format:" +:+ nl +:+
    "{{" +:+ dq +:+ "tool" +:+ dq +:+ ": " +:+ dq +:+ "tool_name" +:+ dq +:+ ", " +:+ dq +:+ "input" +:+ dq +:+ ": " +:+ dq +:+ "what to search for" +:+ dq +:+ "}}" +:+ nl +:+
    nl +:+
    "To provide a final answer, respond with a JSON object in this format:" +:+ nl +:+
    "{{" +:+ dq +:+ "final_answer" +:+ dq +:+ ": {{" +:+ dq +:+ "response" +:+ dq +:+ ": " +:+ dq +:+ "your detailed response" +:+ dq +:+ ", " +:+ dq +:+ "confidence" +:+ dq +:+ ": 0.9}}}}" +:+ nl +:+
    nl +:+
    "Current Context:" +:+ nl +:+
    "{context}" +:+ nl +:+
    nl +:+
    "User Query: {query}" +:+ nl +:+
    nl +:+
    "Think step by step:" +:+ nl +:+
    "1. Do you need to use any tools to answer this question?" +:+ nl +:+
    "2. If yes, which tool would be most helpful?" +:+ nl +:+
    "3. If no, can you provide a final answer based on the current context?" +:+ nl +:+
    nl +:+
    "Respond with either a tool call or a final answer in the JSON format specified above:")
    ["tools_description"; "context"; "query"].

Definition CHAIN_OF_THOUGHT_PROMPT : PromptTemplate.t :=
  PromptTemplate.mk
    ("Let's approach this step-by-step:" +:+ nl +:+
    nl +:+
    "1. Question: {query}" +:+ nl +:+
    nl +:+
    "2. Available Information:" +:+ nl +:+
    "{context}" +:+ nl +:+
    nl +:+
    "3. Available Tools:" +:+ nl +:+
    "{tools_description}" +:+ nl +:+
    nl +:+
    "4. Let's think about this:" +:+ nl +:+
    "- What do we know?" +:+ nl +:+
    "- What do we need to find out?" +:+ nl +:+
    "- Which tools could help us?" +:+ nl +:+
    nl +:+
    "5. Plan:" +:+ nl +:+
    "{plan}" +:+ nl +:+
    nl +:+
    "6. Next Step:" +:+ nl +:+
    "Based on this analysis, we should:" +:+ nl +:+
    nl +:+
    "Respond with either a tool call or a final answer in JSON format:")
    ["query"; "context"; "tools_description"; "plan"].

Definition TOOL_USE_PROMPT : PromptTemplate.t :=
  PromptTemplate.mk
    ("Tool: {tool_name}" +:+ nl +:+
    "Description: {tool_description}" +:+ nl +:+
    nl +:+
    "Input: {tool_input}" +:+ nl +:+
    nl +:+
    "Previous Results:" +:+ nl +:+
    "{previous_results}" +:+ nl +:+
    nl +:+
    "Think about:" +:+ nl +:+
    "1. Is this the right tool for the task?" +:+ nl +:+
    "2. Is the input properly formatted?" +:+ nl +:+
    "3. How should we use the results?" +:+ nl +:+
    nl +:+
    "Provide your next action in JSON format:")
    ["tool_name"; "tool_description"; "tool_input"; "previous_results"].

(* ================================================================= *)
(** ** A scripted world, for running the code on concrete inputs *)

Module Script.

(** A world made of a clock and of the replies the model will give, in
    order. *)
Record World : Type := mkWorld {
  clock : Z;
  replies : list (Result BaseOutput.t)
}.

Definition tick (w : World) : World := mkWorld (clock w + 1) (replies w).

(** The runtime of the scripted world.  Its [repr] is a stand-in that only
    names the type of the value; no result below depends on it. *)
#[global]
Instance script_runtime : PyRuntime World := {|
  py_repr := fun v => "<" +:+ py_type_name v +:+ ">";
  utcnow := fun w => (clock w, tick w);
  uuid4 := fun w => ("uuid-" +:+ py_str_int (clock w), tick w)
|}.

(** A model that reads its replies off the script. *)
Definition llm : BaseLLM.t World :=
  BaseLLM.mk (fun _ _ w =>
    match replies w with
    | [] => (Raise (Exc (OtherError "StopIteration") "script exhausted"), w)
    | r :: rs => (r, mkWorld (clock w) rs)
    end).

(** A model that gives the same reply to every query. *)
Definition steady_llm (reply : BaseOutput.t) : BaseLLM.t World :=
  BaseLLM.mk (fun _ _ w => (Ok reply, w)).

(** A tool that hands its input back. *)
Definition echo : BaseTool.t World :=
  BaseTool.mk "echo" "Repeat the input" [InputType.TEXT] OutputType.TEXT "1.0.0"
    Dict.empty
    (fun i w => (Ok (BaseOutput.mk OutputType.TEXT (BaseInput.content i) Dict.empty), w))
    (fun _ w => (Ok true, w)).

(** Another tool under the same name. *)
Definition echo2 : BaseTool.t World :=
  BaseTool.mk "echo" "Repeat the input, again" [InputType.TEXT] OutputType.TEXT "2.0.0"
    Dict.empty
    (fun i w => (Ok (BaseOutput.mk OutputType.TEXT (BaseInput.content i) Dict.empty), w))
    (fun _ w => (Ok true, w)).

(** A memory whose backend is down. *)
Definition redis_down : RedisMemory.t World BaseTrace.t :=
  RedisMemory.mk
    (fun _ _ _ w =>
       (Raise (Exc (OtherError "ConnectionError") "Connection refused"), w))
    (fun _ => Ok "{}")
    (fun w => (py_str_int (clock w), w))
    "reactlib:" None.

(** A memory that accepts every write. *)
Definition redis_up : RedisMemory.t World BaseTrace.t :=
  RedisMemory.mk
    (fun _ _ _ w => (Ok tt, w))
    (fun _ => Ok "{}")
    (fun w => (py_str_int (clock w), w))
    "reactlib:" None.

Definition json (entries : Dict.t PyVal) : BaseOutput.t :=
  BaseOutput.mk OutputType.JSON (VDict entries) [("model", VStr "scripted")].

Definition final_reply : BaseOutput.t :=
  json [("final_answer", VDict [("response", VStr "ok")])].

Definition tool_reply (tool : string) (arg : PyVal) : BaseOutput.t :=
  json [("tool", VStr tool); ("input", arg)].

Definition thought_reply : BaseOutput.t :=
  json [("thought", VStr "thinking aloud")].

(** A JSON response without content. *)
Definition null_reply : BaseOutput.t :=
  BaseOutput.mk OutputType.JSON VNone Dict.empty.

Definition config_n (n : Z) : AgentConfig :=
  mkAgentConfig n (temperature AgentConfig_default) STANDARD ["*"] "default"
                true (timeout AgentConfig_default) None [] Dict.empty.

(** [Agent(model, config_n n, tools, memory)] in a world whose clock
    reads 0. *)
Definition agent_of (model : BaseLLM.t World) (n : Z)
    (tools : Dict.t (BaseTool.t World))
    (memory : option (BaseMemory.t World BaseTrace.t)) : Agent World :=
  fst (Agent__init__ model (config_n n) (Some tools) memory (mkWorld 0 [])).

Definition agent : Z -> Dict.t (BaseTool.t World) ->
    option (BaseMemory.t World BaseTrace.t) -> Agent World :=
  agent_of llm.

Definition start (a : Agent World) (script : list (Result BaseOutput.t))
  : Heap World :=
  mkHeap a (mkWorld 1 script).

(** *** Scenarios *)

(** Three passes allowed, a model that only ever thinks aloud, a memory
    that works. *)
Definition undecided_agent : Agent World :=
  agent_of (steady_llm thought_reply) 3 [] (Some (RedisMemory.as_memory redis_up)).

Definition run_undecided : Run World BaseOutput.t :=
  execute (inl "q") None (start undecided_agent []).

(** The same model, but the memory backend is down. *)
Definition undecided_down_agent : Agent World :=
  agent_of (steady_llm thought_reply) 3 []
           (Some (RedisMemory.as_memory redis_down)).

Definition run_undecided_down : Run World BaseOutput.t :=
  execute (inl "q") None (start undecided_down_agent []).

(** Three passes allowed, a model whose responses have no content, no
    memory. *)
Definition null_agent : Agent World :=
  agent_of (steady_llm null_reply) 3 [] None.

Definition run_null : Run World BaseOutput.t :=
  execute (inl "q") None (start null_agent []).





(** One tool, [echo], and no memory. *)
Definition echo_agent : Agent World := agent 3 [("echo", echo)] None.

(** The model asks for a tool nobody registered; the memory works. *)
Definition echo_up_agent : Agent World :=
  agent 3 [("echo", echo)] (Some (RedisMemory.as_memory redis_up)).

Definition missing_tool_script : list (Result BaseOutput.t) :=
  [Ok (tool_reply "nope" (VInt 3)); Ok final_reply].

Definition run_missing_tool : Run World BaseOutput.t :=
  execute (inl "q") None (start echo_up_agent missing_tool_script).

(** The same request, but the memory backend is down. *)
Definition echo_down_agent : Agent World :=
  agent 3 [("echo", echo)] (Some (RedisMemory.as_memory redis_down)).

Definition run_missing_tool_down : Run World BaseOutput.t :=
  execute (inl "q") None (start echo_down_agent missing_tool_script).

(** The final answer right away, but the memory backend is down. *)
Definition redis_down_agent : Agent World :=
  agent 3 [] (Some (RedisMemory.as_memory redis_down)).

Definition run_redis_down : Run World BaseOutput.t :=
  execute (inl "q") None (start redis_down_agent [Ok final_reply]).

(** The await of the model is cancelled: [asyncio.CancelledError] derives
    from [BaseException] only. *)
Definition cancelled : PyExc :=
  Exc (BaseOnly "asyncio.CancelledError") EmptyString.

Definition run_cancelled : Run World BaseOutput.t :=
  execute (inl "q") None (start redis_down_agent [Raise cancelled]).

(** [max_iterations = 0]. *)
Definition no_pass_agent : Agent World := agent 0 [] None.

Definition run_no_pass : Run World BaseOutput.t :=
  execute (inl "q") None (start no_pass_agent [Ok final_reply]).

(** Two tool calls, then the final answer. *)
Definition run_three : Run World BaseOutput.t :=
  execute (inl "q") None
          (start echo_agent
                 [Ok (tool_reply "echo" (VInt 3));
                  Ok (tool_reply "echo" (VList [VStr "x"]));
                  Ok final_reply]).

(** Two calls of [execute] on one agent. *)
Definition twice_agent : Agent World := agent 1 [] None.

Definition run_first : Run World BaseOutput.t :=
  execute (inl "first") None (start twice_agent [Ok final_reply]).

Definition run_second : Run World BaseOutput.t :=
  execute (inl "second") None
          (mkHeap (agent_after run_first) (mkWorld 10 [Ok final_reply])).

End Script.

(* ================================================================= *)
(** ** Further observations on a run *)

Definition store_calls : list Event -> nat := count is_store_call.

(** The context the loop holds after the calls [evs], from the context
    [ctx] it held before them: every tool call that returned has written
    its content under [last_tool_result]. *)
Fixpoint context_after (ctx : Dict.t PyVal) (evs : list Event) : Dict.t PyVal :=
  match evs with
  | [] => ctx
  | EvToolExecute _ _ (Ok tool_result) :: evs' =>
      context_after
        (Dict.set "last_tool_result" (BaseOutput.content tool_result) ctx) evs'
  | _ :: evs' => context_after ctx evs'
  end.

(** Every tool call follows a model call of its own: none comes before the
    first model call, and no two come without a model call between them.
    [fresh] tells whether a model call was made that no tool call has
    followed yet. *)
Fixpoint tools_follow_model (fresh : bool) (evs : list Event) : bool :=
  match evs with
  | [] => true
  | EvGenerate _ _ _ :: evs' => tools_follow_model true evs'
  | EvToolExecute _ _ _ :: evs' => fresh && tools_follow_model false evs'
  | _ :: evs' => tools_follow_model fresh evs'
  end.

(** The [iteration] and [state] entries of a trace's metadata. *)
Definition iteration_of (t : BaseTrace.t) : option Z :=
  match Dict.get "iteration" (BaseTrace.metadata t) with
  | Some (VInt k) => Some k
  | _ => None
  end.

Definition state_of (t : BaseTrace.t) : option string :=
  match Dict.get "state" (BaseTrace.metadata t) with
  | Some (VStr s) => Some s
  | _ => None
  end.

(** What a trace says it records: a model call, made while thinking, or
    the call of a tool, made while executing. *)
Definition labelled (t : BaseTrace.t) : Prop :=
  (BaseTrace.action t = "llm_generation" /\ state_of t = Some "thinking") \/
  (exists tool_name,
     BaseTrace.action t = "tool_execution:" +:+ tool_name /\
     state_of t = Some "executing").

(** The key [_store_trace] mirrors a trace of pass [k] under. *)
Definition mirror_key (session_id : string) (k : Z) : string :=
  "trace:" +:+ session_id +:+ ":" +:+ py_str_int k.

(** The result [SearchTool.execute] builds for an item that is a
    dictionary: four of its entries, renamed, the empty string for a
    missing one. *)
Definition item_view (d : Dict.t PyVal) : PyVal :=
  let entry k :=
    match Dict.get k d with Some v => v | None => VStr EmptyString end in
  VDict [("title", entry "name"); ("snippet", entry "snippet");
         ("url", entry "url"); ("date_published", entry "datePublished")].

(** Each scan asks for the cursor in hand: the one the scan before it
    returned. *)
Fixpoint chained (cursor : Z) (calls : list RedisMemoryMethods.Call) : Prop :=
  match calls with
  | [] => True
  | RedisMemoryMethods.Scan c _ _ r :: rest =>
      c = cursor /\
      match r with
      | Ok (cursor', _) => chained cursor' rest
      | Raise _ => True
      end
  | RedisMemoryMethods.Delete _ _ :: rest => chained cursor rest
  end.

(** The last scan of a log. *)
Fixpoint last_scan (calls : list RedisMemoryMethods.Call)
  : option RedisMemoryMethods.Call :=
  match calls with
  | [] => None
  | RedisMemoryMethods.Scan c p n r :: rest =>
      match last_scan rest with
      | Some s => Some s
      | None => Some (RedisMemoryMethods.Scan c p n r)
      end
  | RedisMemoryMethods.Delete _ _ :: rest => last_scan rest
  end.

Section MoreObservations.
Context {World : Type} `{!PyRuntime World}.

(** The catalog of tools, as [_construct_prompt] lays it out. *)
Definition tools_description (a : Agent World) : string :=
  String.concat nl
    (map (fun '(name, tool) =>
            "- " +:+ name +:+ ": " +:+ BaseTool.description tool)
         (Dict.items (tools a))).

(** A trace written during the pass that starts from [l] and [h]. *)
Definition pass_trace (l : Locals) (h : Heap World) (t : BaseTrace.t) : Prop :=
  BaseTrace.input t = input_data l /\ labelled t /\
  iteration_of t = Some (_iteration (self h) + 1).

(** A trace written by a run of the loop that starts from [l] and [h]. *)
Definition run_trace (l : Locals) (h : Heap World) (t : BaseTrace.t) : Prop :=
  BaseTrace.input t = input_data l /\ labelled t /\
  exists k, iteration_of t = Some k /\
            _iteration (self h) < k <= max_iterations (config (self h)).

(** The heap and the locals the loop of [execute] starts from. *)
Definition loop_start (h : Heap World) : Heap World :=
  mkHeap (set_iteration 0 (set_state THINKING (self h))) (world h).

Definition locals_start (input : string + BaseInput.t)
    (ctx : option (Dict.t PyVal)) : Locals :=
  mkLocals (as_input input) (context_or_empty ctx) None None.

Definition loop_of (input : string + BaseInput.t) (ctx : option (Dict.t PyVal))
    (h : Heap World) : Run World LoopExit :=
  while_loop (Z.to_nat (max_iterations (config (self h))))
             (locals_start input ctx) (loop_start h).

Definition map_ok (f : string -> string) (r : option (Result string))
  : option (Result string) :=
  match r with
  | Some (Ok s) => Some (Ok (f s))
  | Some (Raise e) => Some (Raise e)
  | None => None
  end.

(** [format_scan] without the accumulator: what the rest of the template
    adds to the output. *)
Fixpoint format_emit (template : string) (st : FormatState)
    (kwargs : Dict.t PyVal) : option (Result string) :=
  match template with
  | EmptyString =>
      match st with
      | InText => Some (Ok EmptyString)
      | AfterOpen =>
          Some (Raise (Exc ValueError "Single '{' encountered in format string"))
      | AfterClose =>
          Some (Raise (Exc ValueError "Single '}' encountered in format string"))
      | InField _ =>
          Some (Raise (Exc ValueError "expected '}' before end of string"))
      end
  | String c rest =>
      let in_field (name : string) :=
        if is_char c "}" then
          match format_field name kwargs with
          | Some (Ok s) => map_ok (append s) (format_emit rest InText kwargs)
          | other => other
          end
        else if is_char c "{" then
          Some (Raise (Exc ValueError "unexpected '{' in field name"))
        else if is_char c "." || is_char c "[" || is_char c "!" || is_char c ":"
        then None
        else format_emit rest (InField (name +:+ String c EmptyString)) kwargs in
      match st with
      | InText =>
          if is_char c "{" then format_emit rest AfterOpen kwargs
          else if is_char c "}" then format_emit rest AfterClose kwargs
          else map_ok (String c) (format_emit rest InText kwargs)
      | AfterOpen =>
          if is_char c "{" then map_ok (String "{") (format_emit rest InText kwargs)
          else in_field EmptyString
      | AfterClose =>
          if is_char c "}" then map_ok (String "}") (format_emit rest InText kwargs)
          else Some (Raise (Exc ValueError
                              "Single '}' encountered in format string"))
      | InField name => in_field name
      end
  end.

End MoreObservations.

Section MoreRelations.
Context {World : Type} `{!PyRuntime World}.

(** No more tool calls than model calls. *)
Definition paced : RunRel World := fun h s h' e =>
  (tool_calls e <= model_calls e)%nat.

(** A tool call follows a model call of its own, wherever the run
    starts. *)
Definition spaced : RunRel World := fun h s h' e =>
  forall fresh, tools_follow_model fresh e = true.

(** Every trace appended is mirrored once when a memory is attached;
    nothing is written to memory otherwise. *)
Definition mirrored : RunRel World := fun h s h' e =>
  same_setup (self h) (self h') /\
  exists ts, _traces (self h') = _traces (self h) ++ ts /\
    store_calls e =
      match memory (self h) with Some _ => length ts | None => 0%nat end.

(** With tracing on and a memory attached, a tool call that returned sits
    between two writes to memory under one key: the trace of the model call
    of the pass, then the trace of the tool call. *)
Definition overwrites : RunRel World := fun h s h' e =>
  same_setup (self h) (self h') /\
  (trace_enabled (config (self h)) = true -> is_Some (memory (self h)) ->
   forall before tool_name arg res after,
     e = before ++ EvToolExecute tool_name arg (Ok res) :: after ->
     exists before' key t1 t2 r after',
       before = before' ++ [EvMemoryStore key t1 (Ok tt)] /\
       after = EvMemoryStore key t2 r :: after' /\
       BaseTrace.action t1 = "llm_generation" /\
       BaseTrace.action t2 = "tool_execution:" +:+ tool_name).

(** The action is of kind JSON, its content is not a dictionary, and one
    of the two membership tests of the loop does not answer no. *)
Definition malformed (act : BaseOutput.t) : Prop :=
  BaseOutput.type act = OutputType.JSON /\
  (forall d, BaseOutput.content act <> VDict d) /\
  ~ (py_in "final_answer" (BaseOutput.content act) = Ok false /\
     py_in "tool" (BaseOutput.content act) = Ok false).

(** A malformed action ends the run with a [TypeError], and no call
    follows it but the mirror of its trace. *)
Definition chokes : RunRel World := fun h s h' e =>
  same_setup (self h) (self h') /\
  (mirror_ok (self h) ->
   forall before prompt kw act after,
     e = before ++ EvGenerate prompt kw (Ok act) :: after ->
     malformed act ->
     (exists x, s = Some (Some x) /\ exc_class x = TypeError) /\
     model_calls after = 0%nat /\ tool_calls after = 0%nat).

(** A request for a registered tool is followed, after the mirror of the
    trace of the request, by the call of the tool the registry holds under
    that name, with the input the request carries. *)
Definition summons : RunRel World := fun h s h' e =>
  same_setup (self h) (self h') /\
  (mirror_ok (self h) ->
   forall before prompt kw act after tool_name tool,
     e = before ++ EvGenerate prompt kw (Ok act) :: after ->
     requests_tool act tool_name ->
     Dict.get tool_name (tools (self h)) = Some tool ->
     exists mid arg w res after',
       after = mid ++ EvToolExecute tool_name arg res :: after' /\
       Forall (fun ev => is_store_call ev = true) mid /\
       dispatch_of act = Some (tool_name, arg) /\
       res = fst (BaseTool.execute tool arg w)).

End MoreRelations.

(* ================================================================= *)
(** ** More scenarios *)

Module Scenario.

(** The echo tool and a memory that works; the model asks for the tool,
    then answers. *)
Definition mirrored_agent : Agent Script.World :=
  Script.agent 3 [("echo", Script.echo)]
               (Some (RedisMemory.as_memory Script.redis_up)).

Definition mirrored_script : list (Result BaseOutput.t) :=
  [Ok (Script.tool_reply "echo" (VStr "x")); Ok Script.final_reply].

Definition run_mirrored : Run Script.World BaseOutput.t :=
  execute (inl "q") None (Script.start mirrored_agent mirrored_script).

(** The prompt of the third model call of [Script.run_three]. *)
Definition third_prompt : string :=
  _construct_prompt Script.echo_agent (as_input (inl "q"))
                    [("last_tool_result", VList [VStr "x"])].

(** A response of kind JSON whose content is a sentence. *)
Definition stray_reply : BaseOutput.t :=
  BaseOutput.mk OutputType.JSON (VStr "my final_answer is 42") Dict.empty.

Definition stray_script : list (Result BaseOutput.t) :=
  [Ok stray_reply; Ok Script.final_reply].

Definition run_stray : Run Script.World BaseOutput.t :=
  execute (inl "q") None (Script.start Script.echo_agent stray_script).

(** A response that names a tool and gives a final answer, after a pass
    that called the tool. *)
Definition both_reply : BaseOutput.t :=
  Script.json [("tool", VStr "echo"); ("input", VStr "again");
               ("final_answer", VStr "done")].

Definition both_script : list (Result BaseOutput.t) :=
  [Ok (Script.tool_reply "echo" (VInt 3)); Ok both_reply; Ok Script.final_reply].

Definition run_both : Run Script.World BaseOutput.t :=
  execute (inl "q") None (Script.start Script.echo_agent both_script).

(** Two passes allowed, two requests for the tool. *)
Definition two_pass_agent : Agent Script.World :=
  Script.agent 2 [("echo", Script.echo)] None.

Definition tool_last_script : list (Result BaseOutput.t) :=
  [Ok (Script.tool_reply "echo" (VInt 1)); Ok (Script.tool_reply "echo" (VInt 2))].

Definition run_tool_last : Run Script.World BaseOutput.t :=
  execute (inl "q") None (Script.start two_pass_agent tool_last_script).

(** An agent that traces nothing, with a memory attached. *)
Definition quiet_config : AgentConfig :=
  mkAgentConfig 3 (temperature AgentConfig_default) STANDARD ["*"] "default"
                false (timeout AgentConfig_default) None [] Dict.empty.

Definition quiet_agent : Agent Script.World :=
  fst (Agent__init__ Script.llm quiet_config (Some [("echo", Script.echo)])
         (Some (RedisMemory.as_memory Script.redis_up)) (Script.mkWorld 0 [])).

Definition run_quiet : Run Script.World BaseOutput.t :=
  execute (inl "q") None (Script.start quiet_agent mirrored_script).

(** An agent whose configuration allows no tool at all. *)
Definition strict_config : AgentConfig :=
  mkAgentConfig 3 (temperature AgentConfig_default) STANDARD [] "default"
                true (timeout AgentConfig_default) None [] Dict.empty.

Definition strict_agent : Agent Script.World :=
  fst (Agent__init__ Script.llm strict_config (Some [("echo", Script.echo)])
         None (Script.mkWorld 0 [])).

Definition run_strict : Run Script.World BaseOutput.t :=
  execute (inl "q") None (Script.start strict_agent mirrored_script).

(** An agent without tools, and a tool to add to it. *)
Definition bare_agent : Agent Script.World := Script.agent 3 [] None.

(** *** A search API *)

Definition hits : PyVal :=
  VList [VDict [("name", VStr "A"); ("url", VStr "http://a")];
         VDict [("name", VStr "B"); ("snippet", VStr "b")];
         VInt 7].

Definition body : PyVal := VDict [("webPages", VDict [("value", hits)])].

(** The API answers by the endpoint it is asked at. *)
Definition respond (endpoint : string) : Http.Response :=
  if String.eqb endpoint "https://down.example"
  then Http.mkResponse 503 (Ok "busy") (Ok VNone)
  else if String.eqb endpoint "https://empty.example"
  then Http.mkResponse 200 (Ok "{}") (Ok (VDict []))
  else Http.mkResponse 200 (Ok "...") (Ok body).

#[global]
Instance search_env : SearchEnv Script.World := {|
  session_get := fun endpoint _ _ w => (Ok (respond endpoint), w);
  now_isoformat := fun w => (py_str_int (Script.clock w), Script.tick w);
  dict_slice_error := fun _ => Exc TypeError "unhashable type: 'slice'"
|}.

Definition bing (max_results : Z) : SearchTool.t :=
  SearchTool.__init__ "key" None (Some max_results).

Definition bing_down : SearchTool.t :=
  SearchTool.__init__ "key" (Some "https://down.example") None.

Definition bing_empty : SearchTool.t :=
  SearchTool.__init__ "key" (Some "https://empty.example") None.

Definition query : BaseInput.t :=
  BaseInput.mk InputType.TEXT (VStr "rocq") Dict.empty.

(** The mock search tool in an agent; the model asks it for a number. *)
Definition mock_agent : Agent Script.World :=
  Script.agent 3 [("search", MockSearchTool.as_tool)] None.

Definition mock_script : list (Result BaseOutput.t) :=
  [Ok (Script.tool_reply "search" (VInt 7)); Ok Script.final_reply].

Definition run_mock : Run Script.World BaseOutput.t :=
  execute (inl "q") None (Script.start mock_agent mock_script).

(** *** A key-value store behind the Redis memory *)

(** The world is the store; data are strings, written as they are and
    read back inside the [data] entry. *)
Definition kv_memory : RedisMemory.t (Dict.t string) string :=
  RedisMemory.mk
    (fun k v _ w => (Ok tt, Dict.set k v w))
    (fun sd => Ok (RedisMemory.sd_data sd))
    (fun w => ("2024-01-01T00:00:00+00:00", w))
    "reactlib:" None.

Definition kv_client : RedisMemoryMethods.Client (Dict.t string) :=
  RedisMemoryMethods.mkClient
    (fun k w => (Ok (Dict.get k w), w))
    (fun ks w => (Ok 0, w))
    (fun cursor pattern count w => (Ok (0, []), w))
    (fun w => (Ok tt, w))
    (fun payload => Ok (VDict [("data", VStr payload)])).

End Scenario.

(* ================================================================= *)
(** ** Running a method body symbolically *)

Ltac head_is_match t :=
  lazymatch t with
  | match _ with _ => _ end => constr:(true)
  | ?f _ => head_is_match f
  | _ => constr:(false)
  end.

(** The next thing the term [t] evaluates. *)
Ltac head_scrutinee t :=
  lazymatch t with
  | match ?x with _ => _ end => head_scrutinee x
  | ?f ?a =>
      lazymatch head_is_match f with
      | true => head_scrutinee f
      | false => t
      end
  | _ => t
  end.

Ltac run_simpl E :=
  cbn [self world llm config tools memory state _session_id _iteration _traces
       set_state set_iteration set_traces set_tools
       input_data context final_answer action
       set_context set_final_answer set_action
       fst snd app] in E.

Ltac run_step E :=
  lazymatch type of E with
  | ?lhs = _ =>
      lazymatch head_is_match lhs with
      | true =>
          let x := head_scrutinee lhs in
          destruct x eqn:?; run_simpl E
      end
  end.

Ltac unfold_monad E :=
  unfold bind, ret, raise, lift, await, runtime, modify_self, get_self,
    out_of_fuel, try_except in E.

(** Every path through [E : loop_body l h = _], with the decisions taken
    along it as hypotheses. *)
Ltac run_body E :=
  unfold loop_body, parse_response, dispatch_tool, _generate_next_action,
    _store_trace, read_local in E;
  unfold_monad E; run_simpl E;
  repeat (run_step E);
  simplify_eq.

(** A write to memory that failed, against [Hok : mirror_ok _]. *)
Ltac mirror_contradiction Hok :=
  repeat match goal with
    | Hm : memory _ = Some ?m,
      Hs : BaseMemory.store ?m ?k ?t ?md ?w = (Raise _, _) |- _ =>
        let Hbad := fresh in
        pose proof (Hok m Hm ltac:(done) k t md w) as Hbad;
        rewrite Hs in Hbad; discriminate Hbad
    end.

(* ================================================================= *)
(** ** Basic facts *)

Section Basics.
Context {World : Type} `{!PyRuntime World}.

Lemma same_setup_refl (a : Agent World) : same_setup a a.
Proof. by repeat split. Qed.

Lemma same_setup_trans (a b c : Agent World) :
  same_setup a b -> same_setup b c -> same_setup a c.
Proof.
  intros (?&?&?&?&?) (?&?&?&?&?). repeat split; congruence.
Qed.

Lemma mirror_ok_same_setup (a b : Agent World) :
  same_setup a b -> mirror_ok a -> mirror_ok b.
Proof.
  intros (_&Hc&_&Hm&_) Hok m Hmem Hen. apply Hok; congruence.
Qed.

Lemma count_app p (l1 l2 : list Event) :
  count p (l1 ++ l2) = (count p l1 + count p l2)%nat.
Proof. unfold count. by rewrite List.filter_app, length_app. Qed.


Lemma ending_raise {A : Type} (o : option (Result A)) e :
  ending o = Some (Some e) -> o = Some (Raise e).
Proof. destruct o as [[?|?]|]; cbn; congruence. Qed.

Lemma ending_return {A : Type} (o : option (Result A)) :
  ending o = Some None -> exists a, o = Some (Ok a).
Proof. destruct o as [[?|?]|]; cbn; try congruence. eauto. Qed.

(** *** The rules of the control structure *)

Lemma holds_ret {A : Type} (R : RunRel World) (a : A) : Compositional R -> holds R (ret a).
Proof. intros C h. apply C. Qed.

Lemma holds_raise {A : Type} (R : RunRel World) e :
  Compositional R -> holds R (@raise World A e).
Proof. intros C h. apply C. Qed.

Lemma holds_out_of_fuel {A : Type} (R : RunRel World) :
  Compositional R -> holds R (@out_of_fuel World A).
Proof. intros C h. apply C. Qed.

Lemma holds_get_self (R : RunRel World) : Compositional R -> holds R get_self.
Proof. intros C h. apply C. Qed.

Lemma holds_set_state (R : RunRel World) st :
  Compositional R -> holds R (modify_self (set_state st)).
Proof. intros C h. cbn. apply C, C. Qed.

Lemma holds_set_iteration (R : RunRel World) i :
  Compositional R -> holds R (modify_self (set_iteration i)).
Proof. intros C h. cbn. apply C, C. Qed.

Lemma holds_bind {A B : Type} (R : RunRel World) (m : M World A) (f : A -> M World B) :
  Compositional R -> holds R m -> (forall a, holds R (f a)) ->
  holds R (bind m f).
Proof.
  intros C Hm Hf h. specialize (Hm h). unfold bind.
  destruct (m h) as [[[[a|e]|] h1] ev1]; cbn in *; try assumption.
  specialize (Hf a h1). destruct (f a h1) as [[r h2] ev2]; cbn in *.
  eapply comp_seq; eauto.
Qed.

Lemma holds_try_except (R : RunRel World) (m : M World BaseOutput.t) :
  Compositional R -> holds R m ->
  holds R (try_except m (fun e => modify_self (set_state ERROR) ;;; raise e)).
Proof.
  intros C Hm h. specialize (Hm h). unfold try_except.
  destruct (m h) as [[[[a|e]|] h1] ev1]; cbn in *; try assumption.
  destruct (is_Exception e); cbn; [|assumption].
  rewrite app_nil_r. by apply C.
Qed.

Lemma holds_while_loop (R : RunRel World) :
  Compositional R -> (forall l, holds R (loop_body l)) ->
  forall fuel l, holds R (while_loop fuel l).
Proof.
  intros C Hb. induction fuel as [|fuel IH]; intros l; cbn [while_loop].
  - apply holds_bind; [done | by apply holds_get_self |]. intros a.
    destruct (_ <? _)%Z; [by apply holds_out_of_fuel | by apply holds_ret].
  - apply holds_bind; [done | by apply holds_get_self |]. intros a.
    destruct (_ <? _)%Z; [| by apply holds_ret].
    apply holds_bind; [done | apply Hb |].
    intros [l'|l'|v]; [apply IH | |]; by apply holds_ret.
Qed.

Lemma holds_after_loop (R : RunRel World) l : Compositional R -> holds R (after_loop l).
Proof.
  intros C. unfold after_loop. apply holds_bind; [done | |].
  - destruct (final_answer l); [by apply holds_ret |].
    apply holds_bind; [done | |].
    + destruct (action l); [by apply holds_ret | by apply holds_raise].
    + intros a. by apply holds_ret.
  - intros l'. destruct (final_answer l').
    + apply holds_bind; [done | by apply holds_set_state |].
      intros _. by apply holds_ret.
    + apply holds_bind; [done | by apply holds_set_state |].
      intros _. by apply holds_raise.
Qed.

(** A compositional property of every pass of the loop body is a property
    of [execute]. *)
Lemma holds_execute (R : RunRel World) input ctx :
  Compositional R -> (forall l, holds R (loop_body l)) ->
  holds R (execute input ctx).
Proof.
  intros C Hb. unfold execute. apply holds_try_except; [done |].
  apply holds_bind; [done | by apply holds_set_state |]. intros _.
  apply holds_bind; [done | by apply holds_set_iteration |]. intros _.
  apply holds_bind; [done | by apply holds_get_self |]. intros a.
  apply holds_bind; [done | by apply holds_while_loop |].
  intros [l'|v]; [by apply holds_after_loop | by apply holds_ret].
Qed.

(** *** The frame of a run *)

Lemma frame_compositional : Compositional (@frame World).
Proof.
  split.
  - intros h. split; [apply same_setup_refl|]. exists []. by rewrite app_nil_r.
  - intros h. split; [apply same_setup_refl|]. exists []. by rewrite app_nil_r.
  - intros h e. split; [apply same_setup_refl|]. exists []. by rewrite app_nil_r.
  - intros h1 h2 h3 e1 e2 s [S1 (ts1&T1&F1)] [S2 (ts2&T2&F2)].
    split; [by eapply same_setup_trans|].
    exists (ts1 ++ ts2). rewrite T2, T1, app_assoc. split; [done|].
    apply Forall_app. split; [done|].
    destruct S1 as (_&_&_&_&Hsid). by rewrite Hsid in F2.
  - intros h1 h2 s e st [S1 T1]. split; [|done].
    destruct S1 as (?&?&?&?&?). by repeat split.
  - intros h1 h2 s e i [S1 T1]. split; [|done].
    destruct S1 as (?&?&?&?&?). by repeat split.
Qed.

Lemma frame_body l : holds (@frame World) (loop_body l).
Proof.
  intros h. destruct (loop_body l h) as [[r h'] evs] eqn:E. run_body E.
  all: split; [by repeat split|]; cbn; rewrite <- ?app_assoc.
  all: first [ exists []; split; [by rewrite app_nil_r | constructor]
             | eexists; split; [reflexivity | by repeat constructor] ].
Qed.

Lemma frame_execute input ctx : holds (@frame World) (execute input ctx).
Proof. apply holds_execute; [apply frame_compositional | apply frame_body]. Qed.

End Basics.

Section BodyFacts.
Context {World : Type} `{!PyRuntime World}.

#[local] Arguments _construct_prompt : simpl never.
#[local] Arguments trace_key : simpl never.

(** *** Failures of collaborators propagate *)

Lemma propagates_compositional : Compositional (@propagates World).
Proof.
  split; unfold propagates.
  - by intros h ev x [].
  - by intros h ev x [].
  - by intros h e ev x [].
  - intros h1 h2 h3 e1 e2 s H1 H2 ev x Hin Hf.
    apply in_app_or in Hin as [Hin|Hin]; [|by eapply H2].
    by specialize (H1 ev x Hin Hf).
  - auto.
  - auto.
Qed.

Lemma propagates_body l : holds (@propagates World) (loop_body l).
Proof.
  intros h. destruct (loop_body l h) as [[r h'] evs] eqn:E. run_body E.
  all: intros ev x Hin Hf; cbn in Hin.
  all: repeat (destruct Hin as [<-|Hin]; [cbn in Hf; by simplify_eq|]).
  all: done.
Qed.

(** *** One trace per call that returned *)

Lemma traced_compositional : Compositional (@traced World).
Proof.
  split; unfold traced.
  - intros h. split; [done|]. destruct (trace_enabled _); cbn; [lia|done].
  - intros h. split; [done|]. destruct (trace_enabled _); cbn; [lia|done].
  - intros h e. split; [done|]. destruct (trace_enabled _); cbn; [lia|done].
  - intros h1 h2 h3 e1 e2 s [C1 T1] [C2 T2]. split; [congruence|].
    rewrite C1 in T2. destruct (trace_enabled _).
    + rewrite !count_app. lia.
    + congruence.
  - intros h1 h2 s e st [C1 T1]. by split.
  - intros h1 h2 s e i [C1 T1]. by split.
Qed.

Lemma traced_body l : holds (@traced World) (loop_body l).
Proof.
  intros h. destruct (loop_body l h) as [[r h'] evs] eqn:E. run_body E.
  all: split; [done|]; cbn.
  all: repeat match goal with
         | H : trace_enabled _ = _ |- _ => rewrite H; clear H
         end.
  all: try destruct (trace_enabled _).
  all: rewrite ?length_app; cbn; first [lia | done].
Qed.
End BodyFacts.

Section Dispatch.
Context {World : Type} `{!PyRuntime World}.

#[local] Arguments _construct_prompt : simpl never.
#[local] Arguments trace_key : simpl never.

(** *** Interpreter operations, inverted *)

Lemma py_in_dict_true {V : Type} (v : PyVal) (d : Dict.t V) :
  py_in_dict v d = Ok true ->
  exists s, v = VStr s /\ Dict.contains s d = true.
Proof. destruct v; cbn; intros; simplify_eq; eauto. Qed.

Lemma py_get_ok c k default x :
  py_get c k default = Ok x ->
  exists d, c = VDict d /\
            x = match Dict.get k d with Some v => v | None => default end.
Proof. destruct c; cbn; intros; simplify_eq; eauto. Qed.

Lemma py_getitem_dict d k v :
  py_getitem (VDict d) k = Ok v -> Dict.get k d = Some v.
Proof. cbn. destruct (Dict.get k d); intros; by simplify_eq. Qed.

Lemma dispatch_of_intro {V : Type} (act : BaseOutput.t) v x (d : Dict.t V) :
  py_getitem (BaseOutput.content act) "tool" = Ok v ->
  py_get (BaseOutput.content act) "input" (VStr EmptyString) = Ok x ->
  py_in_dict v d = Ok true ->
  dispatch_of act = Some (py_format v, BaseInput.mk InputType.TEXT x Dict.empty).
Proof.
  intros Hv Hx Hin. apply py_get_ok in Hx as (m & Hc & ->).
  apply py_in_dict_true in Hin as (s & -> & _).
  unfold dispatch_of. rewrite Hc in *. apply py_getitem_dict in Hv.
  by rewrite Hv.
Qed.

Lemma append_inj_l (p a b : string) : p +:+ a = p +:+ b -> a = b.
Proof. induction p as [|c p IH]; cbn; intros Heq; [done|]. apply IH. by simplify_eq. Qed.

(** *** Tool calls follow the action *)

Lemma well_dispatched_app held e1 e2 :
  well_dispatched held e1 -> (forall held', well_dispatched held' e2) ->
  well_dispatched held (e1 ++ e2).
Proof.
  intros H1 H2. revert held H1.
  induction e1 as [|ev e1 IH]; intros held H1; cbn; [apply H2|].
  destruct ev as [p kw [act|x]|n arg r|n arg r|k t r]; cbn in *; try done; auto.
  destruct H1 as [Hd H1]. split; auto.
Qed.

Lemma dispatched_compositional : Compositional (@dispatched World).
Proof.
  split; unfold dispatched; try done.
  - intros h1 h2 h3 e1 e2 s H1 H2 held. by apply well_dispatched_app.
Qed.

Lemma dispatched_body l : holds (@dispatched World) (loop_body l).
Proof.
  intros h. destruct (loop_body l h) as [[r h'] evs] eqn:E. run_body E.
  all: intros held; cbn; try done.
  all: repeat split; eexists; split; [reflexivity|]; by eapply dispatch_of_intro.
Qed.

Lemma well_dispatched_split held before tool_name arg res after :
  well_dispatched held (before ++ EvToolExecute tool_name arg res :: after) ->
  exists act, last_action held before = Some act /\
              dispatch_of act = Some (tool_name, arg).
Proof.
  revert held. induction before as [|ev before IH]; intros held; cbn.
  - intros [(act & -> & Hd) _]. eauto.
  - destruct ev as [p kw [act|x]|n a r|n a r|k t r]; cbn; try done; auto.
    intros [_ Hw]. auto.
Qed.

Lemma well_dispatched_no_validate held evs :
  well_dispatched held evs -> validate_calls evs = 0%nat.
Proof.
  revert held. induction evs as [|ev evs IH]; intros held; [done|].
  destruct ev as [p kw [act|x]|n a r|n a r|k t r]; cbn; try done;
    unfold validate_calls, count in *; cbn; eauto.
  intros [_ Hw]. eauto.
Qed.

(** *** Requests for tools that are not registered *)

Lemma app_eq_mid {A : Type} (l1 l2 before after : list A) x :
  l1 ++ l2 = before ++ x :: after ->
  (exists mid, l1 = before ++ x :: mid /\ after = mid ++ l2) \/
  (exists pre, before = l1 ++ pre /\ l2 = pre ++ x :: after).
Proof.
  revert before. induction l1 as [|y l1 IH]; intros before Heq; cbn in *.
  - right. by exists before.
  - destruct before as [|z before]; cbn in *; simplify_eq.
    + left. by exists l1.
    + destruct (IH _ H0) as [(mid & -> & ->)|(pre & -> & ->)].
      * left. by exists mid.
      * right. by exists pre.
Qed.

Lemma refuses_compositional : Compositional (@refuses World).
Proof.
  split; unfold refuses.
  - intros h. split; [apply same_setup_refl|]. intros _ [|??] ??????; done.
  - intros h. split; [apply same_setup_refl|]. intros _ [|??] ??????; done.
  - intros h e. split; [apply same_setup_refl|]. intros _ [|??] ??????; done.
  - intros h1 h2 h3 e1 e2 s [S1 R1] [S2 R2].
    split; [by eapply same_setup_trans|].
    intros Hok before p kw act after tool_name Heq Hreq Hnot.
    apply app_eq_mid in Heq as [(mid & -> & ->)|(pre & -> & ->)].
    + by destruct (R1 Hok _ _ _ _ _ _ eq_refl Hreq Hnot) as [? _].
    + eapply R2; [by eapply mirror_ok_same_setup | done | done |].
      destruct S1 as (_&_&->&_). done.
  - intros h1 h2 s e st [S1 R1]. split; [|done].
    destruct S1 as (?&?&?&?&?). by repeat split.
  - intros h1 h2 s e i [S1 R1]. split; [|done].
    destruct S1 as (?&?&?&?&?). by repeat split.
Qed.

(** A pass makes one model call, first. *)
Lemma first_call_split ev rest before prompt kw (act : BaseOutput.t) after :
  model_calls rest = 0%nat ->
  ev :: rest = before ++ EvGenerate prompt kw (Ok act) :: after ->
  ev = EvGenerate prompt kw (Ok act) /\ after = rest.
Proof.
  intros Hnone Heq. destruct before as [|ev' before]; cbn in *; simplify_eq; [done|].
  exfalso. revert Hnone. unfold model_calls. rewrite count_app. cbn.
  unfold count. cbn. lia.
Qed.

Lemma refuses_body l : holds (@refuses World) (loop_body l).
Proof.
  intros h. destruct (loop_body l h) as [[r h'] evs] eqn:E. run_body E.
  all: split; [by repeat split|].
  all: intros Hok before p kw act after tool_name Heq Hreq Hnot.
  all: cbn in Heq; apply first_call_split in Heq as [Hev ->]; [|done].
  all: simplify_eq.
  all: destruct Hreq as (Hty & ? & Hc & Hfin & Htool).
  all: mirror_contradiction Hok.
  all: try rewrite Hc in *; try rewrite Hty in *; cbn in *.
  all: unfold Dict.contains in *; rewrite ?Hfin, ?Htool in *; simplify_eq.
  all: cbn in *; unfold Dict.contains in *.
  all: try (destruct (Dict.get tool_name (tools (self h))); simplify_eq).
  all: done.
Qed.
End Dispatch.

Section Loop.
Context {World : Type} `{!PyRuntime World}.

#[local] Arguments _construct_prompt : simpl never.
#[local] Arguments trace_key : simpl never.

(** *** Tool traces name registered tools *)

Lemma traces_registered_tools_compositional :
  Compositional (@traces_registered_tools World).
Proof.
  split; unfold traces_registered_tools.
  - intros h. split; [apply same_setup_refl|]. exists []. by rewrite app_nil_r.
  - intros h. split; [apply same_setup_refl|]. exists []. by rewrite app_nil_r.
  - intros h e. split; [apply same_setup_refl|]. exists []. by rewrite app_nil_r.
  - intros h1 h2 h3 e1 e2 s [S1 (ts1&T1&F1)] [S2 (ts2&T2&F2)].
    split; [by eapply same_setup_trans|].
    exists (ts1 ++ ts2). rewrite T2, T1, app_assoc. split; [done|].
    apply Forall_app. split; [done|].
    destruct S1 as (_&_&Htools&_). by rewrite Htools in F2.
  - intros h1 h2 s e st [S1 T1]. split; [|done].
    destruct S1 as (?&?&?&?&?). by repeat split.
  - intros h1 h2 s e i [S1 T1]. split; [|done].
    destruct S1 as (?&?&?&?&?). by repeat split.
Qed.

Lemma traces_registered_tools_body l :
  holds (@traces_registered_tools World) (loop_body l).
Proof.
  intros h. destruct (loop_body l h) as [[r h'] evs] eqn:E. run_body E.
  all: split; [by repeat split|]; cbn; rewrite <- ?app_assoc.
  all: first [ exists []; split; [by rewrite app_nil_r | constructor]
             | eexists; split; [reflexivity |] ].
  all: repeat first [apply List.Forall_nil | apply List.Forall_cons].
  all: intros tool_name Hact; cbn in Hact; simplify_eq.
  all: match goal with
       | Hd : py_in_dict _ _ = Ok true |- _ =>
           apply py_in_dict_true in Hd as (s & -> & Hs)
       end.
  all: cbn in *; by simplify_eq.
Qed.

(** *** Every pass counts, and comes back *)

#[local] Arguments loop_body : simpl never.

Lemma loop_body_progress l h :
  outcome (loop_body l h) <> None /\
  _iteration (agent_after (loop_body l h)) = _iteration (self h) + 1.
Proof.
  destruct (loop_body l h) as [[r h'] evs] eqn:E. run_body E.
  all: by split.
Qed.

(** An exception out of a pass leaves the state the pass had set:
    [THINKING], or [EXECUTING] once a tool was being dispatched. *)
Lemma loop_body_raise_state l h e :
  outcome (loop_body l h) = Some (Raise e) ->
  state (agent_after (loop_body l h)) = THINKING \/
  state (agent_after (loop_body l h)) = EXECUTING.
Proof.
  destruct (loop_body l h) as [[r h'] evs] eqn:E. run_body E.
  all: cbn; intros; simplify_eq; auto.
Qed.

Lemma while_loop_O l h :
  while_loop O l h =
  if (_iteration (self h) <? max_iterations (config (self h)))%Z
  then (None, h, [])
  else (Some (Ok (Fell l)), h, []).
Proof.
  cbn [while_loop]. unfold bind, get_self, out_of_fuel, ret. cbn.
  by destruct (_ <? _)%Z.
Qed.

Lemma while_loop_S fuel l h :
  while_loop (S fuel) l h =
  if (_iteration (self h) <? max_iterations (config (self h)))%Z
  then match loop_body l h with
       | (Some (Ok (Next l')), h1, e1) =>
           let '(r, h2, e2) := while_loop fuel l' h1 in (r, h2, e1 ++ e2)
       | (Some (Ok (Break l')), h1, e1) => (Some (Ok (Fell l')), h1, e1)
       | (Some (Ok (Return v)), h1, e1) => (Some (Ok (Returned v)), h1, e1)
       | (Some (Raise e), h1, e1) => (Some (Raise e), h1, e1)
       | (None, h1, e1) => (None, h1, e1)
       end
  else (Some (Ok (Fell l)), h, []).
Proof.
  cbn [while_loop]. unfold bind, get_self, ret. cbn.
  destruct (_ <? _)%Z; [|done].
  destruct (loop_body l h) as [[[[[l'|l'|v]|e]|] h1] e1]; cbn;
    rewrite ?app_nil_r; try done.
  by destruct (while_loop fuel l' h1) as [[r h2] e2].
Qed.

(** The loop never runs out of the fuel [execute] gives it. *)
Lemma while_loop_total fuel : forall l h,
  max_iterations (config (self h)) - _iteration (self h) <= Z.of_nat fuel ->
  outcome (while_loop fuel l h) <> None.
Proof.
  induction fuel as [|fuel IH]; intros l h Hle.
  - rewrite while_loop_O. destruct (Z.ltb_spec (_iteration (self h))
      (max_iterations (config (self h)))); [lia | done].
  - rewrite while_loop_S. destruct (Z.ltb_spec (_iteration (self h))
      (max_iterations (config (self h)))); [|done].
    pose proof (loop_body_progress l h) as [Hsome Hit].
    pose proof (frame_body l h) as [(_&Hcfg&_) _].
    unfold agent_after, heap_after, outcome in *.
    destruct (loop_body l h) as [[[[[l'|l'|v]|e]|] h1] e1]; cbn in *; try done.
    specialize (IH l' h1). rewrite Hcfg, Hit in IH.
    destruct (while_loop fuel l' h1) as [[r h2] e2]; cbn in *.
    apply IH. lia.
Qed.

Lemma while_loop_raise_state fuel : forall l h e,
  outcome (while_loop fuel l h) = Some (Raise e) ->
  state (agent_after (while_loop fuel l h)) = THINKING \/
  state (agent_after (while_loop fuel l h)) = EXECUTING.
Proof.
  induction fuel as [|fuel IH]; intros l h e.
  - rewrite while_loop_O. by destruct (_ <? _)%Z.
  - rewrite while_loop_S. destruct (_ <? _)%Z; [|done].
    pose proof (loop_body_raise_state l h) as Hb.
    unfold agent_after, heap_after, outcome in *.
    destruct (loop_body l h) as [[[[[l'|l'|v]|x]|] h1] e1]; cbn in *; try done.
    + specialize (IH l' h1 e).
      by destruct (while_loop fuel l' h1) as [[r h2] e2].
    + intros _. by apply (Hb x).
Qed.

End Loop.

Section Execute.
Context {World : Type} `{!PyRuntime World}.

#[local] Arguments _construct_prompt : simpl never.
#[local] Arguments trace_key : simpl never.
#[local] Arguments loop_body : simpl never.
#[local] Arguments while_loop : simpl never.

(** *** [execute], unfolded around its loop *)

Lemma execute_unfold input ctx (h : Heap World) :
  execute input ctx h =
  let a0 := set_iteration 0 (set_state THINKING (self h)) in
  let l0 := mkLocals (as_input input) (context_or_empty ctx) None None in
  match while_loop (Z.to_nat (max_iterations (config (self h)))) l0
                   (mkHeap a0 (world h)) with
  | (Some (Ok (Returned v)), h1, e1) => (Some (Ok v), h1, e1)
  | (Some (Ok (Fell l')), h1, e1) =>
      match final_answer l', action l' with
      | Some fa, _ =>
          (Some (Ok fa), mkHeap (set_state COMPLETED (self h1)) (world h1), e1)
      | None, Some act =>
          (Some (Ok act), mkHeap (set_state COMPLETED (self h1)) (world h1), e1)
      | None, None =>
          (Some (Raise (unbound_local "action")),
           mkHeap (set_state ERROR (self h1)) (world h1), e1)
      end
  | (Some (Raise e), h1, e1) =>
      if is_Exception e
      then (Some (Raise e), mkHeap (set_state ERROR (self h1)) (world h1), e1)
      else (Some (Raise e), h1, e1)
  | (None, h1, e1) => (None, h1, e1)
  end.
Proof.
  unfold execute, try_except, after_loop, read_local.
  unfold bind, modify_self, get_self, ret, raise. cbn.
  destruct (while_loop _ _ _) as [[[[[l'|v]|e]|] h1] e1]; cbn;
    rewrite ?app_nil_r; try done.
  all: try (destruct (is_Exception e); cbn; by rewrite ?app_nil_r).
  destruct (final_answer l') as [fa|] eqn:Hfa; cbn; rewrite ?Hfa; cbn;
    [by rewrite ?app_nil_r|].
  destruct (action l') as [act|]; cbn; by rewrite ?app_nil_r.
Qed.

(** [execute] always comes back: with a value or with an exception. *)
Lemma execute_total input ctx (h : Heap World) :
  outcome (execute input ctx h) <> None.
Proof.
  rewrite execute_unfold. cbv zeta.
  pose proof (while_loop_total (Z.to_nat (max_iterations (config (self h))))
    (mkLocals (as_input input) (context_or_empty ctx) None None)
    (mkHeap (set_iteration 0 (set_state THINKING (self h))) (world h))) as Ht.
  cbn in Ht. unfold outcome in *.
  destruct (while_loop _ _ _) as [[[[[l'|v]|e]|] h1] e1]; cbn in *; try done.
  - by destruct (final_answer l'), (action l').
  - by destruct (is_Exception e).
  - exfalso. apply Ht; [lia | done].
Qed.

(** An exception that [except Exception] catches leaves the agent in
    state [ERROR]. *)
Lemma execute_raise_state input ctx (h : Heap World) e :
  outcome (execute input ctx h) = Some (Raise e) ->
  is_Exception e = true ->
  state (agent_after (execute input ctx h)) = ERROR.
Proof.
  rewrite execute_unfold. cbv zeta. unfold outcome, agent_after, heap_after.
  destruct (while_loop _ _ _) as [[[[[l'|v]|x]|] h1] e1]; cbn; try done.
  - by destruct (final_answer l'), (action l').
  - destruct (is_Exception x) eqn:Hx; cbn; [done|].
    intros Hout Hcaught. simplify_eq. congruence.
Qed.

(** An exception that [except Exception] does not catch leaves the state
    as the loop had it. *)
Lemma execute_raise_uncaught input ctx (h : Heap World) e :
  outcome (execute input ctx h) = Some (Raise e) ->
  is_Exception e = false ->
  state (agent_after (execute input ctx h)) = THINKING \/
  state (agent_after (execute input ctx h)) = EXECUTING.
Proof.
  rewrite execute_unfold. cbv zeta.
  pose proof (while_loop_raise_state (Z.to_nat (max_iterations (config (self h))))
    (mkLocals (as_input input) (context_or_empty ctx) None None)
    (mkHeap (set_iteration 0 (set_state THINKING (self h))) (world h))) as Hw.
  unfold outcome, agent_after, heap_after in *.
  destruct (while_loop _ _ _) as [[[[[l'|v]|x]|] h1] e1]; cbn in *; try done.
  - destruct (final_answer l'), (action l'); cbn; try done.
    intros Hout Hun. by simplify_eq.
  - destruct (is_Exception x) eqn:Hx; cbn; intros Hout Hun; simplify_eq;
      [congruence | by apply (Hw e)].
Qed.

(** Both cases at once. *)
Lemma execute_raise_state_cases input ctx (h : Heap World) e :
  outcome (execute input ctx h) = Some (Raise e) ->
  if is_Exception e
  then state (agent_after (execute input ctx h)) = ERROR
  else state (agent_after (execute input ctx h)) = THINKING \/
       state (agent_after (execute input ctx h)) = EXECUTING.
Proof.
  intros Hout. destruct (is_Exception e) eqn:He.
  - by eapply execute_raise_state.
  - by eapply execute_raise_uncaught.
Qed.

(** *** A model that never decides *)

Lemma OutputType_eqb_true t : OutputType_eqb t OutputType.JSON = true -> t = OutputType.JSON.
Proof. by destruct t. Qed.

Lemma last_action_app held e1 e2 :
  last_action held (e1 ++ e2) = last_action (last_action held e1) e2.
Proof.
  revert held. induction e1 as [|ev e1 IH]; intros held; [done|].
  destruct ev as [p kw [act|x]|n a r|n a r|k t r]; cbn; auto.
Qed.

Lemma loop_body_undecided l (h : Heap World) :
  model_always undecided (self h) -> mirror_ok (self h) ->
  final_answer l = None ->
  exists act h' evs,
    loop_body l h = (Some (Ok (Next (set_action act l))), h', evs) /\
    same_setup (self h) (self h') /\
    _iteration (self h') = _iteration (self h) + 1 /\
    model_calls evs = 1%nat /\ tool_calls evs = 0%nat /\
    forall held, last_action held evs = Some act.
Proof.
  intros Hmodel Hok Hfin.
  destruct (loop_body l h) as [[r h'] evs] eqn:E. run_body E.
  all: match goal with
       | Hg : BaseLLM.generate _ ?p ?kw ?w = _ |- _ =>
           destruct (Hmodel p kw w) as (act & Hact & Hund);
           rewrite Hg in Hact; cbn in Hact; simplify_eq
       end.
  all: mirror_contradiction Hok.
  all: try match goal with
       | Ht : OutputType_eqb _ OutputType.JSON = true |- _ =>
           apply OutputType_eqb_true in Ht;
           destruct (Hund Ht) as [H1 H2]; rewrite ?H1, ?H2 in *; simplify_eq
       end.
  all: try congruence.
  all: eexists _, _, _; split; [reflexivity|]; cbn; by repeat split.
Qed.

Lemma model_always_same_setup P (a b : Agent World) :
  same_setup a b -> model_always P a -> model_always P b.
Proof. intros (Hl&_) Hm p kw w. rewrite Hl. apply Hm. Qed.

Lemma while_loop_undecided fuel : forall l (h : Heap World),
  model_always undecided (self h) -> mirror_ok (self h) ->
  final_answer l = None ->
  max_iterations (config (self h)) - _iteration (self h) <= Z.of_nat fuel ->
  exists l' h' evs,
    while_loop fuel l h = (Some (Ok (Fell l')), h', evs) /\
    final_answer l' = None /\
    action l' = last_action (action l) evs /\
    model_calls evs =
      Z.to_nat (max_iterations (config (self h)) - _iteration (self h)) /\
    tool_calls evs = 0%nat /\
    (is_Some (action l) \/
     _iteration (self h) < max_iterations (config (self h)) ->
     is_Some (action l')).
Proof.
  induction fuel as [|fuel IH]; intros l h Hmodel Hok Hfin Hle.
  - rewrite while_loop_O.
    destruct (Z.ltb_spec (_iteration (self h)) (max_iterations (config (self h))));
      [lia|].
    exists l, h, []. repeat split; try done.
    + cbn. lia.
    + intros [?|?]; [done | lia].
  - rewrite while_loop_S.
    destruct (Z.ltb_spec (_iteration (self h)) (max_iterations (config (self h)))).
    + destruct (loop_body_undecided l h Hmodel Hok Hfin)
        as (act & h1 & e1 & -> & Hs & Hit & Hm1 & Ht1 & Hl1).
      pose proof Hs as (_ & Hcfg & _).
      destruct (IH (set_action act l) h1) as (l' & h2 & e2 & -> & Hf & Ha & Hm2 & Ht2 & Hsome).
      { by eapply model_always_same_setup. }
      { by eapply mirror_ok_same_setup. }
      { done. }
      { rewrite Hcfg, Hit. lia. }
      exists l', h2, (e1 ++ e2). repeat split; try done.
      * by rewrite last_action_app, Hl1.
      * unfold model_calls in *. rewrite count_app, Hm1, Hm2, Hcfg, Hit. lia.
      * unfold tool_calls in *. by rewrite count_app, Ht1, Ht2.
      * intros _. apply Hsome. left. by eexists.
    + exists l, h, []. repeat split; try done.
      * cbn. lia.
      * intros [?|?]; [done | lia].
Qed.

(** C1 (as the code has it).  With [max_iterations = N >= 1], a model
    every response of which is not of kind JSON or answers no to both
    membership tests ([final_answer] and [tool]), and a mirror of traces
    to memory that does not fail, [execute] calls the model N times (so
    at most N times), calls no tool, and returns the action of the last
    model call as the answer, in state [COMPLETED]; it does not raise. *)
Theorem C1_undecided_model_returns_last_action
    (a : Agent World) (w : World) input ctx :
  1 <= max_iterations (config a) ->
  model_always undecided a ->
  mirror_ok a ->
  let r := execute input ctx (mkHeap a w) in
  exists act,
    outcome r = Some (Ok act) /\
    last_action None (events r) = Some act /\
    Z.of_nat (model_calls (events r)) = max_iterations (config a) /\
    tool_calls (events r) = 0%nat /\
    state (agent_after r) = COMPLETED.
Proof.
  intros HN Hmodel Hok r. subst r. rewrite execute_unfold. cbv zeta.
  destruct (while_loop_undecided (Z.to_nat (max_iterations (config a)))
    (mkLocals (as_input input) (context_or_empty ctx) None None)
    (mkHeap (set_iteration 0 (set_state THINKING a)) w))
    as (l' & h' & evs & Hw & Hf & Ha & Hm & Ht & Hsome); cbn; try done; [lia|].
  cbn [self world config set_iteration set_state _iteration action] in *.
  rewrite Hw, Hf.
  destruct Hsome as [act Hact]; [right; lia|]. rewrite Hact.
  exists act. unfold outcome, events, agent_after, heap_after.
  cbn [fst snd self state set_state].
  split; [done|]. split; [congruence|]. split; [rewrite Hm; lia|]. by split.
Qed.

End Execute.

Section Counting.
Context {World : Type} `{!PyRuntime World}.

#[local] Arguments _construct_prompt : simpl never.
#[local] Arguments trace_key : simpl never.
#[local] Arguments loop_body : simpl never.
#[local] Arguments while_loop : simpl never.

(** *** The iteration counter counts the model calls *)

Lemma loop_body_one_model_call l (h : Heap World) :
  model_calls (events (loop_body l h)) = 1%nat.
Proof.
  destruct (loop_body l h) as [[r h'] evs] eqn:E. run_body E.
  all: done.
Qed.

Lemma while_loop_iteration fuel : forall l (h : Heap World),
  _iteration (agent_after (while_loop fuel l h)) =
    _iteration (self h) + Z.of_nat (model_calls (events (while_loop fuel l h))) /\
  _iteration (agent_after (while_loop fuel l h)) <=
    Z.max (_iteration (self h)) (max_iterations (config (self h))).
Proof.
  induction fuel as [|fuel IH]; intros l h.
  - rewrite while_loop_O.
    destruct (_ <? _)%Z; unfold agent_after, heap_after, events; cbn; lia.
  - rewrite while_loop_S.
    destruct (Z.ltb_spec (_iteration (self h)) (max_iterations (config (self h))));
      [|unfold agent_after, heap_after, events; cbn; lia].
    pose proof (loop_body_progress l h) as [_ Hit].
    pose proof (loop_body_one_model_call l h) as Hone.
    pose proof (frame_body l h) as [(_&Hcfg&_) _].
    unfold agent_after, heap_after, events in *.
    destruct (loop_body l h) as [[[[[l'|l'|v]|e]|] h1] e1];
      cbn [fst snd] in *; try lia.
    specialize (IH l' h1). rewrite Hcfg, Hit in IH.
    destruct (while_loop fuel l' h1) as [[r h2] e2]; cbn [fst snd] in *.
    unfold model_calls in *. rewrite count_app, Hone. lia.
Qed.

(** When [execute] is over, [self._iteration] is the number of model calls
    it made, whatever it was before; and the bound caps it. *)
Lemma execute_iteration input ctx (h : Heap World) :
  _iteration (agent_after (execute input ctx h)) =
    Z.of_nat (model_calls (events (execute input ctx h))) /\
  Z.of_nat (model_calls (events (execute input ctx h))) <=
    Z.max 0 (max_iterations (config (self h))).
Proof.
  rewrite execute_unfold. cbv zeta.
  pose proof (while_loop_iteration (Z.to_nat (max_iterations (config (self h))))
    (mkLocals (as_input input) (context_or_empty ctx) None None)
    (mkHeap (set_iteration 0 (set_state THINKING (self h))) (world h)))
    as [Hit Hle].
  unfold agent_after, heap_after, events in *.
  cbn [self world config set_iteration set_state _iteration] in Hit, Hle.
  destruct (while_loop _ _ _) as [[[[[l'|v]|e]|] h1] e1];
    cbn [fst snd self set_state _iteration] in *; try lia.
  - destruct (final_answer l'), (action l');
      cbn [fst snd self set_state _iteration]; lia.
  - destruct (is_Exception e);
      cbn [fst snd self set_state _iteration]; lia.
Qed.

End Counting.

Section Claims.
Context {World : Type} `{!PyRuntime World}.

#[local] Arguments _construct_prompt : simpl never.
#[local] Arguments trace_key : simpl never.
#[local] Arguments loop_body : simpl never.
#[local] Arguments while_loop : simpl never.

(** *** A final answer on the first pass *)



(** *** Unregistered tools *)

(** C3 (as the code has it).  When the mirror of traces to memory does
    not fail: whenever a model call of the run returns an action that asks
    for a tool name that is not in the registry, [execute] fails with the
    [ValueError] "Tool <name> not found", the agent state becomes [ERROR],
    no model call and no tool call follows the request (it is not
    retried), and no trace appended by the call is labelled
    [tool_execution:<name>]. *)
Theorem C3_unregistered_tool_fails
    (a : Agent World) (w : World) input ctx
    before prompt kw act after tool_name :
  mirror_ok a ->
  events (execute input ctx (mkHeap a w)) =
    before ++ EvGenerate prompt kw (Ok act) :: after ->
  requests_tool act tool_name ->
  Dict.contains tool_name (tools a) = false ->
  let r := execute input ctx (mkHeap a w) in
  outcome r = Some (Raise (tool_not_found tool_name)) /\
  state (agent_after r) = ERROR /\
  model_calls after = 0%nat /\
  tool_calls after = 0%nat /\
  exists ts, _traces (agent_after r) = _traces a ++ ts /\
    Forall (fun t => BaseTrace.action t <> "tool_execution:" +:+ tool_name) ts.
Proof.
  intros Hok Hev Hreq Hnot r. subst r.
  pose proof (holds_execute _ input ctx refuses_compositional refuses_body
                (mkHeap a w)) as [_ Href].
  destruct (Href Hok _ _ _ _ _ _ Hev Hreq Hnot) as (Hend & Hm & Ht).
  apply ending_raise in Hend.
  pose proof (holds_execute _ input ctx traces_registered_tools_compositional
                traces_registered_tools_body (mkHeap a w)) as [_ (ts & Hts & Hall)].
  repeat split; try done.
  - by eapply execute_raise_state.
  - exists ts. split; [done|]. eapply Forall_impl; [exact Hall|].
    cbn. intros t Ht' Heq. specialize (Ht' _ Heq). congruence.
Qed.

(** *** Failures of collaborators *)

(** C4 (as the code has it).  An exception raised by a collaborator during
    [execute] -- by the memory store while a trace is mirrored, just like
    by the model or by a tool -- is not recovered: [execute] raises that
    same exception to its caller.  When the exception derives from
    [Exception], the handler of [execute] leaves the agent in state
    [ERROR]; one that does not (a cancelled await) is not caught by it and
    leaves the state the loop had set, [THINKING] or [EXECUTING]. *)
Theorem C4_collaborator_failures_propagate
    (a : Agent World) (w : World) input ctx ev x :
  In ev (events (execute input ctx (mkHeap a w))) ->
  failure_of ev = Some x ->
  outcome (execute input ctx (mkHeap a w)) = Some (Raise x) /\
  if is_Exception x
  then state (agent_after (execute input ctx (mkHeap a w))) = ERROR
  else state (agent_after (execute input ctx (mkHeap a w))) = THINKING \/
       state (agent_after (execute input ctx (mkHeap a w))) = EXECUTING.
Proof.
  intros Hin Hfail.
  pose proof (holds_execute _ input ctx propagates_compositional
                propagates_body (mkHeap a w) ev x Hin Hfail) as Hend.
  apply ending_raise in Hend. split; [done|].
  by apply execute_raise_state_cases.
Qed.

(** *** The session of an agent *)

(** C5 (as the code has it).  [execute] does not allocate a session: the
    session id chosen by [__init__] is kept, the trace log is kept and
    only extended by the traces of the call, each under that same session
    id.  Only the iteration counter is restarted: when the call is over it
    counts the model calls of that call alone. *)
Theorem C5_session_outlives_execute (a : Agent World) (w : World) input ctx :
  let r := execute input ctx (mkHeap a w) in
  _session_id (agent_after r) = _session_id a /\
  (exists ts, _traces (agent_after r) = _traces a ++ ts /\
              Forall (fun t => BaseTrace.session_id t = _session_id a) ts) /\
  _iteration (agent_after r) = Z.of_nat (model_calls (events r)).
Proof.
  intros r. subst r.
  pose proof (frame_execute input ctx (mkHeap a w)) as [(_&_&_&_&Hsid) Hts].
  pose proof (execute_iteration input ctx (mkHeap a w)) as [Hit _].
  by repeat split.
Qed.

(** *** A bound that allows no pass *)

(** C6 (what the code does).  With a non-positive iteration bound the loop
    body never runs, no model call is made, and reading the unassigned
    local [action] on line 139 raises [UnboundLocalError]; the handler
    sets the state to [ERROR].  The [RuntimeError] of line 145 is not what
    is raised. *)
Theorem C6_nonpositive_bound_raises_unbound_local
    (a : Agent World) (w : World) input ctx :
  max_iterations (config a) <= 0 ->
  let r := execute input ctx (mkHeap a w) in
  outcome r = Some (Raise (unbound_local "action")) /\
  state (agent_after r) = ERROR /\
  events r = [].
Proof.
  intros Hmax r. subst r. rewrite execute_unfold. cbv zeta.
  cbn [self world].
  replace (Z.to_nat (max_iterations (config a))) with O by lia.
  rewrite while_loop_O. cbn [self world config set_iteration set_state _iteration].
  destruct (Z.ltb_spec 0 (max_iterations (config a))); [lia|]. done.
Qed.

(** *** The tool registry *)

Lemma Dict_get_del_eq {V : Type} (k : string) (d : Dict.t V) :
  Dict.get k (Dict.del k d) = None.
Proof.
  induction d as [|[k' v] d IH]; [done|]. unfold Dict.del in *. cbn.
  destruct (String.eqb_spec k k'); cbn; [done|].
  by destruct (String.eqb_spec k k').
Qed.

Lemma Dict_get_del_ne {V : Type} (k k' : string) (d : Dict.t V) :
  k <> k' -> Dict.get k' (Dict.del k d) = Dict.get k' d.
Proof.
  intros Hne. induction d as [|[k0 v] d IH]; [done|]. unfold Dict.del in *. cbn.
  destruct (String.eqb_spec k k0) as [->|]; cbn.
  - by destruct (String.eqb_spec k' k0) as [->|].
  - by rewrite IH.
Qed.

Lemma Dict_get_set_eq {V : Type} (k : string) (v : V) (d : Dict.t V) :
  Dict.get k (Dict.set k v d) = Some v.
Proof.
  induction d as [|[k' v'] d IH]; cbn.
  - by rewrite String.eqb_refl.
  - destruct (String.eqb_spec k k') as [->|Hne]; cbn.
    + by rewrite String.eqb_refl.
    + by destruct (String.eqb_spec k k').
Qed.

Lemma Dict_get_set_ne {V : Type} (k k' : string) (v : V) (d : Dict.t V) :
  k <> k' -> Dict.get k' (Dict.set k v d) = Dict.get k' d.
Proof.
  intros Hne. induction d as [|[k0 v0] d IH]; cbn.
  - by destruct (String.eqb_spec k' k).
  - destruct (String.eqb_spec k k0) as [->|]; cbn.
    + by destruct (String.eqb_spec k' k0) as [->|].
    + by rewrite IH.
Qed.

(** A tool whose name is free is registered under its name; the other
    entries stay. *)
Lemma add_tool_fresh (tool : BaseTool.t World) (h : Heap World) :
  Dict.contains (BaseTool.name tool) (tools (self h)) = false ->
  outcome (add_tool tool h) = Some (Ok tt) /\
  Dict.get (BaseTool.name tool) (tools (agent_after (add_tool tool h))) = Some tool /\
  forall other, other <> BaseTool.name tool ->
    Dict.get other (tools (agent_after (add_tool tool h))) =
    Dict.get other (tools (self h)).
Proof.
  intros Hfree. unfold add_tool, bind, get_self, modify_self. cbn.
  rewrite Hfree. cbn. repeat split.
  - apply Dict_get_set_eq.
  - intros other Hne. by apply Dict_get_set_ne.
Qed.

(** C7.  For every registry and every tool whose name is already present,
    [add_tool] fails with the [ValueError] "Tool <name> already exists" and
    leaves the agent, its registry included, exactly as it was: no entry is
    replaced, none is added. *)
Theorem C7_add_tool_duplicate_rejected (tool : BaseTool.t World) (h : Heap World) :
  Dict.contains (BaseTool.name tool) (tools (self h)) = true ->
  add_tool tool h =
    (Some (Raise (Exc ValueError
                    ("Tool " +:+ BaseTool.name tool +:+ " already exists"))),
     h, []).
Proof.
  intros Hdup. unfold add_tool, bind, get_self, raise. cbn. by rewrite Hdup.
Qed.

(** C8.  For every registry and every name that is not present,
    [remove_tool] returns without raising and leaves the agent, its
    registry included, exactly as it was; when the name is present,
    [remove_tool] returns, the name is no longer present, and every entry
    under another name is unchanged. *)
Theorem C8_remove_tool (tool_name : string) (h : Heap World) :
  (Dict.contains tool_name (tools (self h)) = false ->
   remove_tool tool_name h = (Some (Ok tt), h, [])) /\
  (Dict.contains tool_name (tools (self h)) = true ->
   let r := remove_tool tool_name h in
   outcome r = Some (Ok tt) /\
   Dict.get tool_name (tools (agent_after r)) = None /\
   forall other, other <> tool_name ->
     Dict.get other (tools (agent_after r)) = Dict.get other (tools (self h))).
Proof.
  unfold remove_tool, bind, get_self, modify_self, ret. cbn. split.
  - intros ->. done.
  - intros ->. cbn. repeat split.
    + apply Dict_get_del_eq.
    + intros other Hne. by apply Dict_get_del_ne.
Qed.

(** *** Traces and calls *)


(** C10.  [execute] never calls a tool's [validate_input]; and every call
    it makes to a tool's [execute] passes an envelope of kind text whose
    content is the [input] entry of the latest model action, whatever its
    type, or the empty string when the action has none, for the tool that
    action names. *)
Theorem C10_tool_dispatch (a : Agent World) (w : World) input ctx :
  let r := execute input ctx (mkHeap a w) in
  validate_calls (events r) = 0%nat /\
  forall before tool_name arg res after,
    events r = before ++ EvToolExecute tool_name arg res :: after ->
    BaseInput.type arg = InputType.TEXT /\
    exists act d,
      last_action None before = Some act /\
      BaseOutput.content act = VDict d /\
      Dict.get "tool" d = Some (VStr tool_name) /\
      arg = BaseInput.mk InputType.TEXT
              (match Dict.get "input" d with
               | Some v => v
               | None => VStr EmptyString
               end)
              Dict.empty.
Proof.
  intros r. subst r.
  pose proof (holds_execute _ input ctx dispatched_compositional
                dispatched_body (mkHeap a w) None) as Hwd.
  split; [by eapply well_dispatched_no_validate|].
  intros before tool_name arg res after Heq. rewrite Heq in Hwd.
  apply well_dispatched_split in Hwd as (act & Hlast & Hd).
  unfold dispatch_of in Hd.
  destruct (BaseOutput.content act) as [| | | | |?|d] eqn:Hc; try done.
  destruct (Dict.get "tool" d) as [[| | | |s| |]|] eqn:Htool; try done.
  simplify_eq. split; [done|]. by exists act, d.
Qed.

End Claims.

(* ================================================================= *)
(** ** The claims on concrete runs *)

Lemma mirror_ok_no_memory {World : Type} (a : Agent World) :
  memory a = None -> mirror_ok a.
Proof. intros Hnone m Hm. congruence. Qed.

Lemma mirror_ok_redis_up (a : Agent Script.World) :
  memory a = Some (RedisMemory.as_memory Script.redis_up) -> mirror_ok a.
Proof. intros Hup m Hm _ key t md w. rewrite Hup in Hm. by simplify_eq. Qed.

(** C1, as the claim states it, fails.  Three passes allowed and a model
    whose responses never hold [final_answer] or [tool]: when the memory
    backend refuses the write of the first trace, [execute] raises the
    [RuntimeError] of [RedisMemory.store] after one model call instead of
    returning the last action; and when the JSON responses have no content
    at all, the membership test of the first pass raises a [TypeError]. *)
Lemma C1_counterexample :
  max_iterations (config Script.undecided_down_agent) = 3 /\
  model_always undecided Script.undecided_down_agent /\
  outcome Script.run_undecided_down =
    Some (Raise (Exc RuntimeError "Redis storage error: Connection refused")) /\
  model_calls (events Script.run_undecided_down) = 1%nat /\
  state (agent_after Script.run_undecided_down) = ERROR /\
  max_iterations (config Script.null_agent) = 3 /\
  memory Script.null_agent = None /\
  BaseOutput.content Script.null_reply = VNone /\
  outcome Script.run_null =
    Some (Raise (Exc TypeError "argument of type 'NoneType' is not iterable")) /\
  model_calls (events Script.run_null) = 1%nat /\
  state (agent_after Script.run_null) = ERROR.
Proof.
  split; [reflexivity|]. split.
  { intros prompt kw w. exists Script.thought_reply.
    split; [reflexivity | intros _; split; reflexivity]. }
  vm_compute. repeat split; reflexivity.
Qed.

(** C1, as the code has it, on a run: three passes allowed, a model that
    only thinks aloud in JSON, tracing on and a memory that takes every
    write. *)
Lemma C1_witness :
  1 <= max_iterations (config Script.undecided_agent) /\
  BaseOutput.type Script.thought_reply = OutputType.JSON /\
  trace_enabled (config Script.undecided_agent) = true /\
  memory Script.undecided_agent = Some (RedisMemory.as_memory Script.redis_up) /\
  exists act,
    outcome Script.run_undecided = Some (Ok act) /\
    last_action None (events Script.run_undecided) = Some act /\
    Z.of_nat (model_calls (events Script.run_undecided)) =
      max_iterations (config Script.undecided_agent) /\
    tool_calls (events Script.run_undecided) = 0%nat /\
    state (agent_after Script.run_undecided) = COMPLETED.
Proof.
  split; [vm_compute; discriminate|].
  split; [reflexivity|]. split; [reflexivity|]. split; [reflexivity|].
  apply (C1_undecided_model_returns_last_action
           Script.undecided_agent (Script.mkWorld 1 []) (inl "q") None).
  - vm_compute. discriminate.
  - intros prompt kw w. exists Script.thought_reply.
    split; [reflexivity | intros _; split; reflexivity].
  - apply mirror_ok_redis_up. reflexivity.
Defined.



(** C3, as the claim states it, fails: the model asks for [nope], only
    [echo] is registered, and the memory backend refuses the write of the
    trace of that response.  [execute] raises the [RuntimeError] of
    [RedisMemory.store] before it looks the tool up, not "Tool nope not
    found". *)
Lemma C3_counterexample :
  requests_tool (Script.tool_reply "nope" (VInt 3)) "nope" /\
  Dict.contains "nope" (tools Script.echo_down_agent) = false /\
  outcome Script.run_missing_tool_down =
    Some (Raise (Exc RuntimeError "Redis storage error: Connection refused")) /\
  outcome Script.run_missing_tool_down <> Some (Raise (tool_not_found "nope")) /\
  model_calls (events Script.run_missing_tool_down) = 1%nat.
Proof.
  split.
  { split; [reflexivity|]. eexists. repeat split; reflexivity. }
  split; [reflexivity|]. vm_compute. repeat split; try reflexivity.
  discriminate.
Qed.

(** C3, as the code has it, on a run: the model asks for [nope], only
    [echo] is registered, tracing is on and the memory takes every
    write. *)
Lemma C3_witness :
  trace_enabled (config Script.echo_up_agent) = true /\
  memory Script.echo_up_agent = Some (RedisMemory.as_memory Script.redis_up) /\
  requests_tool (Script.tool_reply "nope" (VInt 3)) "nope" /\
  Dict.contains "nope" (tools Script.echo_up_agent) = false /\
  outcome Script.run_missing_tool = Some (Raise (tool_not_found "nope")) /\
  state (agent_after Script.run_missing_tool) = ERROR /\
  model_calls (events Script.run_missing_tool) = 1%nat /\
  tool_calls (events Script.run_missing_tool) = 0%nat.
Proof.
  split; [reflexivity|]. split; [reflexivity|].
  assert (requests_tool (Script.tool_reply "nope" (VInt 3)) "nope") as Hreq.
  { split; [reflexivity|]. eexists. repeat split; reflexivity. }
  split; [exact Hreq|]. split; [reflexivity|].
  destruct (C3_unregistered_tool_fails
              Script.echo_up_agent
              (Script.mkWorld 1 Script.missing_tool_script)
              (inl "q") None []
              (_construct_prompt Script.echo_up_agent (as_input (inl "q")) Dict.empty)
              (generate_kwargs (config Script.echo_up_agent))
              (Script.tool_reply "nope" (VInt 3))
              (tl (events Script.run_missing_tool)) "nope")
    as (Hout & Hstate & _ & _ & _).
  - apply mirror_ok_redis_up. reflexivity.
  - vm_compute. reflexivity.
  - exact Hreq.
  - reflexivity.
  - split; [exact Hout|]. split; [exact Hstate|]. split; reflexivity.
Defined.

(** C4, as the claim states it, fails: the model gives its final answer
    at once, the memory backend refuses the write of the trace, and
    [execute] raises the [RuntimeError] of [RedisMemory.store] instead of
    returning the answer. *)
Lemma C4_counterexample :
  outcome Script.run_redis_down =
    Some (Raise (Exc RuntimeError "Redis storage error: Connection refused")) /\
  state (agent_after Script.run_redis_down) = ERROR /\
  model_calls (events Script.run_redis_down) = 1%nat /\
  map failure_of (events Script.run_redis_down) =
    [None;
     Some (Exc RuntimeError "Redis storage error: Connection refused")].
Proof. vm_compute. repeat split; reflexivity. Qed.

(** C4, as the code has it, on that run, and on a run in which the await
    of the model is cancelled. *)
Lemma C4_witness :
  (exists ev,
     In ev (events Script.run_redis_down) /\
     failure_of ev =
       Some (Exc RuntimeError "Redis storage error: Connection refused") /\
     outcome Script.run_redis_down =
       Some (Raise (Exc RuntimeError "Redis storage error: Connection refused")) /\
     state (agent_after Script.run_redis_down) = ERROR) /\
  (exists ev,
     In ev (events Script.run_cancelled) /\
     failure_of ev = Some Script.cancelled /\
     outcome Script.run_cancelled = Some (Raise Script.cancelled) /\
     (state (agent_after Script.run_cancelled) = THINKING \/
      state (agent_after Script.run_cancelled) = EXECUTING)).
Proof.
  split.
  - eexists. split; [right; left; reflexivity|]. split; [reflexivity|].
    eapply (C4_collaborator_failures_propagate
              Script.redis_down_agent (Script.mkWorld 1 [Ok Script.final_reply])
              (inl "q") None _
              (Exc RuntimeError "Redis storage error: Connection refused")).
    + right. left. reflexivity.
    + reflexivity.
  - eexists. split; [left; reflexivity|]. split; [reflexivity|].
    eapply (C4_collaborator_failures_propagate
              Script.redis_down_agent (Script.mkWorld 1 [Raise Script.cancelled])
              (inl "q") None _ Script.cancelled).
    + left. reflexivity.
    + reflexivity.
Defined.

(** C5, as the claim states it, fails: the second call of [execute] on an
    agent starts from the trace of the first call, not from an empty log,
    and under the session id of the first call, not a new one. *)
Lemma C5_counterexample :
  length (_traces (agent_after Script.run_first)) = 1%nat /\
  _session_id (agent_after Script.run_first) = _session_id Script.twice_agent /\
  map BaseTrace.session_id (_traces (agent_after Script.run_second)) =
    [_session_id Script.twice_agent; _session_id Script.twice_agent] /\
  map (fun t => BaseInput.content (BaseTrace.input t))
      (_traces (agent_after Script.run_second)) =
    [VStr "first"; VStr "second"].
Proof. vm_compute. repeat split; reflexivity. Qed.

(** C6 on a run: [max_iterations = 0]. *)
Lemma C6_witness :
  max_iterations (config Script.no_pass_agent) <= 0 /\
  outcome Script.run_no_pass = Some (Raise (unbound_local "action")) /\
  state (agent_after Script.run_no_pass) = ERROR /\
  events Script.run_no_pass = [].
Proof.
  split; [vm_compute; discriminate|].
  apply (C6_nonpositive_bound_raises_unbound_local
           Script.no_pass_agent (Script.mkWorld 1 [Ok Script.final_reply])
           (inl "q") None).
  vm_compute. discriminate.
Defined.

(** C7 on a run: a second tool named [echo]. *)
Lemma C7_witness :
  Dict.contains (BaseTool.name Script.echo2) (tools Script.echo_agent) = true /\
  add_tool Script.echo2 (Script.start Script.echo_agent []) =
    (Some (Raise (Exc ValueError "Tool echo already exists")),
     Script.start Script.echo_agent [], []).
Proof.
  split; [reflexivity|].
  apply (C7_add_tool_duplicate_rejected Script.echo2
           (Script.start Script.echo_agent [])).
  reflexivity.
Defined.

(** C8 on two runs: removing a name that is absent, and one that is
    present. *)
Lemma C8_witness :
  remove_tool "nope" (Script.start Script.echo_agent []) =
    (Some (Ok tt), Script.start Script.echo_agent [], []) /\
  Dict.get "echo"
    (tools (agent_after (remove_tool "echo" (Script.start Script.echo_agent []))))
    = None.
Proof.
  split.
  - apply (C8_remove_tool "nope" (Script.start Script.echo_agent [])).
    reflexivity.
  - apply (C8_remove_tool "echo" (Script.start Script.echo_agent [])).
    reflexivity.
Defined.


(** C10 on that run: no call of [validate_input]; the second tool call is
    passed the list the model gave as [input], wrapped as text. *)
Lemma C10_witness :
  validate_calls (events Script.run_three) = 0%nat /\
  Forall (fun ev =>
            match ev with
            | EvToolExecute _ arg _ => BaseInput.type arg = InputType.TEXT
            | _ => True
            end)
         (events Script.run_three) /\
  map (fun ev =>
         match ev with
         | EvToolExecute _ arg _ => Some (BaseInput.content arg)
         | _ => None
         end)
      (List.filter is_tool_call (events Script.run_three)) =
    [Some (VInt 3); Some (VList [VStr "x"])].
Proof.
  split.
  - apply (C10_tool_dispatch Script.echo_agent
             (Script.mkWorld 1 [Ok (Script.tool_reply "echo" (VInt 3));
                                Ok (Script.tool_reply "echo" (VList [VStr "x"]));
                                Ok Script.final_reply])
             (inl "q") None).
  - split; [|reflexivity]. vm_compute. repeat constructor.
Defined.

(* ================================================================= *)
(** ** Further properties of [Agent.execute] *)

Section Pace.
Context {World : Type} `{!PyRuntime World}.

#[local] Arguments _construct_prompt : simpl never.
#[local] Arguments trace_key : simpl never.

Lemma paced_compositional : Compositional (@paced World).
Proof.
  split; unfold paced, tool_calls, model_calls; try done.
  intros h1 h2 h3 e1 e2 s H1 H2. rewrite !count_app. lia.
Qed.

Lemma paced_body l : holds (@paced World) (loop_body l).
Proof.
  intros h. destruct (loop_body l h) as [[r h'] evs] eqn:E. run_body E.
  all: unfold paced, tool_calls, model_calls, count; cbn; lia.
Qed.

Lemma tools_follow_model_app fresh (e1 e2 : list Event) :
  tools_follow_model fresh e1 = true ->
  (forall fresh', tools_follow_model fresh' e2 = true) ->
  tools_follow_model fresh (e1 ++ e2) = true.
Proof.
  intros H1 H2. revert fresh H1.
  induction e1 as [|ev e1 IH]; intros fresh H1; cbn; [apply H2|].
  destruct ev as [p kw r|n a r|n a r|k t r]; cbn in *; auto.
  apply andb_true_iff in H1 as [-> H1]. cbn. auto.
Qed.

Lemma spaced_compositional : Compositional (@spaced World).
Proof.
  split; unfold spaced; try done.
  intros h1 h2 h3 e1 e2 s H1 H2 fresh. by apply tools_follow_model_app.
Qed.

Lemma spaced_body l : holds (@spaced World) (loop_body l).
Proof.
  intros h. destruct (loop_body l h) as [[r h'] evs] eqn:E. run_body E.
  all: by intros fresh.
Qed.

Lemma store_calls_app (e1 e2 : list Event) :
  store_calls (e1 ++ e2) = (store_calls e1 + store_calls e2)%nat.
Proof. apply count_app. Qed.

Lemma mirrored_compositional : Compositional (@mirrored World).
Proof.
  split; unfold mirrored.
  - intros h. split; [apply same_setup_refl|]. exists [].
    rewrite app_nil_r. split; [done|]. by destruct (memory _).
  - intros h. split; [apply same_setup_refl|]. exists [].
    rewrite app_nil_r. split; [done|]. by destruct (memory _).
  - intros h e. split; [apply same_setup_refl|]. exists [].
    rewrite app_nil_r. split; [done|]. by destruct (memory _).
  - intros h1 h2 h3 e1 e2 s [S1 (ts1&T1&N1)] [S2 (ts2&T2&N2)].
    split; [by eapply same_setup_trans|].
    exists (ts1 ++ ts2). rewrite T2, T1, app_assoc. split; [done|].
    rewrite store_calls_app, N1, N2.
    destruct S1 as (_&_&_&->&_).
    destruct (memory (self h1)); [by rewrite length_app | done].
  - intros h1 h2 s e st [S1 T1]. split; [|done].
    destruct S1 as (?&?&?&?&?). by repeat split.
  - intros h1 h2 s e i [S1 T1]. split; [|done].
    destruct S1 as (?&?&?&?&?). by repeat split.
Qed.

Lemma mirrored_body l : holds (@mirrored World) (loop_body l).
Proof.
  intros h. destruct (loop_body l h) as [[r h'] evs] eqn:E. run_body E.
  all: split; [by repeat split|]; cbn; rewrite <- ?app_assoc.
  all: first [ exists []; split; [by rewrite app_nil_r |]
             | eexists; split; [reflexivity |] ].
  all: repeat match goal with
         | H : memory _ = _ |- _ => rewrite H; clear H
         end.
  all: unfold store_calls, count; cbn; try done.
  all: by destruct (memory _).
Qed.

End Pace.

Section Mirror.
Context {World : Type} `{!PyRuntime World}.

#[local] Arguments _construct_prompt : simpl never.
#[local] Arguments trace_key : simpl never.

Lemma overwrites_compositional : Compositional (@overwrites World).
Proof.
  split; unfold overwrites.
  - intros h. split; [apply same_setup_refl|]. intros _ _ [|??] ?????; done.
  - intros h. split; [apply same_setup_refl|]. intros _ _ [|??] ?????; done.
  - intros h e. split; [apply same_setup_refl|]. intros _ _ [|??] ?????; done.
  - intros h1 h2 h3 e1 e2 s [S1 R1] [S2 R2].
    split; [by eapply same_setup_trans|].
    intros Hen Hmem before tool_name arg res after Heq.
    apply app_eq_mid in Heq as [(mid & -> & ->)|(pre & -> & ->)].
    + destruct (R1 Hen Hmem _ _ _ _ _ eq_refl)
        as (b' & key & t1 & t2 & r & a' & -> & -> & Ha1 & Ha2).
      exists b', key, t1, t2, r, (a' ++ e2). by repeat split.
    + destruct S1 as (_&Hc&_&Hm&_).
      destruct (R2 ltac:(by rewrite Hc) ltac:(by rewrite Hm) _ _ _ _ _ eq_refl)
        as (b' & key & t1 & t2 & r & a' & -> & -> & Ha1 & Ha2).
      exists (e1 ++ b'), key, t1, t2, r, a'. rewrite app_assoc. by repeat split.
  - intros h1 h2 s e st [S1 R1]. split; [|done].
    destruct S1 as (?&?&?&?&?). by repeat split.
  - intros h1 h2 s e i [S1 R1]. split; [|done].
    destruct S1 as (?&?&?&?&?). by repeat split.
Qed.

Lemma overwrites_body l : holds (@overwrites World) (loop_body l).
Proof.
  intros h. destruct (loop_body l h) as [[r h'] evs] eqn:E. run_body E.
  all: split; [by repeat split|].
  all: intros Hen [m Hmem] before tool_name arg res after Heq.
  all: cbn in Heq.
  all: repeat match goal with
         | Hsplit : _ = ?b ++ EvToolExecute _ _ _ :: _ |- _ =>
             is_var b; destruct b; cbn in Hsplit; simplify_eq
         end.
  all: try congruence.
  all: repeat match goal with u : unit |- _ => destruct u end.
  all: eexists [_], _, _, _, _, _.
  all: split; [reflexivity|]; split; [reflexivity|]; split; [reflexivity|].
  all: cbn.
  all: match goal with
       | Hd : py_in_dict _ _ = Ok true |- _ =>
           apply py_in_dict_true in Hd as (s & -> & Hs)
       end.
  all: done.
Qed.

(** *** Actions that are not dictionaries *)

Lemma py_in_raise k c e : py_in k c = Raise e -> exc_class e = TypeError.
Proof. destruct c; cbn; intros; by simplify_eq. Qed.

Lemma py_getitem_not_dict c k :
  (forall d, c <> VDict d) ->
  exists e, py_getitem c k = Raise e /\ exc_class e = TypeError.
Proof.
  intros Hnd. destruct c; cbn; eauto. by destruct (Hnd entries).
Qed.

Lemma chokes_compositional : Compositional (@chokes World).
Proof.
  split; unfold chokes.
  - intros h. split; [apply same_setup_refl|]. intros _ [|??] ?????; done.
  - intros h. split; [apply same_setup_refl|]. intros _ [|??] ?????; done.
  - intros h e. split; [apply same_setup_refl|]. intros _ [|??] ?????; done.
  - intros h1 h2 h3 e1 e2 s [S1 R1] [S2 R2].
    split; [by eapply same_setup_trans|].
    intros Hok before p kw act after Heq Hmal.
    apply app_eq_mid in Heq as [(mid & -> & ->)|(pre & -> & ->)].
    + by destruct (R1 Hok _ _ _ _ _ eq_refl Hmal) as [(x & ? & _) _].
    + eapply R2; [by eapply mirror_ok_same_setup | done | done].
  - intros h1 h2 s e st [S1 R1]. split; [|done].
    destruct S1 as (?&?&?&?&?). by repeat split.
  - intros h1 h2 s e i [S1 R1]. split; [|done].
    destruct S1 as (?&?&?&?&?). by repeat split.
Qed.

Lemma chokes_body l : holds (@chokes World) (loop_body l).
Proof.
  intros h. destruct (loop_body l h) as [[r h'] evs] eqn:E. run_body E.
  all: split; [by repeat split|].
  all: intros Hok before p kw act after Heq Hmal.
  all: cbn in Heq; apply first_call_split in Heq as [Hev ->]; [|done].
  all: simplify_eq.
  all: destruct Hmal as (Hty & Hnd & Hnot).
  all: mirror_contradiction Hok.
  all: try rewrite Hty in *; cbn in *; simplify_eq.
  all: try (exfalso; apply Hnot; by split).
  all: repeat match goal with
         | Hg : py_getitem ?c ?k = _ |- _ =>
             let e := fresh "e" in
             destruct (py_getitem_not_dict c k Hnd) as (e & He & Hc);
             rewrite He in Hg; simplify_eq
         end.
  all: repeat match goal with
         | Hg : py_in _ _ = Raise _ |- _ => apply py_in_raise in Hg
         end.
  all: try (split; [eexists; by split | by split]).
Qed.

End Mirror.

Section LoopInduction.
Context {World : Type} `{!PyRuntime World}.

#[local] Arguments _construct_prompt : simpl never.
#[local] Arguments trace_key : simpl never.
#[local] Arguments loop_body : simpl never.
#[local] Arguments while_loop : simpl never.

(** Induction on the passes of the loop: a property of the locals and the
    heap the loop starts from and of the run it makes. *)
Lemma while_loop_ind_run
    (P : Locals -> Heap World -> Run World LoopExit -> Prop) :
  (forall l h,
     (_iteration (self h) <? max_iterations (config (self h)))%Z = false ->
     P l h (Some (Ok (Fell l)), h, [])) ->
  (forall l h, P l h (None, h, [])) ->
  (forall l h,
     (_iteration (self h) <? max_iterations (config (self h)))%Z = true ->
     match loop_body l h with
     | (Some (Ok (Next l')), h1, e1) =>
         forall r h2 e2, P l' h1 (r, h2, e2) -> P l h (r, h2, e1 ++ e2)
     | (Some (Ok (Break l')), h1, e1) => P l h (Some (Ok (Fell l')), h1, e1)
     | (Some (Ok (Return v)), h1, e1) => P l h (Some (Ok (Returned v)), h1, e1)
     | (Some (Raise e), h1, e1) => P l h (Some (Raise e), h1, e1)
     | (None, h1, e1) => P l h (None, h1, e1)
     end) ->
  forall fuel l h, P l h (while_loop fuel l h).
Proof.
  intros Hstop Hfuel Hstep. induction fuel as [|fuel IH]; intros l h.
  - rewrite while_loop_O. destruct (_ <? _)%Z eqn:Hc; [apply Hfuel | by apply Hstop].
  - rewrite while_loop_S. destruct (_ <? _)%Z eqn:Hc; [|by apply Hstop].
    specialize (Hstep l h Hc).
    destruct (loop_body l h) as [[[[[l'|l'|v]|e]|] h1] e1]; try done.
    specialize (IH l' h1).
    destruct (while_loop fuel l' h1) as [[r h2] e2]. by apply Hstep.
Qed.

Lemma _construct_prompt_tools (a b : Agent World) i c :
  tools a = tools b -> _construct_prompt a i c = _construct_prompt b i c.
Proof. unfold _construct_prompt. by intros ->. Qed.

Lemma context_after_app ctx e1 e2 :
  context_after ctx (e1 ++ e2) = context_after (context_after ctx e1) e2.
Proof.
  revert ctx. induction e1 as [|ev e1 IH]; intros ctx; [done|].
  destruct ev as [p kw r|n a [res|x]|n a r|k t r]; cbn; auto.
Qed.

(** *** What a pass asks the model, and what it leaves in the locals *)

Lemma loop_body_first_call l (h : Heap World) :
  exists res rest,
    events (loop_body l h) =
      EvGenerate (_construct_prompt (self h) (input_data l) (context l))
                 (generate_kwargs (config (self h))) res :: rest /\
    model_calls rest = 0%nat.
Proof.
  destruct (loop_body l h) as [[r h'] evs] eqn:E. run_body E.
  all: eexists _, _; split; [reflexivity | done].
Qed.

Lemma loop_body_locals l (h : Heap World) l' :
  outcome (loop_body l h) = Some (Ok (Next l')) \/
  outcome (loop_body l h) = Some (Ok (Break l')) ->
  input_data l' = input_data l /\
  context l' = context_after (context l) (events (loop_body l h)).
Proof.
  destruct (loop_body l h) as [[r h'] evs] eqn:E. run_body E.
  all: intros [Ho|Ho]; cbn in Ho; simplify_eq; done.
Qed.

Lemma events_split_first (ev : Event) rest e2 before x after :
  model_calls rest = 0%nat -> is_model_call x = true ->
  (ev :: rest) ++ e2 = before ++ x :: after ->
  (before = [] /\ ev = x /\ after = rest ++ e2) \/
  (exists pre, before = ev :: rest ++ pre /\ e2 = pre ++ x :: after).
Proof.
  intros Hrest Hx Heq. destruct before as [|ev' before]; cbn in Heq; simplify_eq.
  - by left.
  - right. apply app_eq_mid in H0 as [(mid & -> & ->)|(pre & -> & ->)].
    + exfalso. revert Hrest. unfold model_calls. rewrite count_app.
      unfold count. cbn. rewrite Hx. cbn. lia.
    + by exists pre.
Qed.

Lemma while_loop_prompts fuel l (h : Heap World) :
  let r := while_loop fuel l h in
  (forall before prompt kw res after,
     events r = before ++ EvGenerate prompt kw res :: after ->
     prompt = _construct_prompt (self h) (input_data l)
                (context_after (context l) before) /\
     kw = generate_kwargs (config (self h))) /\
  (forall l', outcome r = Some (Ok (Fell l')) ->
     input_data l' = input_data l /\
     context l' = context_after (context l) (events r)).
Proof.
  cbv zeta. revert fuel l h.
  apply (while_loop_ind_run (fun l h r =>
    (forall before prompt kw res after,
       events r = before ++ EvGenerate prompt kw res :: after ->
       prompt = _construct_prompt (self h) (input_data l)
                  (context_after (context l) before) /\
       kw = generate_kwargs (config (self h))) /\
    (forall l', outcome r = Some (Ok (Fell l')) ->
       input_data l' = input_data l /\
       context l' = context_after (context l) (events r)))).
  - intros l h _. split.
    + intros [|??] ????; done.
    + intros l' Ho. cbn in Ho. by simplify_eq.
  - intros l h. split; [intros [|??] ????; done | done].
  - intros l h _.
    destruct (loop_body_first_call l h) as (res1 & rest & Hev & Hrest).
    pose proof (loop_body_locals l h) as Hloc.
    pose proof (frame_body l h) as [Hs _].
    unfold events, outcome, heap_after in *.
    destruct (loop_body l h) as [[r1 h1] e1]. cbn [fst snd] in *. subst e1.
    assert (forall before prompt kw res after,
              EvGenerate (_construct_prompt (self h) (input_data l) (context l))
                (generate_kwargs (config (self h))) res1 :: rest =
              before ++ EvGenerate prompt kw res :: after ->
              prompt = _construct_prompt (self h) (input_data l)
                         (context_after (context l) before) /\
              kw = generate_kwargs (config (self h))) as Hone.
    { intros before p kw res after Heq.
      rewrite <- (app_nil_r (_ :: rest)) in Heq.
      apply events_split_first in Heq as [(-> & ? & _)|(pre & _ & Hnil)].
      - by simplify_eq.
      - by destruct pre.
      - done.
      - done. }
    destruct r1 as [[[l'|l'|v]|e]|].
    + intros r h2 e2 [IHp IHl].
      destruct (Hloc l' ltac:(by left)) as [Hin Hctx].
      destruct Hs as (_ & Hcfg & Htools & _). cbn [fst snd] in *. split.
      * intros before p kw res after Heq.
        apply events_split_first in Heq as [(-> & ? & _)|(pre & -> & ->)];
          [by simplify_eq| |done..].
        destruct (IHp _ _ _ _ _ eq_refl) as [-> ->].
        rewrite Hin, Hctx, Hcfg.
        change (EvGenerate ?p ?k ?x :: rest ++ pre)
          with ((EvGenerate p k x :: rest) ++ pre).
        rewrite context_after_app. split; [|done].
        by apply _construct_prompt_tools.
      * intros l'' Ho. destruct (IHl l'' Ho) as [-> ->].
        by rewrite Hin, Hctx, context_after_app.
    + split; [done|]. intros l'' Ho. cbn in Ho. simplify_eq.
      by apply Hloc; right.
    + split; [done|]. intros l'' Ho. cbn in Ho. simplify_eq.
    + split; [done|]. intros l'' Ho. cbn in Ho. simplify_eq.
    + split; [done|]. intros l'' Ho. cbn in Ho. simplify_eq.
Qed.

End LoopInduction.

Section Passes.
Context {World : Type} `{!PyRuntime World}.

#[local] Arguments _construct_prompt : simpl never.
#[local] Arguments trace_key : simpl never.

(** *** The traces of a pass *)

Lemma loop_body_traces l (h : Heap World) :
  exists ts,
    _traces (agent_after (loop_body l h)) = _traces (self h) ++ ts /\
    Forall (pass_trace l h) ts /\
    forall key t r, In (EvMemoryStore key t r) (events (loop_body l h)) ->
      key = mirror_key (_session_id (self h)) (_iteration (self h) + 1) /\
      In t ts.
Proof.
  destruct (loop_body l h) as [[r h'] evs] eqn:E. run_body E.
  all: unfold agent_after, heap_after, events; cbn [fst snd self _traces set_state];
       rewrite <- ?app_assoc.
  all: first [ exists []; split; [by rewrite app_nil_r |]
             | eexists; split; [reflexivity |] ].
  all: split.
  all: try (repeat first [apply List.Forall_nil | apply List.Forall_cons];
            (split; [done|]; split; [|done]);
            first [ by left | right; eexists; by split ]).
  all: intros key tr r0 Hin; cbn in Hin.
  all: repeat (destruct Hin as [Hin|Hin]; [simplify_eq|]); try done.
  all: split; [done | cbn; tauto].
Qed.

(** *** How a pass ends *)

Lemma OutputType_eqb_false t :
  OutputType_eqb t OutputType.JSON = false -> t <> OutputType.JSON.
Proof. by destruct t. Qed.

Lemma py_getitem_ok c k v :
  py_getitem c k = Ok v -> exists d, c = VDict d /\ Dict.get k d = Some v.
Proof.
  destruct c; cbn; intros Hg; simplify_eq.
  destruct (Dict.get k entries) eqn:Hd; simplify_eq. eauto.
Qed.

Lemma py_in_false_not_final act :
  py_in "final_answer" (BaseOutput.content act) = Ok false ->
  forall v, ~ gives_final_answer act v.
Proof.
  intros Hin v (_ & d & Hc & Hget). rewrite Hc in Hin. cbn in Hin.
  unfold Dict.contains in Hin. rewrite Hget in Hin. by simplify_eq.
Qed.

Lemma loop_body_verdict l (h : Heap World) :
  final_answer l = None ->
  match outcome (loop_body l h) with
  | Some (Ok (Next l')) =>
      final_answer l' = None /\
      exists act, action l' = Some act /\
        (forall held, last_action held (events (loop_body l h)) = Some act) /\
        forall v, ~ gives_final_answer act v
  | Some (Ok (Break l')) =>
      exists act v, action l' = Some act /\
        (forall held, last_action held (events (loop_body l h)) = Some act) /\
        gives_final_answer act v /\
        final_answer l' = Some (BaseOutput.mk OutputType.JSON v (BaseOutput.metadata act))
  | Some (Ok (Return _)) => False
  | _ => True
  end.
Proof.
  intros Hnone.
  destruct (loop_body l h) as [[r h'] evs] eqn:E. run_body E.
  all: unfold outcome, events; cbn [fst snd]; try done; try congruence.
  all: try (split; [done|]; eexists; split; [reflexivity|]; split; [done|]).
  all: try (match goal with
            | Hf : OutputType_eqb _ _ = false |- _ =>
                apply OutputType_eqb_false in Hf;
                by intros v (Hty & _)
            end).
  all: try (by apply py_in_false_not_final).
  all: match goal with
       | Hg : py_getitem _ "final_answer" = Ok _,
         Ht : OutputType_eqb _ _ = true |- _ =>
           apply py_getitem_ok in Hg as (dd & Hc & Hget);
           apply OutputType_eqb_true in Ht
       end.
  all: eexists _, _; split; [reflexivity|]; split; [done|]; split; [|done].
  all: split; [done|]; by eexists.
Qed.

Lemma loop_body_concludes l (h : Heap World) prompt kw act rest v :
  events (loop_body l h) = EvGenerate prompt kw (Ok act) :: rest ->
  gives_final_answer act v -> mirror_ok (self h) ->
  tool_calls rest = 0%nat /\
  exists l', outcome (loop_body l h) = Some (Ok (Break l')) /\
    final_answer l' =
      Some (BaseOutput.mk OutputType.JSON v (BaseOutput.metadata act)).
Proof.
  intros Hev (Hty & dd & Hc & Hfin) Hok.
  destruct (loop_body l h) as [[r h'] evs] eqn:E. run_body E.
  all: unfold events, outcome in *; cbn [fst snd] in *; simplify_eq.
  all: mirror_contradiction Hok.
  all: try rewrite Hc in *; try rewrite Hty in *; cbn in *.
  all: unfold Dict.contains in *; rewrite ?Hfin in *; simplify_eq.
  all: split; [done|]; eexists; split; reflexivity.
Qed.

End Passes.

Section Runs.
Context {World : Type} `{!PyRuntime World}.

#[local] Arguments _construct_prompt : simpl never.
#[local] Arguments trace_key : simpl never.
#[local] Arguments loop_body : simpl never.
#[local] Arguments while_loop : simpl never.

(** *** The traces of a run *)

Lemma while_loop_traces fuel l (h : Heap World) :
  let r := while_loop fuel l h in
  exists ts,
    _traces (agent_after r) = _traces (self h) ++ ts /\
    Forall (run_trace l h) ts /\
    forall key t res, In (EvMemoryStore key t res) (events r) ->
      In t ts /\
      exists k, iteration_of t = Some k /\
                key = mirror_key (_session_id (self h)) k.
Proof.
  cbv zeta. revert fuel l h.
  apply (while_loop_ind_run (fun l h r =>
    exists ts,
      _traces (agent_after r) = _traces (self h) ++ ts /\
      Forall (run_trace l h) ts /\
      forall key t res, In (EvMemoryStore key t res) (events r) ->
        In t ts /\
        exists k, iteration_of t = Some k /\
                  key = mirror_key (_session_id (self h)) k)).
  - intros l h _. exists []. unfold agent_after, heap_after, events. cbn.
    rewrite app_nil_r. by repeat split.
  - intros l h. exists []. unfold agent_after, heap_after, events. cbn.
    rewrite app_nil_r. by repeat split.
  - intros l h Hc. apply Z.ltb_lt in Hc.
    destruct (loop_body_traces l h) as (ts1 & Ht1 & Hf1 & Hk1).
    pose proof (loop_body_locals l h) as Hloc.
    pose proof (loop_body_progress l h) as [_ Hit].
    pose proof (frame_body l h) as [Hs _].
    assert (Forall (run_trace l h) ts1) as Hf1'.
    { eapply Forall_impl; [exact Hf1|]. intros t (Hi & Hl & Hk).
      split; [done|]. split; [done|]. eexists. split; [exact Hk | lia]. }
    assert (forall key t res, In (EvMemoryStore key t res) (events (loop_body l h)) ->
              In t ts1 /\
              exists k, iteration_of t = Some k /\
                        key = mirror_key (_session_id (self h)) k) as Hk1'.
    { intros key t res Hin. destruct (Hk1 _ _ _ Hin) as [-> Hin'].
      split; [done|]. rewrite List.Forall_forall in Hf1.
      destruct (Hf1 _ Hin') as (_ & _ & Hk). eauto. }
    unfold agent_after, heap_after, events, outcome in *.
    destruct (loop_body l h) as [[r1 h1] e1]. cbn [fst snd] in *.
    destruct r1 as [[[l'|l'|v]|e]|]; try (by exists ts1).
    intros r h2 e2 (ts2 & Ht2 & Hf2 & Hk2). cbn [fst snd] in *.
    destruct (Hloc l' ltac:(by left)) as [Hin _].
    destruct Hs as (_ & Hcfg & _ & _ & Hsid).
    exists (ts1 ++ ts2). rewrite Ht2, Ht1, app_assoc. split; [done|]. split.
    + apply Forall_app. split; [done|].
      eapply Forall_impl; [exact Hf2|]. intros t (Hi & Hl & k & Hk & Hr).
      split; [congruence|]. split; [done|]. exists k. split; [done|].
      rewrite Hcfg, Hit in Hr. lia.
    + intros key t res Hin'. apply in_app_or in Hin' as [Hin'|Hin'].
      * destruct (Hk1' _ _ _ Hin') as [? ?]. split; [|done].
        apply in_or_app. by left.
      * destruct (Hk2 _ _ _ Hin') as [? (k & ? & ?)]. split.
        -- apply in_or_app. by right.
        -- exists k. by rewrite <- Hsid.
Qed.

(** *** How a run of the loop ends *)

Lemma while_loop_verdict fuel l (h : Heap World) :
  final_answer l = None ->
  let r := while_loop fuel l h in
  match outcome r with
  | Some (Ok (Returned _)) => False
  | Some (Ok (Fell l')) =>
      match final_answer l' with
      | Some fa =>
          exists act v, last_action (action l) (events r) = Some act /\
            gives_final_answer act v /\
            fa = BaseOutput.mk OutputType.JSON v (BaseOutput.metadata act)
      | None =>
          action l' = last_action (action l) (events r) /\
          (events r <> [] ->
           forall act, action l' = Some act ->
           forall v, ~ gives_final_answer act v) /\
          max_iterations (config (self h)) <= _iteration (agent_after r)
      end
  | _ => True
  end.
Proof.
  cbv zeta. revert fuel l h.
  apply (while_loop_ind_run (fun l h r =>
    final_answer l = None ->
    match outcome r with
    | Some (Ok (Returned _)) => False
    | Some (Ok (Fell l')) =>
        match final_answer l' with
        | Some fa =>
            exists act v, last_action (action l) (events r) = Some act /\
              gives_final_answer act v /\
              fa = BaseOutput.mk OutputType.JSON v (BaseOutput.metadata act)
        | None =>
            action l' = last_action (action l) (events r) /\
            (events r <> [] ->
             forall act, action l' = Some act ->
             forall v, ~ gives_final_answer act v) /\
            max_iterations (config (self h)) <= _iteration (agent_after r)
        end
    | _ => True
    end)).
  - intros l h Hc Hnone. apply Z.ltb_ge in Hc.
    unfold outcome, events, agent_after, heap_after. cbn. rewrite Hnone.
    by repeat split.
  - done.
  - intros l h Hc.
    pose proof (loop_body_verdict l h) as Hv.
    pose proof (frame_body l h) as [Hs _].
    unfold outcome, events, agent_after, heap_after in *.
    destruct (loop_body l h) as [[r1 h1] e1]. cbn [fst snd] in *.
    destruct r1 as [[[l'|l'|v]|e]|]; try done.
    + intros r h2 e2 IH Hnone.
      destruct (Hv Hnone) as (Hn' & act1 & Ha1 & Hl1 & Hng1).
      specialize (IH Hn'). cbn [fst snd] in *.
      destruct r as [[[l''|v]|e]|]; try done.
      destruct Hs as (_ & Hcfg & _).
      destruct (final_answer l'') as [fa|].
      * destruct IH as (act & v & Hl & Hg & ->).
        exists act, v. rewrite last_action_app, Hl1, <- Ha1.
        split; [done|]. by split.
      * destruct IH as (Ha & Hng & Hle). rewrite Hcfg in Hle.
        rewrite last_action_app, Hl1, <- Ha1. split; [done|]. split; [|lia].
        intros _ act Hact v. destruct e2 as [|ev e2].
        -- cbn in Ha. rewrite Ha, Ha1 in Hact. simplify_eq. apply Hng1.
        -- by apply (Hng ltac:(done) act Hact v).
    + intros Hnone. destruct (Hv Hnone) as (act & v & Ha & Hl & Hg & ->). eauto.
Qed.

Lemma while_loop_concludes fuel l (h : Heap World) :
  mirror_ok (self h) ->
  let r := while_loop fuel l h in
  forall before prompt kw act after v,
    events r = before ++ EvGenerate prompt kw (Ok act) :: after ->
    gives_final_answer act v ->
    model_calls after = 0%nat /\ tool_calls after = 0%nat /\
    exists l', outcome r = Some (Ok (Fell l')) /\
      final_answer l' =
        Some (BaseOutput.mk OutputType.JSON v (BaseOutput.metadata act)).
Proof.
  cbv zeta. revert fuel l h.
  apply (while_loop_ind_run (fun l h r =>
    mirror_ok (self h) ->
    forall before prompt kw act after v,
      events r = before ++ EvGenerate prompt kw (Ok act) :: after ->
      gives_final_answer act v ->
      model_calls after = 0%nat /\ tool_calls after = 0%nat /\
      exists l', outcome r = Some (Ok (Fell l')) /\
        final_answer l' =
          Some (BaseOutput.mk OutputType.JSON v (BaseOutput.metadata act)))).
  - intros l h _ _ [|??] ??????; done.
  - intros l h _ [|??] ??????; done.
  - intros l h _.
    destruct (loop_body_first_call l h) as (res1 & rest & Hev & Hrest).
    pose proof (loop_body_concludes l h) as Hcon.
    pose proof (frame_body l h) as [Hs _].
    unfold events, outcome, heap_after in *.
    destruct (loop_body l h) as [[r1 h1] e1]. cbn [fst snd] in *. subst e1.
    assert (forall before prompt kw act after v,
              mirror_ok (self h) ->
              EvGenerate (_construct_prompt (self h) (input_data l) (context l))
                (generate_kwargs (config (self h))) res1 :: rest =
              before ++ EvGenerate prompt kw (Ok act) :: after ->
              gives_final_answer act v ->
              model_calls after = 0%nat /\ tool_calls after = 0%nat /\
              exists l', r1 = Some (Ok (Break l')) /\
                final_answer l' =
                  Some (BaseOutput.mk OutputType.JSON v (BaseOutput.metadata act)))
      as Hone.
    { intros before p kw act after v Hok Heq Hg.
      rewrite <- (app_nil_r (_ :: rest)) in Heq.
      apply events_split_first in Heq as [(-> & ? & ->)|(pre & _ & Hnil)].
      - simplify_eq. rewrite app_nil_r.
        destruct (Hcon _ _ _ _ _ eq_refl Hg Hok) as (Ht & l' & -> & Hf).
        split; [done|]. split; [done|]. eauto.
      - by destruct pre.
      - done.
      - done. }
    destruct r1 as [[[l'|l'|out]|e]|].
    + intros r h2 e2 IH Hok before p kw act after v Heq Hg.
      apply events_split_first in Heq as [(-> & ? & ->)|(pre & -> & ->)];
        [| |done..].
      * simplify_eq.
        destruct (Hcon _ _ _ _ _ eq_refl Hg Hok) as (_ & l'' & ? & _). done.
      * eapply IH; [by eapply mirror_ok_same_setup | done | done].
    + intros Hok before p kw act after v Heq Hg.
      destruct (Hone _ _ _ _ _ _ Hok Heq Hg) as (? & ? & l'' & ? & ?).
      simplify_eq. repeat split; try done. eauto.
    + intros Hok before p kw act after v Heq Hg.
      by destruct (Hone _ _ _ _ _ _ Hok Heq Hg) as (? & ? & l'' & ? & ?).
    + intros Hok before p kw act after v Heq Hg.
      by destruct (Hone _ _ _ _ _ _ Hok Heq Hg) as (? & ? & l'' & ? & ?).
    + intros Hok before p kw act after v Heq Hg.
      by destruct (Hone _ _ _ _ _ _ Hok Heq Hg) as (? & ? & l'' & ? & ?).
Qed.

End Runs.

Section MoreOfExecute.
Context {World : Type} `{!PyRuntime World}.

#[local] Arguments _construct_prompt : simpl never.
#[local] Arguments trace_key : simpl never.
#[local] Arguments loop_body : simpl never.
#[local] Arguments while_loop : simpl never.

Lemma execute_events input ctx (h : Heap World) :
  events (execute input ctx h) = events (loop_of input ctx h).
Proof.
  rewrite execute_unfold. cbv zeta. unfold loop_of, locals_start, loop_start, events.
  destruct (while_loop _ _ _) as [[[[[l'|v]|e]|] h1] e1]; cbn; try done.
  - by destruct (final_answer l'), (action l').
  - by destruct (is_Exception e).
Qed.

Lemma execute_traces input ctx (h : Heap World) :
  _traces (agent_after (execute input ctx h)) =
  _traces (agent_after (loop_of input ctx h)).
Proof.
  rewrite execute_unfold. cbv zeta.
  unfold loop_of, locals_start, loop_start, agent_after, heap_after.
  destruct (while_loop _ _ _) as [[[[[l'|v]|e]|] h1] e1]; cbn; try done.
  - by destruct (final_answer l'), (action l').
  - by destruct (is_Exception e).
Qed.

Lemma last_action_no_call held evs :
  model_calls evs = 0%nat -> last_action held evs = held.
Proof.
  revert held. induction evs as [|ev evs IH]; intros held Hz; [done|].
  destruct ev as [p kw r|n i r|n i r|k t r]; cbn;
    try (apply IH; exact Hz).
  revert Hz. unfold model_calls, count. cbn. lia.
Qed.

(** X1.  When every call it awaits comes back, with a value or with an
    exception, so does [execute]: its loop ends.  It calls the model at
    most [max_iterations] times (not at all when the bound is not
    positive), and every tool call follows a model call of its own: no tool
    is called before the first model call, no two tool calls come without a
    model call between them, and so there are no more tool calls than model
    calls. *)
Theorem execute_ends_within_bound (a : Agent World) (w : World) input ctx :
  let r := execute input ctx (mkHeap a w) in
  outcome r <> None /\
  Z.of_nat (model_calls (events r)) <= Z.max 0 (max_iterations (config a)) /\
  tools_follow_model false (events r) = true /\
  (tool_calls (events r) <= model_calls (events r))%nat.
Proof.
  intros r. subst r. split; [apply execute_total|]. split; [|split].
  - apply (execute_iteration input ctx (mkHeap a w)).
  - apply (holds_execute _ input ctx spaced_compositional spaced_body (mkHeap a w)).
  - apply (holds_execute _ input ctx paced_compositional paced_body (mkHeap a w)).
Qed.

Lemma execute_return_state input ctx (h : Heap World) out :
  outcome (execute input ctx h) = Some (Ok out) ->
  state (agent_after (execute input ctx h)) = COMPLETED.
Proof.
  pose proof (while_loop_verdict (Z.to_nat (max_iterations (config (self h))))
                (locals_start input ctx) (loop_start h) eq_refl) as Hv.
  rewrite execute_unfold. cbv zeta in *.
  unfold locals_start, loop_start, outcome, agent_after, heap_after in *.
  cbn [self world] in *.
  destruct (while_loop _ _ _) as [[[[[l'|v]|e]|] h1] e1]; cbn in *; try done.
  - by destruct (final_answer l'), (action l').
  - by destruct (is_Exception e).
Qed.

(** X2.  The state [execute] leaves tells how it ended: [COMPLETED] when it
    returned, [ERROR] when it raised an exception that derives from
    [Exception].  An exception that does not (a cancelled await, a keyboard
    interrupt) is not caught by the handler of [execute]: it leaves the
    agent in the state the loop had set, [THINKING] or [EXECUTING].
    [execute] never leaves the agent idle or waiting. *)
Theorem execute_state_tells_outcome (a : Agent World) (w : World) input ctx :
  let r := execute input ctx (mkHeap a w) in
  match outcome r with
  | Some (Ok _) => state (agent_after r) = COMPLETED
  | Some (Raise e) =>
      if is_Exception e then state (agent_after r) = ERROR
      else state (agent_after r) = THINKING \/ state (agent_after r) = EXECUTING
  | None => False
  end.
Proof.
  intros r. subst r.
  pose proof (execute_total input ctx (mkHeap a w)) as Htot.
  destruct (outcome (execute input ctx (mkHeap a w))) as [[out|e]|] eqn:Hout;
    [|by apply execute_raise_state_cases|done].
  by eapply execute_return_state.
Qed.

(** X3.  [execute] never touches the agent's wiring: the model, the
    configuration, the tool registry and the memory are the same objects
    after the call as before, however the call ends. *)
Theorem execute_keeps_setup (a : Agent World) (w : World) input ctx :
  let r := execute input ctx (mkHeap a w) in
  llm (agent_after r) = llm a /\
  config (agent_after r) = config a /\
  tools (agent_after r) = tools a /\
  memory (agent_after r) = memory a.
Proof.
  intros r. subst r.
  pose proof (frame_execute input ctx (mkHeap a w)) as [(?&?&?&?&_) _].
  by repeat split.
Qed.

(** X4.  Every call [execute] makes to the model passes the configured
    temperature, token limit and stop sequences, and the prompt built from
    the tool registry, the input of the call and the context the caller
    gave in which [last_tool_result] holds the content returned by the
    latest tool call: earlier tool results and earlier model responses are
    not part of the prompt. *)
Theorem execute_prompts_follow_context
    (a : Agent World) (w : World) input ctx before prompt kw res after :
  events (execute input ctx (mkHeap a w)) =
    before ++ EvGenerate prompt kw res :: after ->
  prompt = _construct_prompt a (as_input input)
             (context_after (context_or_empty ctx) before) /\
  kw = generate_kwargs (config a).
Proof.
  rewrite execute_events. intros Heq.
  destruct (while_loop_prompts (Z.to_nat (max_iterations (config a)))
              (locals_start input ctx) (loop_start (mkHeap a w))) as [Hp _].
  destruct (Hp _ _ _ _ _ Heq) as [-> ->]. split; [|done].
  by apply _construct_prompt_tools.
Qed.

(** X5.  Every trace [execute] appends records the input of the call, is
    labelled either [llm_generation] with state [thinking] or
    [tool_execution:<name>] with state [executing], and carries the number
    of the pass it was written in, between 1 and [max_iterations]. *)
Theorem execute_traces_describe_calls (a : Agent World) (w : World) input ctx :
  let r := execute input ctx (mkHeap a w) in
  exists ts,
    _traces (agent_after r) = _traces a ++ ts /\
    Forall (fun t =>
              BaseTrace.input t = as_input input /\ labelled t /\
              exists k, iteration_of t = Some k /\
                        1 <= k <= max_iterations (config a)) ts.
Proof.
  intros r. subst r. rewrite execute_traces.
  destruct (while_loop_traces (Z.to_nat (max_iterations (config a)))
              (locals_start input ctx) (loop_start (mkHeap a w)))
    as (ts & Hts & Hall & _).
  exists ts. split; [exact Hts|].
  eapply Forall_impl; [exact Hall|]. intros t (Hi & Hl & k & Hk & Hr).
  split; [done|]. split; [done|]. exists k. split; [done|]. cbn in Hr. lia.
Qed.

(** X6.  Every write [execute] makes to the memory stores a trace of the
    log under the key [trace:<session id>:<k>], where [k] is the number of
    the pass the trace was written in: the key depends on the session and on
    the pass only, so an agent writes at most [max_iterations] different
    keys, however many times [execute] is called on it. *)
Theorem execute_mirror_keys
    (a : Agent World) (w : World) input ctx key t res :
  In (EvMemoryStore key t res) (events (execute input ctx (mkHeap a w))) ->
  In t (_traces (agent_after (execute input ctx (mkHeap a w)))) /\
  exists k, iteration_of t = Some k /\
            1 <= k <= max_iterations (config a) /\
            key = mirror_key (_session_id a) k.
Proof.
  rewrite execute_events, execute_traces. intros Hin.
  destruct (while_loop_traces (Z.to_nat (max_iterations (config a)))
              (locals_start input ctx) (loop_start (mkHeap a w)))
    as (ts & Hts & Hall & Hkeys).
  destruct (Hkeys _ _ _ Hin) as (Hin' & k & Hk & ->). split.
  - change (_traces (agent_after (loop_of input ctx (mkHeap a w))))
      with (_traces (agent_after
              (while_loop (Z.to_nat (max_iterations (config a)))
                 (locals_start input ctx) (loop_start (mkHeap a w))))).
    rewrite Hts. apply in_or_app. by right.
  - exists k. split; [done|]. split; [|done].
    rewrite List.Forall_forall in Hall.
    destruct (Hall _ Hin') as (_ & _ & k' & Hk' & Hr).
    rewrite Hk in Hk'. simplify_eq. cbn in Hr. lia.
Qed.

(** X7.  With tracing on and a memory attached, a tool call that returned
    is made right after the trace of the model call of its pass was written
    to memory, and is followed at once by the write of its own trace under
    that same key: in a key-value memory the second write replaces the
    first. *)
Theorem execute_tool_trace_shares_key
    (a : Agent World) (w : World) input ctx before tool_name arg out after :
  trace_enabled (config a) = true ->
  is_Some (memory a) ->
  events (execute input ctx (mkHeap a w)) =
    before ++ EvToolExecute tool_name arg (Ok out) :: after ->
  exists before' key t1 t2 res after',
    before = before' ++ [EvMemoryStore key t1 (Ok tt)] /\
    after = EvMemoryStore key t2 res :: after' /\
    BaseTrace.action t1 = "llm_generation" /\
    BaseTrace.action t2 = "tool_execution:" +:+ tool_name.
Proof.
  intros Hen Hmem Heq.
  pose proof (holds_execute _ input ctx overwrites_compositional overwrites_body
                (mkHeap a w)) as [_ Hov].
  exact (Hov Hen Hmem _ _ _ _ _ Heq).
Qed.

(** X8.  With a memory attached, [execute] writes to it exactly once per
    trace it appends, the trace whose write fails included; without a
    memory it writes nothing. *)
Theorem execute_mirrors_each_trace_once (a : Agent World) (w : World) input ctx :
  let r := execute input ctx (mkHeap a w) in
  exists ts,
    _traces (agent_after r) = _traces a ++ ts /\
    store_calls (events r) =
      match memory a with Some _ => length ts | None => 0%nat end.
Proof.
  intros r. subst r.
  by pose proof (holds_execute _ input ctx mirrored_compositional mirrored_body
                   (mkHeap a w)) as [_ Hm].
Qed.

(** X9.  A model response of kind JSON whose content is not a dictionary
    (a string, a list, a number, [None]) never stands for a final answer or
    a tool call: unless both membership tests answer no, in which case the
    response is passed over, [execute] raises a [TypeError], leaves the
    state [ERROR] and makes no further model or tool call.  The mirror of
    traces to memory is assumed not to fail. *)
Theorem execute_malformed_action_raises
    (a : Agent World) (w : World) input ctx before prompt kw act after :
  mirror_ok a ->
  events (execute input ctx (mkHeap a w)) =
    before ++ EvGenerate prompt kw (Ok act) :: after ->
  malformed act ->
  let r := execute input ctx (mkHeap a w) in
  (exists x, outcome r = Some (Raise x) /\ exc_class x = TypeError) /\
  state (agent_after r) = ERROR /\
  model_calls after = 0%nat /\ tool_calls after = 0%nat.
Proof.
  intros Hok Heq Hmal r. subst r.
  pose proof (holds_execute _ input ctx chokes_compositional chokes_body
                (mkHeap a w)) as [_ Hch].
  destruct (Hch Hok _ _ _ _ _ Heq Hmal) as ((x & Hend & Hcls) & Hm & Ht).
  apply ending_raise in Hend. split; [by exists x|].
  split; [|by split].
  eapply execute_raise_state; [done|]. unfold is_Exception. by rewrite Hcls.
Qed.

(** X10.  At whatever pass the model returns a JSON dictionary with a
    [final_answer] entry [v], [execute] stops there: it makes no further
    model or tool call, even when the dictionary also names a tool, and
    returns the JSON envelope of [v] with the metadata of that response, in
    state [COMPLETED].  The mirror of traces to memory is assumed not to
    fail. *)
Theorem execute_final_answer_at_any_pass
    (a : Agent World) (w : World) input ctx before prompt kw act after v :
  mirror_ok a ->
  events (execute input ctx (mkHeap a w)) =
    before ++ EvGenerate prompt kw (Ok act) :: after ->
  gives_final_answer act v ->
  let r := execute input ctx (mkHeap a w) in
  outcome r =
    Some (Ok (BaseOutput.mk OutputType.JSON v (BaseOutput.metadata act))) /\
  state (agent_after r) = COMPLETED /\
  model_calls after = 0%nat /\ tool_calls after = 0%nat.
Proof.
  intros Hok Heq Hg r. subst r. rewrite execute_events in Heq.
  destruct (while_loop_concludes (Z.to_nat (max_iterations (config a)))
              (locals_start input ctx) (loop_start (mkHeap a w)) Hok
              _ _ _ _ _ _ Heq Hg) as (Hm & Ht & l' & Ho & Hf).
  rewrite execute_unfold. cbv zeta.
  unfold locals_start, loop_start, outcome, agent_after, heap_after in *.
  cbn [self world] in *.
  destruct (while_loop _ _ _) as [[r1 h1] e1]. cbn [fst snd] in *. subst r1.
  rewrite Hf. by repeat split.
Qed.

(** X11.  Whenever [execute] returns, the model was called at least once,
    and what is returned comes from the last response of the model: either
    that response is a JSON dictionary with a [final_answer] entry, and the
    result is the JSON envelope of that entry; or it is not, all
    [max_iterations] passes were used, and the result is that last response
    itself, as the model gave it -- a request for a tool included. *)
Theorem execute_returns_from_last_response
    (a : Agent World) (w : World) input ctx out :
  outcome (execute input ctx (mkHeap a w)) = Some (Ok out) ->
  let r := execute input ctx (mkHeap a w) in
  exists act,
    last_action None (events r) = Some act /\
    ((exists v, gives_final_answer act v /\
        out = BaseOutput.mk OutputType.JSON v (BaseOutput.metadata act)) \/
     (out = act /\
      (forall v, ~ gives_final_answer act v) /\
      Z.of_nat (model_calls (events r)) = max_iterations (config a))).
Proof.
  intros Hout r. subst r.
  pose proof (while_loop_verdict (Z.to_nat (max_iterations (config a)))
                (locals_start input ctx) (loop_start (mkHeap a w)) eq_refl) as Hv.
  pose proof (while_loop_iteration (Z.to_nat (max_iterations (config a)))
                (locals_start input ctx) (loop_start (mkHeap a w))) as [Hit Hle].
  rewrite execute_events. revert Hout. rewrite execute_unfold. cbv zeta in *.
  unfold loop_of, locals_start, loop_start, outcome, events, agent_after,
    heap_after in *.
  cbn [self world config set_iteration set_state _iteration action] in *.
  destruct (while_loop _ _ _) as [[[[[l'|v]|e]|] h1] e1]; cbn [fst snd] in *;
    try done.
  all: try (by destruct (is_Exception e)).
  destruct (final_answer l') as [fa|].
  - intros Ho. cbn in Ho. simplify_eq. destruct Hv as (act & v & Hl & Hg & ->).
    exists act. split; [done|]. left. exists v. by split.
  - destruct Hv as (Ha & Hng & Hmax).
    destruct (action l') as [act|] eqn:Hact; [|done].
    intros Ho. cbn in Ho. simplify_eq. exists out. split; [done|]. right. split; [done|].
    assert (e1 <> []) as Hne by (intros ->; done).
    split; [by apply (Hng Hne out)|].
    assert (model_calls e1 <> 0%nat) as Hpos.
    { intros Hz. by rewrite (last_action_no_call _ _ Hz) in Ha. }
    lia.
Qed.

End MoreOfExecute.

Section Registry.
Context {World : Type} `{!PyRuntime World}.

Lemma Dict_set_fresh {V : Type} (k : string) (v : V) (d : Dict.t V) :
  Dict.contains k d = false -> Dict.set k v d = d ++ [(k, v)].
Proof.
  unfold Dict.contains. induction d as [|[k' v'] d IH]; cbn; [done|].
  destruct (String.eqb k k'); [done|]. intros Hd. by rewrite IH.
Qed.

Lemma Dict_del_fresh {V : Type} (k : string) (v : V) (d : Dict.t V) :
  Dict.contains k d = false -> Dict.del k (d ++ [(k, v)]) = d.
Proof.
  unfold Dict.contains, Dict.del. induction d as [|[k' v'] d IH]; cbn.
  - by rewrite String.eqb_refl.
  - destruct (String.eqb k k'); [done|]. cbn. intros Hd. by rewrite IH.
Qed.

(** X12.  [add_tool] puts a tool whose name is free at the end of the
    registry, which is the order the prompt lists the tools in; removing
    that name afterwards gives back the agent as it was before the two
    calls, and both calls return normally. *)
Theorem add_then_remove_restores_registry
    (tool : BaseTool.t World) (h : Heap World) :
  Dict.contains (BaseTool.name tool) (tools (self h)) = false ->
  let r1 := add_tool tool h in
  let r2 := remove_tool (BaseTool.name tool) (heap_after r1) in
  outcome r1 = Some (Ok tt) /\
  Dict.items (tools (agent_after r1)) =
    Dict.items (tools (self h)) ++ [(BaseTool.name tool, tool)] /\
  outcome r2 = Some (Ok tt) /\
  heap_after r2 = h.
Proof.
  intros Hfree. destruct h as [a w].
  destruct a as [model cfg registry mem st sid it trs]. cbn in Hfree.
  unfold add_tool, remove_tool, bind, get_self, modify_self, ret,
    outcome, heap_after, agent_after. cbn.
  rewrite Hfree. cbn. rewrite (Dict_set_fresh _ _ _ Hfree).
  unfold Dict.contains. rewrite <- (Dict_set_fresh _ tool _ Hfree).
  rewrite Dict_get_set_eq. cbn. rewrite (Dict_set_fresh _ _ _ Hfree).
  change (List.filter _ (registry ++ [(BaseTool.name tool, tool)]))
    with (Dict.del (BaseTool.name tool) (registry ++ [(BaseTool.name tool, tool)])).
  rewrite (Dict_del_fresh _ _ _ Hfree). done.
Qed.

End Registry.

Section Summons.
Context {World : Type} `{!PyRuntime World}.

#[local] Arguments _construct_prompt : simpl never.
#[local] Arguments trace_key : simpl never.

Lemma summons_compositional : Compositional (@summons World).
Proof.
  split; unfold summons.
  - intros h. split; [apply same_setup_refl|]. intros _ [|??] ???????; done.
  - intros h. split; [apply same_setup_refl|]. intros _ [|??] ???????; done.
  - intros h e. split; [apply same_setup_refl|]. intros _ [|??] ???????; done.
  - intros h1 h2 h3 e1 e2 s [S1 R1] [S2 R2].
    split; [by eapply same_setup_trans|].
    intros Hok before p kw act after tool_name tool Heq Hreq Hget.
    apply app_eq_mid in Heq as [(mid & -> & ->)|(pre & -> & ->)].
    + destruct (R1 Hok _ _ _ _ _ _ _ eq_refl Hreq Hget)
        as (m & arg & w & res & after' & -> & Hm & Hd & Hres).
      exists m, arg, w, res, (after' ++ e2). rewrite <- app_assoc. by repeat split.
    + eapply R2; [by eapply mirror_ok_same_setup | done | done |].
      destruct S1 as (_&_&->&_). done.
  - intros h1 h2 s e st [S1 R1]. split; [|done].
    destruct S1 as (?&?&?&?&?). by repeat split.
  - intros h1 h2 s e i [S1 R1]. split; [|done].
    destruct S1 as (?&?&?&?&?). by repeat split.
Qed.

Lemma summons_body l : holds (@summons World) (loop_body l).
Proof.
  intros h. destruct (loop_body l h) as [[r h'] evs] eqn:E. run_body E.
  all: split; [by repeat split|].
  all: intros Hok before p kw act after tool_name tool Heq Hreq Hget.
  all: cbn in Heq; apply first_call_split in Heq as [Hev ->]; [|done].
  all: simplify_eq.
  all: pose proof Hreq as (Hty & dd & Hc & Hfin & Htool).
  all: mirror_contradiction Hok.
  all: try rewrite Hc in *; try rewrite Hty in *; cbn in *.
  all: unfold Dict.contains in *; rewrite ?Hfin, ?Htool in *; simplify_eq.
  all: cbn in *; unfold Dict.contains in *; rewrite ?Hget in *; simplify_eq.
  all: repeat match goal with u : unit |- _ => destruct u end.
  all: first
    [ eexists [], _, _, _, _; split; [reflexivity|]; split; [constructor|]
    | eexists [_], _, _, _, _; split; [reflexivity|];
      split; [by repeat constructor|] ].
  all: split; [unfold dispatch_of; rewrite Hc, Htool; reflexivity|].
  all: match goal with
       | Hx : BaseTool.execute _ _ ?w = _ |- _ = fst (BaseTool.execute _ _ ?w') =>
           unify w w'; by rewrite Hx
       end.
Qed.

(** X22.  When the model asks for a tool that is registered, [execute]
    calls it: after the mirror of the trace of the request and nothing
    else, the tool the registry holds under that name is executed on the
    input of the request, wrapped as text.  Nothing in the configuration is
    consulted on the way: the tool is called whatever [allowed_tools] and
    [mode] say.  The mirror of traces to memory is assumed not to fail. *)
Theorem execute_calls_the_registered_tool
    (a : Agent World) (w : World) input ctx
    before prompt kw act after tool_name tool :
  mirror_ok a ->
  events (execute input ctx (mkHeap a w)) =
    before ++ EvGenerate prompt kw (Ok act) :: after ->
  requests_tool act tool_name ->
  Dict.get tool_name (tools a) = Some tool ->
  exists mid arg w' res after',
    after = mid ++ EvToolExecute tool_name arg res :: after' /\
    Forall (fun ev => is_store_call ev = true) mid /\
    dispatch_of act = Some (tool_name, arg) /\
    res = fst (BaseTool.execute tool arg w').
Proof.
  intros Hok Heq Hreq Hget.
  pose proof (holds_execute _ input ctx summons_compositional summons_body
                (mkHeap a w)) as [_ Hs].
  exact (Hs Hok _ _ _ _ _ _ _ Heq Hreq Hget).
Qed.

(** X23.  With tracing off, [execute] records nothing and writes nothing
    to the memory, even when one is attached. *)
Theorem execute_without_tracing_is_silent
    (a : Agent World) (w : World) input ctx :
  trace_enabled (config a) = false ->
  let r := execute input ctx (mkHeap a w) in
  _traces (agent_after r) = _traces a /\ store_calls (events r) = 0%nat.
Proof.
  intros Hoff r. subst r.
  pose proof (holds_execute _ input ctx traced_compositional traced_body
                (mkHeap a w)) as [_ Htr].
  pose proof (holds_execute _ input ctx mirrored_compositional mirrored_body
                (mkHeap a w)) as [_ (ts & Hts & Hn)].
  cbn [self config] in Htr. rewrite Hoff in Htr.
  unfold agent_after. split; [exact Htr|].
  rewrite Hn. cbn [self]. rewrite Htr in Hts.
  assert (ts = []) as ->.
  { apply (f_equal (@length _)) in Hts. rewrite length_app in Hts.
    destruct ts; [done | cbn in Hts; lia]. }
  by destruct (memory a).
Qed.

End Summons.

Section MockSearch.
Context {World : Type} `{!PyRuntime World} `{!SearchEnv World}.

Lemma MockSearchTool_execute_ok (input_data : BaseInput.t) (w : World) :
  exists r1 r2 ts w',
    MockSearchTool.execute input_data w =
      (Ok (SearchTool.search_output (BaseInput.content input_data) [r1; r2]
             ts "mock"),
       w').
Proof.
  unfold MockSearchTool.execute.
  destruct (now_isoformat w) as [p1 w1]. destruct (now_isoformat w1) as [p2 w2].
  destruct (now_isoformat w2) as [ts w3]. by eexists _, _, _, _.
Qed.

(** X24.  An agent that holds [MockSearchTool] under [search] answers
    every request of the model for [search] by calling it, and the mock
    returns a JSON envelope that echoes the input and lists exactly two
    results, with [total_results] 2 -- for any input, a number or a blank
    string included, which its own [validate_input] would refuse.  The
    mirror of traces to memory is assumed not to fail. *)
Theorem agent_runs_the_mock_search
    (a : Agent World) (w : World) input ctx before prompt kw act after :
  mirror_ok a ->
  events (execute input ctx (mkHeap a w)) =
    before ++ EvGenerate prompt kw (Ok act) :: after ->
  requests_tool act "search" ->
  Dict.get "search" (tools a) = Some MockSearchTool.as_tool ->
  exists mid arg out after',
    after = mid ++ EvToolExecute "search" arg (Ok out) :: after' /\
    dispatch_of act = Some ("search", arg) /\
    BaseOutput.type out = OutputType.JSON /\
    exists r1 r2 meta,
      BaseOutput.content out =
        VDict [("query", BaseInput.content arg);
               ("results", VList [r1; r2]);
               ("metadata", VDict (("total_results", VInt 2) :: meta))].
Proof.
  intros Hok Heq Hreq Hget.
  pose proof (holds_execute _ input ctx summons_compositional summons_body
                (mkHeap a w)) as [_ Hs].
  destruct (Hs Hok _ _ _ _ _ _ _ Heq Hreq Hget)
    as (mid & arg & w' & res & after' & -> & _ & Hd & ->).
  destruct (MockSearchTool_execute_ok arg w') as (r1 & r2 & ts & w'' & Hex).
  exists mid, arg, (SearchTool.search_output (BaseInput.content arg) [r1; r2] ts "mock"),
    after'.
  split; [cbn [MockSearchTool.as_tool BaseTool.execute]; by rewrite Hex|].
  split; [done|]. split; [done|]. by eexists _, _, _.
Qed.

End MockSearch.

(* ================================================================= *)
(** ** The search tools *)

Section Strip.

Lemma py_lstrip_empty s :
  py_lstrip s = EmptyString <->
  forallb py_isspace (list_ascii_of_string s) = true.
Proof.
  induction s as [|c s IH]; cbn; [done|].
  destruct (py_isspace c); cbn; [exact IH | done].
Qed.

Lemma py_lstrip_head s c t :
  py_lstrip s = String c t -> py_isspace c = false.
Proof.
  induction s as [|c' s IH]; cbn; [done|].
  destruct (py_isspace c') eqn:Hc; [exact IH|]. intros Heq. by simplify_eq.
Qed.

Lemma py_rstrip_head c t :
  py_isspace c = false -> py_rstrip (String c t) <> EmptyString.
Proof. intros Hc. cbn. rewrite Hc. by destruct (py_rstrip t). Qed.

Lemma py_strip_empty s :
  py_strip s = EmptyString <->
  forallb py_isspace (list_ascii_of_string s) = true.
Proof.
  unfold py_strip. rewrite <- py_lstrip_empty.
  destruct (py_lstrip s) as [|c t] eqn:Hl; [done|].
  apply py_lstrip_head in Hl. split; [|done].
  intros Hr. by apply py_rstrip_head in Hr.
Qed.

Lemma py_len_pos s : (0 <? py_len s)%Z = true <-> s <> EmptyString.
Proof.
  unfold py_len. destruct s; cbn; [done|]. split; [done|]. intros _.
  apply Z.ltb_lt. lia.
Qed.

Lemma InputType_eqb_eq a b : InputType_eqb a b = true <-> a = b.
Proof. by destruct a, b. Qed.

(** X13.  [validate_input] of [SearchTool] and of [MockSearchTool] accept
    the same inputs: those of kind text whose content is a string with at
    least one character that is not white space.  An empty or blank string
    is refused, and so is any content that is not a string. *)
Theorem search_validate_input_accepts
    (self : SearchTool.t) (input_data : BaseInput.t) :
  MockSearchTool.validate_input input_data =
    SearchTool.validate_input self input_data /\
  (SearchTool.validate_input self input_data = true <->
   BaseInput.type input_data = InputType.TEXT /\
   exists s, BaseInput.content input_data = VStr s /\
             forallb py_isspace (list_ascii_of_string s) = false).
Proof.
  split; [done|].
  unfold SearchTool.validate_input, SearchTool.input_types.
  cbn [existsb]. rewrite orb_false_r, andb_true_iff, InputType_eqb_eq.
  split.
  - intros [Hty Hc]. split; [done|].
    destruct (BaseInput.content input_data) as [| | | |s| |]; try done.
    exists s. split; [done|]. apply py_len_pos in Hc.
    destruct (forallb _ _) eqn:Hall; [|done].
    by apply py_strip_empty in Hall.
  - intros [Hty (s & -> & Hall)]. split; [done|]. apply py_len_pos.
    intros Hs. apply py_strip_empty in Hs. congruence.
Qed.

End Strip.

Section SearchExecute.
Context {World : Type} `{!SearchEnv World}.

Lemma collect_dicts (ds : list (Dict.t PyVal)) :
  SearchTool.collect (map VDict ds) = Ok (map item_view ds).
Proof.
  induction ds as [|d ds IH]; [done|].
  cbn [map SearchTool.collect]. rewrite IH. done.
Qed.

Lemma collect_first_bad (ds : list (Dict.t PyVal)) bad rest :
  (forall d, bad <> VDict d) ->
  SearchTool.collect (map VDict ds ++ bad :: rest) =
    Raise (Exc AttributeError
             ("'" +:+ py_type_name bad +:+ "' object has no attribute 'get'")).
Proof.
  intros Hbad. induction ds as [|d ds IH].
  - cbn. destruct bad; try done. by destruct (Hbad entries).
  - cbn [map app SearchTool.collect]. rewrite IH. done.
Qed.

Lemma py_slice_to_length {A : Type} (l : list A) (n : Z) :
  Z.of_nat (length (py_slice_to l n)) =
    if (0 <=? n)%Z then Z.min n (Z.of_nat (length l))
    else Z.max 0 (Z.of_nat (length l) + n).
Proof.
  unfold py_slice_to. destruct (Z.leb_spec 0 n); rewrite length_firstn; lia.
Qed.

Lemma execute_collects
    (self : SearchTool.t) (input_data : BaseInput.t) (w w1 w2 : World)
    response data web_pages items ds ts :
  session_get (SearchTool.endpoint self) (SearchTool.headers self)
              [("q", BaseInput.content input_data)] w = (Ok response, w1) ->
  Http.status response = 200 ->
  Http.json response = Ok data ->
  py_get data "webPages" (VDict []) = Ok web_pages ->
  py_get web_pages "value" (VList []) = Ok (VList items) ->
  py_slice_to items (SearchTool.max_results self) = map VDict ds ->
  now_isoformat w1 = (ts, w2) ->
  SearchTool.execute self input_data w =
    (Ok (SearchTool.search_output (BaseInput.content input_data)
           (map item_view ds) ts "bing"),
     w2).
Proof.
  intros Hget Hst Hjson Hwp Hval Hslice Hnow.
  unfold SearchTool.execute, SearchTool.execute_body.
  rewrite Hget, Hst, Hjson. cbn [negb Z.eqb Pos.eqb and_then].
  unfold SearchTool.results_of. rewrite Hwp. cbn [and_then].
  rewrite Hval. cbn [and_then SearchTool.sliced_items].
  rewrite Hslice, collect_dicts, Hnow. done.
Qed.

(** X14.  When the search API answers 200 with a body in which
    [webPages.value] is a list whose first [max_results] items are
    dictionaries, [execute] returns a JSON envelope that echoes the query
    and lists one result per item of [value[:max_results]], in order, with
    the four fields renamed and the empty string for a missing one;
    [total_results] counts the results returned, so it is at most
    [max_results] when that is not negative -- a negative [max_results]
    drops that many items from the end instead.  The items past the cut are
    not looked at. *)
Theorem SearchTool_execute_results
    (self : SearchTool.t) (input_data : BaseInput.t) (w w1 w2 : World)
    response data web_pages items ds ts :
  session_get (SearchTool.endpoint self) (SearchTool.headers self)
              [("q", BaseInput.content input_data)] w = (Ok response, w1) ->
  Http.status response = 200 ->
  Http.json response = Ok data ->
  py_get data "webPages" (VDict []) = Ok web_pages ->
  py_get web_pages "value" (VList []) = Ok (VList items) ->
  py_slice_to items (SearchTool.max_results self) = map VDict ds ->
  now_isoformat w1 = (ts, w2) ->
  SearchTool.execute self input_data w =
    (Ok (SearchTool.search_output (BaseInput.content input_data)
           (map item_view ds) ts "bing"),
     w2) /\
  Z.of_nat (length (map item_view ds)) =
    (if (0 <=? SearchTool.max_results self)%Z
     then Z.min (SearchTool.max_results self) (Z.of_nat (length items))
     else Z.max 0 (Z.of_nat (length items) + SearchTool.max_results self)).
Proof.
  intros Hget Hst Hjson Hwp Hval Hslice Hnow. split.
  - by eapply execute_collects.
  - rewrite length_map, <- (length_map VDict), <- Hslice.
    apply py_slice_to_length.
Qed.

(** X15.  An answer of the search API with a status other than 200 makes
    [execute] raise a [RuntimeError] whose message carries both prefixes,
    [Search execution error: Search API error: <status> - <body>]: the
    error raised for the status is caught by the handler of [execute]
    itself and wrapped again.  The body is not decoded and the clock is not
    read. *)
Theorem SearchTool_execute_bad_status
    (self : SearchTool.t) (input_data : BaseInput.t) (w w1 : World)
    response body :
  session_get (SearchTool.endpoint self) (SearchTool.headers self)
              [("q", BaseInput.content input_data)] w = (Ok response, w1) ->
  Http.status response <> 200 ->
  Http.text response = Ok body ->
  SearchTool.execute self input_data w =
    (Raise (Exc RuntimeError
              ("Search execution error: Search API error: " +:+
               py_str_int (Http.status response) +:+ " - " +:+ body)),
     w1).
Proof.
  intros Hget Hst Htext.
  unfold SearchTool.execute, SearchTool.execute_body. rewrite Hget.
  destruct (Z.eqb_spec (Http.status response) 200) as [|_]; [done|].
  cbn [negb]. rewrite Htext. done.
Qed.

(** X16.  If one of the first [max_results] items of [webPages.value] is
    not a dictionary, [execute] returns no result at all: the results
    gathered from the items before it are dropped, and a [RuntimeError]
    that wraps the [AttributeError] of the failed [get] is raised. *)
Theorem SearchTool_execute_bad_item
    (self : SearchTool.t) (input_data : BaseInput.t) (w w1 : World)
    response data web_pages items ds bad rest :
  session_get (SearchTool.endpoint self) (SearchTool.headers self)
              [("q", BaseInput.content input_data)] w = (Ok response, w1) ->
  Http.status response = 200 ->
  Http.json response = Ok data ->
  py_get data "webPages" (VDict []) = Ok web_pages ->
  py_get web_pages "value" (VList []) = Ok (VList items) ->
  py_slice_to items (SearchTool.max_results self) = map VDict ds ++ bad :: rest ->
  (forall d, bad <> VDict d) ->
  SearchTool.execute self input_data w =
    (Raise (Exc RuntimeError
              ("Search execution error: '" +:+ py_type_name bad +:+
               "' object has no attribute 'get'")),
     w1).
Proof.
  intros Hget Hst Hjson Hwp Hval Hslice Hbad.
  unfold SearchTool.execute, SearchTool.execute_body.
  rewrite Hget, Hst, Hjson. cbn [negb Z.eqb Pos.eqb and_then].
  unfold SearchTool.results_of. rewrite Hwp. cbn [and_then].
  rewrite Hval. cbn [and_then SearchTool.sliced_items].
  rewrite Hslice, (collect_first_bad _ _ _ Hbad). done.
Qed.

(** X17.  A body without [webPages], or whose [webPages] has no [value],
    is not an error: [execute] returns an envelope with no result and
    [total_results] 0. *)
Theorem SearchTool_execute_no_web_pages
    (self : SearchTool.t) (input_data : BaseInput.t) (w w1 w2 : World)
    response d ts :
  session_get (SearchTool.endpoint self) (SearchTool.headers self)
              [("q", BaseInput.content input_data)] w = (Ok response, w1) ->
  Http.status response = 200 ->
  Http.json response = Ok (VDict d) ->
  (Dict.get "webPages" d = None \/
   exists wp, Dict.get "webPages" d = Some (VDict wp) /\
              Dict.get "value" wp = None) ->
  now_isoformat w1 = (ts, w2) ->
  SearchTool.execute self input_data w =
    (Ok (SearchTool.search_output (BaseInput.content input_data) [] ts "bing"),
     w2).
Proof.
  intros Hget Hst Hjson Hmiss Hnow.
  assert (exists wp, py_get (VDict d) "webPages" (VDict []) = Ok wp /\
                     py_get wp "value" (VList []) = Ok (VList [])) as (wp & Hwp & Hval).
  { destruct Hmiss as [Hnone|(wp & Hsome & Hnone)].
    - exists (VDict []). cbn. by rewrite Hnone.
    - exists (VDict wp). cbn. by rewrite Hsome, Hnone. }
  apply (execute_collects self input_data w w1 w2 response
           (VDict d) wp [] [] ts); try done.
  unfold py_slice_to. destruct (_ <=? _)%Z; by rewrite firstn_nil.
Qed.

End SearchExecute.

(* ================================================================= *)
(** ** The Redis memory *)

Section Redis.
Context {World T : Type}.
Import RedisMemoryMethods.

Lemma chained_app cursor ks r calls :
  chained cursor calls -> chained cursor (Delete ks r :: calls).
Proof. done. Qed.

Lemma clear_loop_protocol (client : Client World) (pattern : string) fuel :
  forall cursor w,
    let '(r, w', calls) := clear_loop fuel client pattern cursor w in
    chained cursor calls /\
    (forall c p n res, In (Scan c p n res) calls -> p = pattern /\ n = 100) /\
    (forall keys res, In (Delete keys res) calls ->
       keys <> [] /\
       exists c c', In (Scan c pattern 100 (Ok (c', keys))) calls) /\
    (r = Some (Ok tt) ->
       exists c keys, last_scan calls = Some (Scan c pattern 100 (Ok (0, keys)))).
Proof.
  induction fuel as [|fuel IH]; intros cursor w; cbn [clear_loop].
  { split; [done|]. split; [by intros c p n res []|].
    split; [by intros ks res []|done]. }
  destruct (client_scan client cursor pattern 100 w) as [[[cursor' keys]|e] w1].
  2:{ split; [done|]. split; [|split; [|done]].
      - intros c p m res [Hin|[]]. by simplify_eq.
      - by intros ks res [Hin|[]]. }
  destruct keys as [|k keys].
  - destruct (Z.eqb_spec cursor' 0) as [->|Hnz].
    + split; [done|]. split; [|split].
      * intros c p n res [Hin|[]]. by simplify_eq.
      * by intros ks res [Hin|[]].
      * intros _. by eexists _, _.
    + specialize (IH cursor' w1).
      destruct (clear_loop fuel client pattern cursor' w1) as [[r w3] calls'].
      destruct IH as (Hch & Hsc & Hdel & Hok). cbn [app].
      split; [by split|]. split; [|split].
      * intros c p n res [Hin|Hin]; [by simplify_eq | by eapply Hsc].
      * intros ks res [Hin|Hin]; [done|].
        destruct (Hdel _ _ Hin) as (Hne & c & c' & Hin').
        split; [done|]. exists c, c'. by right.
      * intros Hr. destruct (Hok Hr) as (c & ks & Hl).
        exists c, ks. cbn. by rewrite Hl.
  - destruct (client_delete client (k :: keys) w1) as [[n|e] w2].
    2:{ split; [done|]. split; [|split; [|done]].
        - intros c p m res [Hin|[Hin|[]]]; by simplify_eq.
        - intros ks res [Hin|[Hin|[]]]; simplify_eq.
          split; [done|]. exists cursor, cursor'. by left. }
    destruct (Z.eqb_spec cursor' 0) as [->|Hnz].
    + split; [done|]. split; [|split].
      * intros c p m res [Hin|[Hin|[]]]; by simplify_eq.
      * intros ks res [Hin|[Hin|[]]]; simplify_eq.
        split; [done|]. exists cursor, 0. by left.
      * intros _. by eexists _, _.
    + specialize (IH cursor' w2).
      destruct (clear_loop fuel client pattern cursor' w2) as [[r w3] calls'].
      destruct IH as (Hch & Hsc & Hdel & Hok). cbn [app].
      split; [by split|]. split; [|split].
      * intros c p m res [Hin|[Hin|Hin]]; [by simplify_eq | done | by eapply Hsc].
      * intros ks res [Hin|[Hin|Hin]]; [done | |].
        -- simplify_eq. split; [done|]. exists cursor, cursor'. by left.
        -- destruct (Hdel _ _ Hin) as (Hne & c & c' & Hin').
           split; [done|]. exists c, c'. right. by right.
      * intros Hr. destruct (Hok Hr) as (c & ks & Hl).
        exists c, ks. cbn. by rewrite Hl.
Qed.

(** X19.  [clear] walks the keyspace by the cursor: its first scan asks
    for cursor 0 and each later scan for the cursor the scan before it
    returned, always with the pattern [<prefix>*] and a count of 100; it
    deletes nothing but the batches of keys its scans returned, never an
    empty one; and it returns only after a scan that returned cursor 0.
    When [clear] raises an exception that derives from [Exception], it is
    a [RuntimeError]: such an exception of the connection is raised again
    as one, and the batches deleted before it stay deleted. *)
Theorem clear_walks_the_cursor
    (fuel : nat) (self : RedisMemory.t World T) (client : Client World)
    (w : World) :
  let pattern := RedisMemory.prefix self +:+ "*" in
  let '(r, w', calls) := clear fuel self client w in
  chained 0 calls /\
  (forall c p n res, In (Scan c p n res) calls -> p = pattern /\ n = 100) /\
  (forall keys res, In (Delete keys res) calls ->
     keys <> [] /\
     exists c c', In (Scan c pattern 100 (Ok (c', keys))) calls) /\
  (r = Some (Ok tt) ->
     exists c keys, last_scan calls = Some (Scan c pattern 100 (Ok (0, keys)))) /\
  (forall e, r = Some (Raise e) -> is_Exception e = true ->
     exc_class e = RuntimeError).
Proof.
  cbv zeta. unfold clear.
  pose proof (clear_loop_protocol client (RedisMemory.prefix self +:+ "*")
                fuel 0 w) as Hp.
  destruct (clear_loop fuel client _ 0 w) as [[r w'] calls].
  destruct Hp as (Hch & Hsc & Hdel & Hok).
  destruct r as [[[]|e]|]; [| destruct (is_Exception e) eqn:He |];
    (split; [done|]; split; [done|]; split; [done|]; split); try done.
  - intros e' He' _. by simplify_eq.
  - intros e' He' Hc. simplify_eq. congruence.
Qed.

(** X18.  What [store] writes, [retrieve] reads back: both address the
    connection under [<prefix><key>], and [retrieve] hands out the [data]
    entry of what was stored.  Stated for a connection that answers a
    [get] with the value last [set] under the key, and for a JSON codec
    that decodes what it encoded: the value handed out is the JSON image of
    the data, which for data that is not JSON (a trace) is the string
    [json.dumps(default=str)] made of it, not the data. *)
Theorem store_then_retrieve
    (self : RedisMemory.t World T) (client : Client World) (encode : T -> PyVal)
    key data metadata (w w1 : World) :
  (forall k v ex w0 w0',
     RedisMemory.client_set self k v ex w0 = (Ok tt, w0') ->
     client_get client k w0' = (Ok (Some v), w0')) ->
  (forall sd payload,
     RedisMemory.json_dumps self sd = Ok payload ->
     exists d, json_loads client payload = Ok (VDict d) /\
               Dict.get "data" d = Some (encode (RedisMemory.sd_data sd))) ->
  RedisMemory.store self key data metadata w = (Ok tt, w1) ->
  retrieve self client key w1 = (Ok (encode data), w1).
Proof.
  intros Hget Hcodec Hstore.
  unfold RedisMemory.store, RedisMemory.store_body in Hstore.
  destruct (RedisMemory.now_isoformat self w) as [ts w0].
  destruct (RedisMemory.json_dumps self _) as [payload|e] eqn:Hdump;
    [|by destruct (is_Exception e)].
  destruct (RedisMemory.client_set self _ payload _ w0) as [[[]|e] w2] eqn:Hset;
    [|by destruct (is_Exception e)].
  simplify_eq.
  unfold retrieve, retrieve_body.
  rewrite (Hget _ _ _ _ _ Hset).
  destruct (Hcodec _ _ Hdump) as (d & -> & Hd). cbn. by rewrite Hd.
Qed.

End Redis.

(* ================================================================= *)
(** ** The prompt templates *)

Section Templates.
Context {World : Type} `{!PyRuntime World}.

Lemma append_assoc' (s1 s2 s3 : string) :
  (s1 +:+ s2) +:+ s3 = s1 +:+ (s2 +:+ s3).
Proof.
  induction s1 as [|c s1 IH]; [done|].
  change (String c ((s1 +:+ s2) +:+ s3) = String c (s1 +:+ (s2 +:+ s3))).
  by f_equal.
Qed.

Lemma append_nil_r (s : string) : s +:+ EmptyString = s.
Proof.
  induction s as [|c s IH]; [done|].
  change (String c (s +:+ EmptyString) = String c s). by f_equal.
Qed.

Lemma map_ok_append out s r :
  map_ok (append (out +:+ s)) r = map_ok (append out) (map_ok (append s) r).
Proof. destruct r as [[?|?]|]; cbn; [|done..]. by rewrite append_assoc'. Qed.

Lemma format_scan_emit kwargs template : forall st out,
  format_scan template st out kwargs =
  map_ok (append out) (format_emit template st kwargs).
Proof.
  induction template as [|c rest IH]; intros st out.
  - destruct st; cbn; [|done..]. by rewrite append_nil_r.
  - cbn [format_scan format_emit].
    assert (forall name,
      (if is_char c "}" then
         match format_field name kwargs with
         | Some (Ok s) => format_scan rest InText (out +:+ s) kwargs
         | other => other
         end
       else if is_char c "{" then
         Some (Raise (Exc ValueError "unexpected '{' in field name"))
       else if is_char c "." || is_char c "[" || is_char c "!" || is_char c ":"
       then None
       else format_scan rest (InField (name +:+ String c EmptyString)) out kwargs) =
      map_ok (append out)
        (if is_char c "}" then
           match format_field name kwargs with
           | Some (Ok s) => map_ok (append s) (format_emit rest InText kwargs)
           | other => other
           end
         else if is_char c "{" then
           Some (Raise (Exc ValueError "unexpected '{' in field name"))
         else if is_char c "." || is_char c "[" || is_char c "!" || is_char c ":"
         then None
         else format_emit rest (InField (name +:+ String c EmptyString)) kwargs))
      as Hfield.
    { intros name. destruct (is_char c "}").
      - destruct (format_field name kwargs) as [[s|e]|]; [|done..].
        by rewrite IH, map_ok_append.
      - destruct (is_char c "{"); [done|].
        destruct (_ || _); [done|]. apply IH. }
    destruct st as [| | |name].
    + destruct (is_char c "{"); [apply IH|].
      destruct (is_char c "}"); [apply IH|].
      rewrite IH. apply (map_ok_append out (String c EmptyString)).
    + destruct (is_char c "{"); [|apply Hfield].
      rewrite IH. apply (map_ok_append out "{").
    + destruct (is_char c "}"); [|done].
      rewrite IH. apply (map_ok_append out "}").
    + apply Hfield.
Qed.

Lemma py_str_format_emit template kwargs :
  py_str_format template kwargs = format_emit template InText kwargs.
Proof.
  unfold py_str_format. rewrite format_scan_emit.
  by destruct (format_emit _ _ _) as [[?|?]|].
Qed.

(** X20.  [AGENT_PROMPT], formatted with the catalog of the agent's tools,
    the context and the query, is character for character the prompt that
    [Agent._construct_prompt] builds for them: the template and the text
    written out in the agent agree. *)
Theorem AGENT_PROMPT_is_the_agent_prompt
    (a : Agent World) (input_data : BaseInput.t) (ctx kwargs : Dict.t PyVal) :
  Dict.get "tools_description" kwargs = Some (VStr (tools_description a)) ->
  Dict.get "context" kwargs = Some (VDict ctx) ->
  Dict.get "query" kwargs = Some (BaseInput.content input_data) ->
  PromptTemplate.format AGENT_PROMPT kwargs =
    Some (Ok (_construct_prompt a input_data ctx)).
Proof.
  intros H1 H2 H3.
  unfold _construct_prompt. cbv zeta.
  change (String.concat nl _) with (tools_description a).
  remember (tools_description a) as catalog eqn:Hcat. clear Hcat.
  unfold PromptTemplate.format. rewrite py_str_format_emit.
  cbv -[Dict.get py_format py_repr].
  rewrite H1, H2, H3. reflexivity.
Qed.

(** X21.  For each of the three standard templates, [validate_variables]
    tells whether [format] will succeed: the variables a template declares
    are the fields its text uses.  When every declared variable is among
    the keyword arguments, [format] returns a string; when one is missing,
    [format] raises a [KeyError]. *)
Theorem standard_templates_validate_is_format :
  Forall (fun t => forall kwargs : Dict.t PyVal,
            if PromptTemplate.validate_variables t kwargs
            then exists s, PromptTemplate.format t kwargs = Some (Ok s)
            else exists e, PromptTemplate.format t kwargs = Some (Raise e) /\
                           exc_class e = OtherError "KeyError")
         [AGENT_PROMPT; CHAIN_OF_THOUGHT_PROMPT; TOOL_USE_PROMPT].
Proof.
  repeat first [apply List.Forall_nil | apply List.Forall_cons]; intros kwargs.
  all: unfold PromptTemplate.format, PromptTemplate.validate_variables;
       rewrite py_str_format_emit.
  - destruct (Dict.get "tools_description" kwargs) eqn:H1,
             (Dict.get "context" kwargs) eqn:H2,
             (Dict.get "query" kwargs) eqn:H3.
    all: cbv -[Dict.get py_format py_repr]; rewrite ?H1, ?H2, ?H3.
    all: eexists; first [reflexivity | split; reflexivity].
  - destruct (Dict.get "query" kwargs) eqn:H1,
             (Dict.get "context" kwargs) eqn:H2,
             (Dict.get "tools_description" kwargs) eqn:H3,
             (Dict.get "plan" kwargs) eqn:H4.
    all: cbv -[Dict.get py_format py_repr]; rewrite ?H1, ?H2, ?H3, ?H4.
    all: eexists; first [reflexivity | split; reflexivity].
  - destruct (Dict.get "tool_name" kwargs) eqn:H1,
             (Dict.get "tool_description" kwargs) eqn:H2,
             (Dict.get "tool_input" kwargs) eqn:H3,
             (Dict.get "previous_results" kwargs) eqn:H4.
    all: cbv -[Dict.get py_format py_repr]; rewrite ?H1, ?H2, ?H3, ?H4.
    all: eexists; first [reflexivity | split; reflexivity].
Qed.

End Templates.

(* ================================================================= *)
(** ** The further properties on concrete runs *)

(** X4 on a run: the third model call of [Script.run_three] is asked with
    the result of the second tool call, and of that one only, in the
    context. *)
Lemma execute_prompts_follow_context_witness :
  events Script.run_three =
    firstn 4 (events Script.run_three) ++
    EvGenerate Scenario.third_prompt
               (generate_kwargs (config Script.echo_agent))
               (Ok Script.final_reply) :: [] /\
  context_after (context_or_empty None) (firstn 4 (events Script.run_three)) =
    [("last_tool_result", VList [VStr "x"])] /\
  Scenario.third_prompt =
    _construct_prompt Script.echo_agent (as_input (inl "q"))
      (context_after (context_or_empty None)
                     (firstn 4 (events Script.run_three))) /\
  generate_kwargs (config Script.echo_agent) =
    generate_kwargs (config Script.echo_agent).
Proof.
  split; [vm_compute; reflexivity|]. split; [vm_compute; reflexivity|].
  apply (execute_prompts_follow_context Script.echo_agent
           (Script.mkWorld 1 [Ok (Script.tool_reply "echo" (VInt 3));
                              Ok (Script.tool_reply "echo" (VList [VStr "x"]));
                              Ok Script.final_reply])
           (inl "q") None (firstn 4 (events Script.run_three))
           Scenario.third_prompt (generate_kwargs (config Script.echo_agent))
           (Ok Script.final_reply) []).
  vm_compute. reflexivity.
Defined.

(** X6 on a run: the second event of [Scenario.run_mirrored] writes the
    trace of the first pass under [trace:uuid-0:1]. *)
Lemma execute_mirror_keys_witness :
  exists t,
    nth_error (events Scenario.run_mirrored) 1 =
      Some (EvMemoryStore "trace:uuid-0:1" t (Ok tt)) /\
    In t (_traces (agent_after Scenario.run_mirrored)) /\
    exists k, iteration_of t = Some k /\
              1 <= k <= max_iterations (config Scenario.mirrored_agent) /\
              "trace:uuid-0:1" = mirror_key (_session_id Scenario.mirrored_agent) k.
Proof.
  eexists. split; [vm_compute; reflexivity|].
  apply (execute_mirror_keys Scenario.mirrored_agent
           (Script.mkWorld 1 Scenario.mirrored_script) (inl "q") None
           "trace:uuid-0:1" _ (Ok tt)).
  vm_compute. right. left. reflexivity.
Defined.

(** X7 on that run: the call of [echo] sits between two writes under one
    key. *)
Lemma execute_tool_trace_shares_key_witness :
  trace_enabled (config Scenario.mirrored_agent) = true /\
  is_Some (memory Scenario.mirrored_agent) /\
  events Scenario.run_mirrored =
    firstn 2 (events Scenario.run_mirrored) ++
    EvToolExecute "echo" (BaseInput.mk InputType.TEXT (VStr "x") Dict.empty)
                  (Ok (BaseOutput.mk OutputType.TEXT (VStr "x") Dict.empty))
    :: skipn 3 (events Scenario.run_mirrored) /\
  exists before' key t1 t2 res after',
    firstn 2 (events Scenario.run_mirrored) =
      before' ++ [EvMemoryStore key t1 (Ok tt)] /\
    skipn 3 (events Scenario.run_mirrored) = EvMemoryStore key t2 res :: after' /\
    BaseTrace.action t1 = "llm_generation" /\
    BaseTrace.action t2 = "tool_execution:" +:+ "echo".
Proof.
  split; [reflexivity|]. split; [by eexists|].
  split; [vm_compute; reflexivity|].
  apply (execute_tool_trace_shares_key Scenario.mirrored_agent
           (Script.mkWorld 1 Scenario.mirrored_script) (inl "q") None
           (firstn 2 (events Scenario.run_mirrored)) "echo"
           (BaseInput.mk InputType.TEXT (VStr "x") Dict.empty)
           (BaseOutput.mk OutputType.TEXT (VStr "x") Dict.empty)
           (skipn 3 (events Scenario.run_mirrored))).
  - reflexivity.
  - by eexists.
  - vm_compute. reflexivity.
Defined.

(** X9 on a run: the content of the response is a sentence that mentions
    [final_answer]. *)
Lemma execute_malformed_action_raises_witness :
  malformed Scenario.stray_reply /\
  (exists x, outcome Scenario.run_stray = Some (Raise x) /\
             exc_class x = TypeError) /\
  state (agent_after Scenario.run_stray) = ERROR /\
  model_calls (events Scenario.run_stray) = 1%nat.
Proof.
  assert (malformed Scenario.stray_reply) as Hmal.
  { split; [reflexivity|]. split; [intros d Hd; discriminate Hd|].
    intros [Hf _]. vm_compute in Hf. discriminate Hf. }
  split; [exact Hmal|].
  destruct (execute_malformed_action_raises Script.echo_agent
              (Script.mkWorld 1 Scenario.stray_script) (inl "q") None []
              (_construct_prompt Script.echo_agent (as_input (inl "q")) Dict.empty)
              (generate_kwargs (config Script.echo_agent))
              Scenario.stray_reply [])
    as (Hx & Hst & _ & _).
  - apply mirror_ok_no_memory. reflexivity.
  - vm_compute. reflexivity.
  - exact Hmal.
  - split; [exact Hx|]. split; [exact Hst|]. reflexivity.
Defined.

(** X10 on a run: the second response names a tool and gives a final
    answer; the answer wins, and the third response is never asked for. *)
Lemma execute_final_answer_at_any_pass_witness :
  gives_final_answer Scenario.both_reply (VStr "done") /\
  outcome Scenario.run_both =
    Some (Ok (BaseOutput.mk OutputType.JSON (VStr "done")
                (BaseOutput.metadata Scenario.both_reply))) /\
  state (agent_after Scenario.run_both) = COMPLETED /\
  model_calls (events Scenario.run_both) = 2%nat /\
  tool_calls (events Scenario.run_both) = 1%nat.
Proof.
  assert (gives_final_answer Scenario.both_reply (VStr "done")) as Hg.
  { split; [reflexivity|]. eexists. split; reflexivity. }
  split; [exact Hg|].
  destruct (execute_final_answer_at_any_pass Script.echo_agent
              (Script.mkWorld 1 Scenario.both_script) (inl "q") None
              (firstn 2 (events Scenario.run_both))
              (_construct_prompt Script.echo_agent (as_input (inl "q"))
                 [("last_tool_result", VInt 3)])
              (generate_kwargs (config Script.echo_agent))
              Scenario.both_reply [] (VStr "done"))
    as (Hout & Hst & _ & _).
  - apply mirror_ok_no_memory. reflexivity.
  - vm_compute. reflexivity.
  - exact Hg.
  - split; [exact Hout|]. split; [exact Hst|]. split; reflexivity.
Defined.

(** X11 on a run: two passes allowed, two requests for the tool; what
    [execute] returns is the second request itself. *)
Lemma execute_returns_from_last_response_witness :
  outcome Scenario.run_tool_last =
    Some (Ok (Script.tool_reply "echo" (VInt 2))) /\
  exists act,
    last_action None (events Scenario.run_tool_last) = Some act /\
    ((exists v, gives_final_answer act v /\
        Script.tool_reply "echo" (VInt 2) =
          BaseOutput.mk OutputType.JSON v (BaseOutput.metadata act)) \/
     (Script.tool_reply "echo" (VInt 2) = act /\
      (forall v, ~ gives_final_answer act v) /\
      Z.of_nat (model_calls (events Scenario.run_tool_last)) =
        max_iterations (config Scenario.two_pass_agent))).
Proof.
  split; [vm_compute; reflexivity|].
  apply (execute_returns_from_last_response Scenario.two_pass_agent
           (Script.mkWorld 1 Scenario.tool_last_script) (inl "q") None
           (Script.tool_reply "echo" (VInt 2))).
  vm_compute. reflexivity.
Defined.

(** X12 on a run: [echo] added to an agent without tools, then removed. *)
Lemma add_then_remove_restores_registry_witness :
  Dict.contains (BaseTool.name Script.echo) (tools Scenario.bare_agent) = false /\
  outcome (add_tool Script.echo (Script.start Scenario.bare_agent [])) =
    Some (Ok tt) /\
  Dict.items (tools (agent_after
                       (add_tool Script.echo (Script.start Scenario.bare_agent [])))) =
    Dict.items (tools Scenario.bare_agent) ++ [("echo", Script.echo)] /\
  outcome (remove_tool "echo"
             (heap_after (add_tool Script.echo (Script.start Scenario.bare_agent []))))
    = Some (Ok tt) /\
  heap_after (remove_tool "echo"
                (heap_after (add_tool Script.echo
                               (Script.start Scenario.bare_agent [])))) =
    Script.start Scenario.bare_agent [].
Proof.
  split; [reflexivity|].
  apply (add_then_remove_restores_registry Script.echo
           (Script.start Scenario.bare_agent [])).
  reflexivity.
Defined.

(** X14 on a call: two results asked for, three items in the response. *)
Lemma SearchTool_execute_results_witness :
  py_slice_to [VDict [("name", VStr "A"); ("url", VStr "http://a")];
               VDict [("name", VStr "B"); ("snippet", VStr "b")];
               VInt 7] 2 =
    map VDict [[("name", VStr "A"); ("url", VStr "http://a")];
               [("name", VStr "B"); ("snippet", VStr "b")]] /\
  SearchTool.execute (Scenario.bing 2) Scenario.query (Script.mkWorld 5 []) =
    (Ok (SearchTool.search_output (VStr "rocq")
           [VDict [("title", VStr "A"); ("snippet", VStr EmptyString);
                   ("url", VStr "http://a"); ("date_published", VStr EmptyString)];
            VDict [("title", VStr "B"); ("snippet", VStr "b");
                   ("url", VStr EmptyString); ("date_published", VStr EmptyString)]]
           "5" "bing"),
     Script.mkWorld 6 []).
Proof.
  split; [reflexivity|].
  apply (SearchTool_execute_results (Scenario.bing 2) Scenario.query
           (Script.mkWorld 5 []) (Script.mkWorld 5 []) (Script.mkWorld 6 [])
           (Scenario.respond "https://api.bing.microsoft.com/v7.0/search")
           Scenario.body (VDict [("value", Scenario.hits)])
           [VDict [("name", VStr "A"); ("url", VStr "http://a")];
            VDict [("name", VStr "B"); ("snippet", VStr "b")];
            VInt 7]
           [[("name", VStr "A"); ("url", VStr "http://a")];
            [("name", VStr "B"); ("snippet", VStr "b")]]
           "5"); reflexivity.
Defined.

(** X15 on a call: the API answers 503. *)
Lemma SearchTool_execute_bad_status_witness :
  Http.status (Scenario.respond "https://down.example") <> 200 /\
  SearchTool.execute Scenario.bing_down Scenario.query (Script.mkWorld 5 []) =
    (Raise (Exc RuntimeError
              "Search execution error: Search API error: 503 - busy"),
     Script.mkWorld 5 []).
Proof.
  split; [vm_compute; discriminate|].
  apply (SearchTool_execute_bad_status Scenario.bing_down Scenario.query
           (Script.mkWorld 5 []) (Script.mkWorld 5 [])
           (Scenario.respond "https://down.example") "busy").
  - reflexivity.
  - vm_compute. discriminate.
  - reflexivity.
Defined.

(** X16 on a call: three results asked for, the third item is a number. *)
Lemma SearchTool_execute_bad_item_witness :
  SearchTool.execute (Scenario.bing 3) Scenario.query (Script.mkWorld 5 []) =
    (Raise (Exc RuntimeError
              "Search execution error: 'int' object has no attribute 'get'"),
     Script.mkWorld 5 []).
Proof.
  apply (SearchTool_execute_bad_item (Scenario.bing 3) Scenario.query
           (Script.mkWorld 5 []) (Script.mkWorld 5 [])
           (Scenario.respond "https://api.bing.microsoft.com/v7.0/search")
           Scenario.body (VDict [("value", Scenario.hits)])
           [VDict [("name", VStr "A"); ("url", VStr "http://a")];
            VDict [("name", VStr "B"); ("snippet", VStr "b")];
            VInt 7]
           [[("name", VStr "A"); ("url", VStr "http://a")];
            [("name", VStr "B"); ("snippet", VStr "b")]]
           (VInt 7) []); try reflexivity.
  intros d Hd. discriminate Hd.
Defined.

(** X17 on a call: the body is an empty object. *)
Lemma SearchTool_execute_no_web_pages_witness :
  SearchTool.execute Scenario.bing_empty Scenario.query (Script.mkWorld 5 []) =
    (Ok (SearchTool.search_output (VStr "rocq") [] "5" "bing"),
     Script.mkWorld 6 []).
Proof.
  apply (SearchTool_execute_no_web_pages Scenario.bing_empty Scenario.query
           (Script.mkWorld 5 []) (Script.mkWorld 5 []) (Script.mkWorld 6 [])
           (Scenario.respond "https://empty.example") [] "5");
    try reflexivity.
  left. reflexivity.
Defined.

(** X18 on a store: a string stored under [k] is read back. *)
Lemma store_then_retrieve_witness :
  RedisMemory.store Scenario.kv_memory "k" "v" None [] =
    (Ok tt, [("reactlib:k", "v")]) /\
  RedisMemoryMethods.retrieve Scenario.kv_memory Scenario.kv_client "k"
    [("reactlib:k", "v")] = (Ok (VStr "v"), [("reactlib:k", "v")]).
Proof.
  split; [reflexivity|].
  apply (store_then_retrieve Scenario.kv_memory Scenario.kv_client VStr
           "k" "v" None [] [("reactlib:k", "v")]).
  - intros k v ex w0 w0' Hset. cbn in Hset. injection Hset as <-.
    cbn. by rewrite Dict_get_set_eq.
  - intros sd payload Hdump. cbn in Hdump. injection Hdump as <-.
    eexists. split; reflexivity.
  - reflexivity.
Defined.

(** X20 on an agent: the prompt of the first pass of [Script.echo_agent]. *)
Lemma AGENT_PROMPT_is_the_agent_prompt_witness :
  PromptTemplate.format AGENT_PROMPT
    [("tools_description", VStr (tools_description Script.echo_agent));
     ("context", VDict []);
     ("query", VStr "q")] =
    Some (Ok (_construct_prompt Script.echo_agent (as_input (inl "q")) [])).
Proof.
  apply (AGENT_PROMPT_is_the_agent_prompt Script.echo_agent (as_input (inl "q")) []);
    reflexivity.
Defined.

(** X22 on a run: the configuration allows no tool, the model asks for
    [echo], and [echo] is called. *)
Lemma execute_calls_the_registered_tool_witness :
  allowed_tools (config Scenario.strict_agent) = [] /\
  requests_tool (Script.tool_reply "echo" (VStr "x")) "echo" /\
  Dict.get "echo" (tools Scenario.strict_agent) = Some Script.echo /\
  exists mid arg w' res after',
    skipn 1 (events Scenario.run_strict) =
      mid ++ EvToolExecute "echo" arg res :: after' /\
    Forall (fun ev => is_store_call ev = true) mid /\
    dispatch_of (Script.tool_reply "echo" (VStr "x")) = Some ("echo", arg) /\
    res = fst (BaseTool.execute Script.echo arg w').
Proof.
  split; [reflexivity|].
  assert (requests_tool (Script.tool_reply "echo" (VStr "x")) "echo") as Hreq.
  { split; [reflexivity|]. eexists. repeat split; reflexivity. }
  split; [exact Hreq|]. split; [reflexivity|].
  apply (execute_calls_the_registered_tool Scenario.strict_agent
           (Script.mkWorld 1 Scenario.mirrored_script) (inl "q") None []
           (_construct_prompt Scenario.strict_agent (as_input (inl "q")) Dict.empty)
           (generate_kwargs (config Scenario.strict_agent))
           (Script.tool_reply "echo" (VStr "x"))
           (skipn 1 (events Scenario.run_strict)) "echo" Script.echo).
  - apply mirror_ok_no_memory. reflexivity.
  - vm_compute. reflexivity.
  - exact Hreq.
  - reflexivity.
Defined.

(** X23 on a run: tracing off, a memory attached, one tool call. *)
Lemma execute_without_tracing_is_silent_witness :
  trace_enabled (config Scenario.quiet_agent) = false /\
  is_Some (memory Scenario.quiet_agent) /\
  tool_calls (events Scenario.run_quiet) = 1%nat /\
  _traces (agent_after Scenario.run_quiet) = _traces Scenario.quiet_agent /\
  store_calls (events Scenario.run_quiet) = 0%nat.
Proof.
  split; [reflexivity|]. split; [by eexists|]. split; [reflexivity|].
  apply (execute_without_tracing_is_silent Scenario.quiet_agent
           (Script.mkWorld 1 Scenario.mirrored_script) (inl "q") None).
  reflexivity.
Defined.

(** X24 on a run: the model asks the mock search for the number 7. *)
Lemma agent_runs_the_mock_search_witness :
  MockSearchTool.validate_input
    (BaseInput.mk InputType.TEXT (VInt 7) Dict.empty) = false /\
  requests_tool (Script.tool_reply "search" (VInt 7)) "search" /\
  exists mid arg out after',
    skipn 1 (events Scenario.run_mock) =
      mid ++ EvToolExecute "search" arg (Ok out) :: after' /\
    dispatch_of (Script.tool_reply "search" (VInt 7)) = Some ("search", arg) /\
    BaseOutput.type out = OutputType.JSON /\
    exists r1 r2 meta,
      BaseOutput.content out =
        VDict [("query", BaseInput.content arg);
               ("results", VList [r1; r2]);
               ("metadata", VDict (("total_results", VInt 2) :: meta))].
Proof.
  split; [reflexivity|].
  assert (requests_tool (Script.tool_reply "search" (VInt 7)) "search") as Hreq.
  { split; [reflexivity|]. eexists. repeat split; reflexivity. }
  split; [exact Hreq|].
  apply (agent_runs_the_mock_search Scenario.mock_agent
           (Script.mkWorld 1 Scenario.mock_script) (inl "q") None []
           (_construct_prompt Scenario.mock_agent (as_input (inl "q")) Dict.empty)
           (generate_kwargs (config Scenario.mock_agent))
           (Script.tool_reply "search" (VInt 7))
           (skipn 1 (events Scenario.run_mock))).
  - apply mirror_ok_no_memory. reflexivity.
  - vm_compute. reflexivity.
  - exact Hreq.
  - reflexivity.
Defined.
